(** * armonia vite-plugin-ssr: a shallow embedding and its specification

    The development follows the two source files of the plugin:
    - [index.ts]: [emptyDir], [prepareOutDir] and the plugin factory [ssr]
      with its closures ([applyManifestTransformation],
      [applyTemplateTransformation], [resolveId], [load], the dev-server
      middleware installed by [configureServer], [buildStart]);
    - [minify.ts]: the [minify] factory.

    JavaScript strings are sequences of UTF-16 code units; values of type
    [unknown]/[any] are modelled by the inductive [value]; exceptions and
    rejected promises by [outcome]; the plugin's closure variables
    [manifestSource] and [templateSource], together with the disk, by the
    record [State], threaded through a small state, trace and exception
    monad.  Collaborators that are not part of the plugin (vite's dev
    server and [build], Node's [path] functions, the user's hooks, the
    minifier library) are parameters. *)

From Stdlib Require Import String Ascii.
From Stdlib Require Import List NArith ZArith Bool Lia Arith.
Import ListNotations.

Set Implicit Arguments.
Set Warnings "-register-all".
Local Open Scope list_scope.

(* ================================================================= *)
(** ** JavaScript strings and values *)

Module Js.

(** A JavaScript string is a finite sequence of 16-bit code units. *)
Definition char16 := N.
Definition jsstring := list char16.

(** String literals of the source, written with Rocq strings. *)
Definition lit (s : string) : jsstring :=
  map N_of_ascii (list_ascii_of_string s).

(** [a === b] on strings. *)
Fixpoint str_eqb (a b : jsstring) : bool :=
  match a, b with
  | [], [] => true
  | x :: a', y :: b' => N.eqb x y && str_eqb a' b'
  | _, _ => false
  end.

(** [String.prototype.startsWith]. *)
Fixpoint startsWith (s p : jsstring) : bool :=
  match p, s with
  | [], _ => true
  | y :: p', x :: s' => N.eqb x y && startsWith s' p'
  | _ :: _, [] => false
  end.

(** [String.prototype.endsWith]: the search string must fit, and the
    substring of that length at the end must be equal to it. *)
Definition endsWith (s p : jsstring) : bool :=
  (length p <=? length s)%nat &&
  str_eqb (skipn (length s - length p) s) p.

(** [s.replace(/c.*$/s, '')] for a single literal character [c]: with the
    [s] flag the dot matches every code unit, and [$] (no [m] flag) only the
    end of input, so the first match starts at the first [c] and runs to the
    end; without a [c] the string is returned unchanged. *)
Fixpoint strip_from (c : char16) (s : jsstring) : jsstring :=
  match s with
  | [] => []
  | x :: r => if N.eqb x c then [] else x :: strip_from c r
  end.

(** [s.slice(1)]. *)
Definition slice1 (s : jsstring) : jsstring := tl s.

(** Runtime values ([unknown] / [any]).  A number is carried as its decimal
    lexeme; no claim depends on IEEE rounding. *)
Inductive value : Type :=
| VUndefined
| VNull
| VBool (b : bool)
| VNumber (lexeme : jsstring)
| VString (s : jsstring)
| VArray (items : list value)
| VObject (props : list (jsstring * value))
| VFunction (name : jsstring).

Inductive jstype : Type :=
| TUndefined | TObject | TBoolean | TNumber | TString | TFunction.

(** The [typeof] operator ([typeof null] is ['object']). *)
Definition typeof (v : value) : jstype :=
  match v with
  | VUndefined => TUndefined
  | VNull => TObject
  | VBool _ => TBoolean
  | VNumber _ => TNumber
  | VString _ => TString
  | VArray _ => TObject
  | VObject _ => TObject
  | VFunction _ => TFunction
  end.

Definition jstype_eqb (a b : jstype) : bool :=
  match a, b with
  | TUndefined, TUndefined | TObject, TObject | TBoolean, TBoolean
  | TNumber, TNumber | TString, TString | TFunction, TFunction => true
  | _, _ => false
  end.

(** A number lexeme denotes zero when every digit of its mantissa is [0]. *)
Fixpoint mantissa_is_zero (s : jsstring) : bool :=
  match s with
  | [] => true
  | c :: r =>
      if N.eqb c 101 || N.eqb c 69 then true
      else if (N.leb 49 c && N.leb c 57) then false
      else mantissa_is_zero r
  end.

(** [ToBoolean]. *)
Definition truthy (v : value) : bool :=
  match v with
  | VUndefined | VNull => false
  | VBool b => b
  | VNumber n => negb (mantissa_is_zero n)
  | VString s => match s with [] => false | _ => true end
  | VArray _ | VObject _ | VFunction _ => true
  end.

(** Completion of a call that may throw (or of an awaited promise that may
    reject). *)
Inductive outcome (A : Type) : Type :=
| Ok (a : A)
| Throw (e : value).
Arguments Ok {A} a.
Arguments Throw {A} e.

(** The exception of a call of something that is not a function. *)
Definition TypeError : value :=
  VObject [(lit "name", VString (lit "TypeError"))].

End Js.

(* ================================================================= *)
(** ** JSON: [JSON.stringify] and [JSON.parse] *)

Module Json.
Import Js.

Definition is_high_surrogate (c : char16) : bool :=
  N.leb 0xD800 c && N.leb c 0xDBFF.
Definition is_low_surrogate (c : char16) : bool :=
  N.leb 0xDC00 c && N.leb c 0xDFFF.

(** One lowercase hexadecimal digit. *)
Definition hex_digit (n : N) : char16 :=
  if N.ltb n 10 then (48 + n)%N else (87 + n)%N.

(** [UnicodeEscape]: a backslash, [u] and four lowercase hex digits. *)
Definition unicode_escape (c : char16) : jsstring :=
  [92; 117;
   hex_digit ((c / 4096) mod 16); hex_digit ((c / 256) mod 16);
   hex_digit ((c / 16) mod 16); hex_digit (c mod 16)]%N.

(** The escape of one code unit that is not part of a surrogate pair
    ([QuoteJSONString], well-formed [JSON.stringify]). *)
Definition quote_unit (c : char16) : jsstring :=
  if N.eqb c 8 then [92; 98]%N
  else if N.eqb c 9 then [92; 116]%N
  else if N.eqb c 10 then [92; 110]%N
  else if N.eqb c 12 then [92; 102]%N
  else if N.eqb c 13 then [92; 114]%N
  else if N.eqb c 34 then [92; 34]%N
  else if N.eqb c 92 then [92; 92]%N
  else if N.ltb c 32 || is_high_surrogate c || is_low_surrogate c
       then unicode_escape c
  else [c].

(** The characters between the quotes: a high surrogate followed by a low
    one is a supplementary code point and is copied; every other unit goes
    through [quote_unit]. *)
Fixpoint quote_body (s : jsstring) : jsstring :=
  match s with
  | [] => []
  | c :: r =>
      if is_high_surrogate c then
        match r with
        | d :: r' =>
            if is_low_surrogate d then c :: d :: quote_body r'
            else quote_unit c ++ quote_body r
        | [] => quote_unit c
        end
      else quote_unit c ++ quote_body r
  end.

(** [JSON.stringify(s)] for a string [s]. *)
Definition quote (s : jsstring) : jsstring :=
  34%N :: quote_body s ++ [34%N].

Definition spaces (n : nat) : jsstring := repeat 32%N n.

Fixpoint join (sep : jsstring) (parts : list jsstring) : jsstring :=
  match parts with
  | [] => []
  | [p] => p
  | p :: rest => p ++ sep ++ join sep rest
  end.

(** [SerializeJSONProperty] with a gap of [gap] spaces per level, at
    indentation [ind]; [None] is the [undefined] result that makes the
    caller drop a property or print [null] for an array element. *)
Fixpoint serialize (gap ind : nat) (v : value) {struct v} : option jsstring :=
  match v with
  | VUndefined => None
  | VFunction _ => None
  | VNull => Some (lit "null")
  | VBool true => Some (lit "true")
  | VBool false => Some (lit "false")
  | VNumber n => Some n
  | VString s => Some (quote s)
  | VArray items =>
      let stepback := ind in
      let ind' := (ind + gap)%nat in
      let parts :=
        (fix elems (l : list value) : list jsstring :=
           match l with
           | [] => []
           | x :: l' =>
               match serialize gap ind' x with
               | Some t => t
               | None => lit "null"
               end :: elems l'
           end) items in
      match parts with
      | [] => Some (lit "[]")
      | _ =>
          match gap with
          | O => Some (lit "[" ++ join (lit ",") parts ++ lit "]")
          | _ =>
              let sep := lit "," ++ [10%N] ++ spaces ind' in
              Some (lit "[" ++ [10%N] ++ spaces ind' ++ join sep parts ++
                    [10%N] ++ spaces stepback ++ lit "]")
          end
      end
  | VObject props =>
      let stepback := ind in
      let ind' := (ind + gap)%nat in
      let parts :=
        (fix members (l : list (jsstring * value)) : list jsstring :=
           match l with
           | [] => []
           | (k, x) :: l' =>
               match serialize gap ind' x with
               | Some t =>
                   (quote k ++ lit ":" ++
                    match gap with O => [] | _ => [32%N] end ++ t)
                   :: members l'
               | None => members l'
               end
           end) props in
      match parts with
      | [] => Some (lit "{}")
      | _ =>
          match gap with
          | O => Some (lit "{" ++ join (lit ",") parts ++ lit "}")
          | _ =>
              let sep := lit "," ++ [10%N] ++ spaces ind' in
              Some (lit "{" ++ [10%N] ++ spaces ind' ++ join sep parts ++
                    [10%N] ++ spaces stepback ++ lit "}")
          end
      end
  end.

(** [JSON.stringify(v)] and [JSON.stringify(v, null, 2)]; [None] stands
    for the result [undefined]. *)
Definition stringify (v : value) : option jsstring := serialize 0 0 v.
Definition stringify_pretty (v : value) : option jsstring := serialize 2 0 v.

(** A template-literal substitution [${x}] of a [JSON.stringify] result. *)
Definition interpolate (r : option jsstring) : jsstring :=
  match r with
  | Some t => t
  | None => lit "undefined"
  end.


(** *** [JSON.parse] *)

Definition is_ws (c : char16) : bool :=
  N.eqb c 9 || N.eqb c 10 || N.eqb c 13 || N.eqb c 32.

Fixpoint skip_ws (s : jsstring) : jsstring :=
  match s with
  | c :: r => if is_ws c then skip_ws r else s
  | [] => []
  end.

Definition is_digit (c : char16) : bool := N.leb 48 c && N.leb c 57.

Definition hex_value (c : char16) : option N :=
  if N.leb 48 c && N.leb c 57 then Some (c - 48)%N
  else if N.leb 97 c && N.leb c 102 then Some (c - 87)%N
  else if N.leb 65 c && N.leb c 70 then Some (c - 55)%N
  else None.

Definition hex4 (a b c d : char16) : option N :=
  match hex_value a, hex_value b, hex_value c, hex_value d with
  | Some x, Some y, Some z, Some w =>
      Some (4096 * x + 256 * y + 16 * z + w)%N
  | _, _, _, _ => None
  end.

(** The single-character escapes of the JSON grammar. *)
Definition json_escape (e : char16) : option char16 :=
  if N.eqb e 34 then Some 34%N
  else if N.eqb e 92 then Some 92%N
  else if N.eqb e 47 then Some 47%N
  else if N.eqb e 98 then Some 8%N
  else if N.eqb e 102 then Some 12%N
  else if N.eqb e 110 then Some 10%N
  else if N.eqb e 114 then Some 13%N
  else if N.eqb e 116 then Some 9%N
  else None.

Definition push (c : char16) (r : option (jsstring * jsstring)) :
  option (jsstring * jsstring) :=
  match r with
  | Some (t, rest) => Some (c :: t, rest)
  | None => None
  end.

(** A JSON string, after its opening quote: the value and the rest. *)
Fixpoint parse_string_body (s : jsstring) : option (jsstring * jsstring) :=
  match s with
  | [] => None
  | c :: r =>
      if N.eqb c 34 then Some ([], r)
      else if N.eqb c 92 then
        match r with
        | [] => None
        | e :: r1 =>
            if N.eqb e 117 then
              match r1 with
              | a :: b :: c' :: d :: r2 =>
                  match hex4 a b c' d with
                  | Some u => push u (parse_string_body r2)
                  | None => None
                  end
              | _ => None
              end
            else
              match json_escape e with
              | Some u => push u (parse_string_body r1)
              | None => None
              end
        end
      else if N.ltb c 32 then None
      else push c (parse_string_body r)
  end.

Fixpoint take_digits (s : jsstring) : jsstring * jsstring :=
  match s with
  | c :: r =>
      if is_digit c then let (d, rest) := take_digits r in (c :: d, rest)
      else ([], s)
  | [] => ([], [])
  end.

(** A JSON number: an optional minus sign; a single zero, or a non-zero
    digit followed by digits; optionally a dot and at least one digit;
    optionally an exponent mark, an optional sign and at least one digit.
    Returns the lexeme and the rest. *)
Definition parse_number (s : jsstring) : option (jsstring * jsstring) :=
  let (sign, s1) :=
    match s with
    | c :: r => if N.eqb c 45 then ([c], r) else ([], s)
    | [] => ([], s)
    end in
  let int_part :=
    match s1 with
    | c :: r =>
        if N.eqb c 48 then Some ([c], r)
        else if is_digit c then
          let (d, rest) := take_digits r in Some (c :: d, rest)
        else None
    | [] => None
    end in
  match int_part with
  | None => None
  | Some (i, s2) =>
      let frac :=
        match s2 with
        | c :: r =>
            if N.eqb c 46 then
              match take_digits r with
              | ([], _) => None
              | (d, rest) => Some (c :: d, rest)
              end
            else Some ([], s2)
        | [] => Some ([], s2)
        end in
      match frac with
      | None => None
      | Some (f, s3) =>
          let exp :=
            match s3 with
            | c :: r =>
                if N.eqb c 101 || N.eqb c 69 then
                  let (sg, r') :=
                    match r with
                    | x :: r0 =>
                        if N.eqb x 43 || N.eqb x 45 then ([x], r0)
                        else ([], r)
                    | [] => ([], r)
                    end in
                  match take_digits r' with
                  | ([], _) => None
                  | (d, rest) => Some (c :: sg ++ d, rest)
                  end
                else Some ([], s3)
            | [] => Some ([], s3)
            end in
          match exp with
          | None => None
          | Some (e, s4) => Some (sign ++ i ++ f ++ e, s4)
          end
      end
  end.

(** The numeric value of a canonical array index ([0], or digits without a
    leading zero, below [2^32 - 1]); such keys are enumerated first, in
    ascending order, by [OrdinaryOwnPropertyKeys]. *)
Definition digits_value (s : jsstring) : N :=
  fold_left (fun acc c => (10 * acc + (c - 48))%N) s 0%N.

Definition array_index (k : jsstring) : option N :=
  match k with
  | [] => None
  | c :: r =>
      if forallb is_digit k
         && (negb (N.eqb c 48) || (length r =? 0)%nat)
         && (length k <=? 10)%nat && N.ltb (digits_value k) 4294967295
      then Some (digits_value k)
      else None
  end.

Definition has_key (props : list (jsstring * value)) (k : jsstring) : bool :=
  existsb (fun kv => str_eqb (fst kv) k) props.

Fixpoint replace_key (props : list (jsstring * value)) (k : jsstring) (v : value) :=
  match props with
  | [] => []
  | (k', v') :: r =>
      if str_eqb k' k then (k', v) :: r else (k', v') :: replace_key r k v
  end.

Fixpoint insert_index (props : list (jsstring * value)) (i : N)
         (k : jsstring) (v : value) :=
  match props with
  | [] => [(k, v)]
  | (k', v') :: r =>
      match array_index k' with
      | Some j =>
          if N.ltb i j then (k, v) :: props
          else (k', v') :: insert_index r i k v
      | None => (k, v) :: props
      end
  end.

(** [CreateDataProperty] on a plain object, keeping the list in property
    enumeration order. *)
Definition obj_set (props : list (jsstring * value)) (k : jsstring) (v : value) :=
  if has_key props k then replace_key props k v
  else match array_index k with
       | Some i => insert_index props i k v
       | None => props ++ [(k, v)]
       end.

Definition expect (word : jsstring) (v : value) (s : jsstring) :
  option (value * jsstring) :=
  if startsWith s word then Some (v, skipn (length word) s) else None.

(** Recursive descent over the JSON grammar; every call consumes fuel, and
    [S (length text)] is enough for any text. *)
Fixpoint parse_value (fuel : nat) (s : jsstring) {struct fuel} :
  option (value * jsstring) :=
  match fuel with
  | O => None
  | S f =>
      match skip_ws s with
      | [] => None
      | c :: r =>
          if N.eqb c 123 then
            match skip_ws r with
            | d :: r' =>
                if N.eqb d 125 then Some (VObject [], r')
                else parse_members f r []
            | [] => None
            end
          else if N.eqb c 91 then
            match skip_ws r with
            | d :: r' =>
                if N.eqb d 93 then Some (VArray [], r')
                else parse_elements f r []
            | [] => None
            end
          else if N.eqb c 34 then
            match parse_string_body r with
            | Some (t, rest) => Some (VString t, rest)
            | None => None
            end
          else if N.eqb c 116 then expect (lit "true") (VBool true) (c :: r)
          else if N.eqb c 102 then expect (lit "false") (VBool false) (c :: r)
          else if N.eqb c 110 then expect (lit "null") VNull (c :: r)
          else
            match parse_number (c :: r) with
            | Some (n, rest) => Some (VNumber n, rest)
            | None => None
            end
      end
  end
with parse_members (fuel : nat) (s : jsstring)
       (acc : list (jsstring * value)) {struct fuel} :
  option (value * jsstring) :=
  match fuel with
  | O => None
  | S f =>
      match skip_ws s with
      | q :: r =>
          if N.eqb q 34 then
            match parse_string_body r with
            | Some (k, r1) =>
                match skip_ws r1 with
                | colon :: r2 =>
                    if N.eqb colon 58 then
                      match parse_value f r2 with
                      | Some (v, r3) =>
                          let acc' := obj_set acc k v in
                          match skip_ws r3 with
                          | d :: r4 =>
                              if N.eqb d 44 then parse_members f r4 acc'
                              else if N.eqb d 125 then Some (VObject acc', r4)
                              else None
                          | [] => None
                          end
                      | None => None
                      end
                    else None
                | [] => None
                end
            | None => None
            end
          else None
      | [] => None
      end
  end
with parse_elements (fuel : nat) (s : jsstring) (acc : list value)
       {struct fuel} : option (value * jsstring) :=
  match fuel with
  | O => None
  | S f =>
      match parse_value f s with
      | Some (v, r) =>
          match skip_ws r with
          | d :: r' =>
              if N.eqb d 44 then parse_elements f r' (acc ++ [v])
              else if N.eqb d 93 then Some (VArray (acc ++ [v]), r')
              else None
          | [] => None
          end
      | None => None
      end
  end.

(** The exception [JSON.parse] throws on a text outside the grammar. *)
Definition SyntaxError : value :=
  VObject [(lit "name", VString (lit "SyntaxError"))].

(** [JSON.parse(text)]. *)
Definition parse (text : jsstring) : outcome value :=
  match parse_value (S (length text)) text with
  | Some (v, rest) =>
      match skip_ws rest with
      | [] => Ok v
      | _ :: _ => Throw SyntaxError
      end
  | None => Throw SyntaxError
  end.

End Json.

(* ================================================================= *)
(** ** ECMAScript source text: evaluating a generated module *)

Module Es.
Import Js Json.

(** [UTF16EncodeCodePoint]. *)
Definition utf16_encode (cp : N) : jsstring :=
  if N.ltb cp 0x10000 then [cp]
  else [(0xD800 + (cp - 0x10000) / 1024)%N; (0xDC00 + (cp - 0x10000) mod 1024)%N].

(** The digits of a braced code point escape, up to the closing brace. *)
Fixpoint read_braced_hex (s : jsstring) (acc : N) (seen : bool) :
  option (N * jsstring) :=
  match s with
  | [] => None
  | c :: r =>
      if N.eqb c 125 then (if seen then Some (acc, r) else None)
      else
        match hex_value c with
        | Some d =>
            let acc' := (16 * acc + d)%N in
            if N.leb acc' 0x10FFFF then read_braced_hex r acc' true else None
        | None => None
        end
  end.

(** What follows a backslash in a string literal of strict-mode code: the
    code units it denotes and the rest of the text.  Octal escapes are
    syntax errors in a module. *)
Definition eval_escape (r : jsstring) : option (jsstring * jsstring) :=
  match r with
  | [] => None
  | e :: r1 =>
      if N.eqb e 34 then Some ([34%N], r1)
      else if N.eqb e 39 then Some ([39%N], r1)
      else if N.eqb e 92 then Some ([92%N], r1)
      else if N.eqb e 98 then Some ([8%N], r1)
      else if N.eqb e 102 then Some ([12%N], r1)
      else if N.eqb e 110 then Some ([10%N], r1)
      else if N.eqb e 114 then Some ([13%N], r1)
      else if N.eqb e 116 then Some ([9%N], r1)
      else if N.eqb e 118 then Some ([11%N], r1)
      else if N.eqb e 48 then
        match r1 with
        | d :: _ => if is_digit d then None else Some ([0%N], r1)
        | [] => Some ([0%N], r1)
        end
      else if is_digit e then None
      else if N.eqb e 120 then
        match r1 with
        | a :: b :: r2 =>
            match hex_value a, hex_value b with
            | Some x, Some y => Some ([(16 * x + y)%N], r2)
            | _, _ => None
            end
        | _ => None
        end
      else if N.eqb e 117 then
        match r1 with
        | a :: r2 =>
            if N.eqb a 123 then
              match read_braced_hex r2 0 false with
              | Some (cp, rest) => Some (utf16_encode cp, rest)
              | None => None
              end
            else
              match r2 with
              | b :: c :: d :: r3 =>
                  match hex4 a b c d with
                  | Some u => Some ([u], r3)
                  | None => None
                  end
              | _ => None
              end
        | [] => None
        end
      else if N.eqb e 10 || N.eqb e 0x2028 || N.eqb e 0x2029 then Some ([], r1)
      else if N.eqb e 13 then
        match r1 with
        | d :: r2 => if N.eqb d 10 then Some ([], r2) else Some ([], r1)
        | [] => Some ([], r1)
        end
      else Some ([e], r1)
  end.

Definition prepend (us : jsstring) (r : option (jsstring * jsstring)) :
  option (jsstring * jsstring) :=
  match r with
  | Some (t, rest) => Some (us ++ t, rest)
  | None => None
  end.

(** The string value of a double-quoted string literal, after its opening
    quote, and the text after its closing quote.  A raw line feed or
    carriage return ends the literal with a syntax error. *)
Fixpoint eval_string_chars (fuel : nat) (s : jsstring) :
  option (jsstring * jsstring) :=
  match fuel with
  | O => None
  | S f =>
      match s with
      | [] => None
      | c :: r =>
          if N.eqb c 34 then Some ([], r)
          else if N.eqb c 92 then
            match eval_escape r with
            | Some (us, rest) => prepend us (eval_string_chars f rest)
            | None => None
            end
          else if N.eqb c 10 || N.eqb c 13 then None
          else prepend [c] (eval_string_chars f r)
      end
  end.

(** The value of the default export of a module whose whole text is
    [export default] followed by a double-quoted string literal. *)
Definition eval_default_export (src : jsstring) : option value :=
  let kw := lit "export default " in
  if startsWith src kw then
    match skipn (length kw) src with
    | q :: body =>
        if N.eqb q 34 then
          match eval_string_chars (S (length body)) body with
          | Some (t, rest) =>
              match skip_ws rest with
              | [] => Some (VString t)
              | _ :: _ => None
              end
          | None => None
          end
        else None
    | [] => None
    end
  else None.

End Es.

(* ================================================================= *)
(** ** The file system as the plugin uses it (Node's [fs] and [path]) *)

Module Fs.
Import Js.

(** A directory entry is a directory or anything else ([lstat] answers
    [isDirectory()] only for the former).  The order of [entries] is the
    order in which [readdirSync] lists them. *)
Inductive node : Type :=
| File (data : jsstring)
| Dir (entries : list (jsstring * node)).

Definition path := list jsstring.

Definition slash : char16 := 47%N.

(** The components of an absolute path string. *)
Fixpoint components_aux (s cur : jsstring) : path :=
  match s with
  | [] => match cur with [] => [] | _ :: _ => [cur] end
  | c :: r =>
      if N.eqb c slash then
        match cur with
        | [] => components_aux r []
        | _ :: _ => cur :: components_aux r []
        end
      else components_aux r (cur ++ [c])
  end.

Definition components (s : jsstring) : path := components_aux s [].

(** [path.resolve(dir, file)] for an absolute [dir] and an entry name
    [file] as [readdirSync] returns it. *)
Definition path_resolve (dir file : jsstring) : jsstring :=
  dir ++ slash :: file.

Fixpoint find_entry (es : list (jsstring * node)) (name : jsstring) :
  option node :=
  match es with
  | [] => None
  | (k, n) :: r => if str_eqb k name then Some n else find_entry r name
  end.

Fixpoint set_entry (es : list (jsstring * node)) (name : jsstring)
         (new : node) : list (jsstring * node) :=
  match es with
  | [] => []
  | (k, n) :: r =>
      if str_eqb k name then (k, new) :: r else (k, n) :: set_entry r name new
  end.

Definition remove_entry (es : list (jsstring * node)) (name : jsstring) :=
  filter (fun kn => negb (str_eqb (fst kn) name)) es.

Fixpoint lookup (n : node) (p : path) : option node :=
  match p with
  | [] => Some n
  | x :: p' =>
      match n with
      | Dir es =>
          match find_entry es x with
          | Some c => lookup c p'
          | None => None
          end
      | File _ => None
      end
  end.

(** Replace the node at [p] (nothing happens when [p] does not exist). *)
Fixpoint set_at (n : node) (p : path) (new : node) : node :=
  match p with
  | [] => new
  | x :: p' =>
      match n with
      | Dir es =>
          match find_entry es x with
          | Some c => Dir (set_entry es x (set_at c p' new))
          | None => n
          end
      | File _ => n
      end
  end.

Fixpoint split_last (p : path) : option (path * jsstring) :=
  match p with
  | [] => None
  | [x] => Some ([], x)
  | x :: p' =>
      match split_last p' with
      | Some (q, l) => Some (x :: q, l)
      | None => None
      end
  end.

Definition fs_error (code : string) : value :=
  VObject [(lit "code", VString (lit code))].

Definition existsSync (fs : node) (p : jsstring) : bool :=
  match lookup fs (components p) with
  | Some _ => true
  | None => false
  end.

Definition readdirSync (fs : node) (p : jsstring) : outcome (list jsstring) :=
  match lookup fs (components p) with
  | Some (Dir es) => Ok (map fst es)
  | Some (File _) => Throw (fs_error "ENOTDIR")
  | None => Throw (fs_error "ENOENT")
  end.

(** [fs.lstatSync(p).isDirectory()]. *)
Definition lstat_isDirectory (fs : node) (p : jsstring) : outcome bool :=
  match lookup fs (components p) with
  | Some (Dir _) => Ok true
  | Some (File _) => Ok false
  | None => Throw (fs_error "ENOENT")
  end.

(** Drop the entry named by the last component of [p] from its parent. *)
Definition remove_at (fs : node) (p : path) : outcome node :=
  match split_last p with
  | None => Throw (fs_error "EBUSY")
  | Some (parent, name) =>
      match lookup fs parent with
      | Some (Dir es) => Ok (set_at fs parent (Dir (remove_entry es name)))
      | _ => Throw (fs_error "ENOENT")
      end
  end.

Definition rmdirSync (fs : node) (p : jsstring) : outcome node :=
  match lookup fs (components p) with
  | Some (Dir []) => remove_at fs (components p)
  | Some (Dir (_ :: _)) => Throw (fs_error "ENOTEMPTY")
  | Some (File _) => Throw (fs_error "ENOTDIR")
  | None => Throw (fs_error "ENOENT")
  end.

Definition unlinkSync (fs : node) (p : jsstring) : outcome node :=
  match lookup fs (components p) with
  | Some (File _) => remove_at fs (components p)
  | Some (Dir _) => Throw (fs_error "EISDIR")
  | None => Throw (fs_error "ENOENT")
  end.

(** [fs.readFileSync(p, 'utf-8')]. *)
Definition readFileSync (fs : node) (p : jsstring) : outcome jsstring :=
  match lookup fs (components p) with
  | Some (File d) => Ok d
  | Some (Dir _) => Throw (fs_error "EISDIR")
  | None => Throw (fs_error "ENOENT")
  end.

(** [fs.writeFileSync(p, data, 'utf-8')]: creates the file or replaces its
    contents; the parent directory must exist. *)
Definition writeFileSync (fs : node) (p : jsstring) (data : jsstring) :
  outcome node :=
  match split_last (components p) with
  | None => Throw (fs_error "EISDIR")
  | Some (parent, name) =>
      match lookup fs parent with
      | Some (Dir es) =>
          match find_entry es name with
          | Some (Dir _) => Throw (fs_error "EISDIR")
          | Some (File _) =>
              Ok (set_at fs parent (Dir (set_entry es name (File data))))
          | None => Ok (set_at fs parent (Dir (es ++ [(name, File data)])))
          end
      | _ => Throw (fs_error "ENOENT")
      end
  end.

(** [skip?.includes(file)]. *)
Definition skip_includes (skip : option (list jsstring)) (file : jsstring) : bool :=
  match skip with
  | Some l => existsb (fun k => str_eqb k file) l
  | None => false
  end.

(** The body of [emptyDir]'s loop over the listing [files], taken before
    the first deletion; [recurse] is the recursive call [emptyDir(abs)].
    The result is the completion together with the file system after it;
    [None] means that the fuel of a recursive call did not suffice. *)
Fixpoint emptyDir_loop (recurse : jsstring -> node -> option (outcome unit * node))
         (dir : jsstring) (skip : option (list jsstring))
         (files : list jsstring) (fs : node) {struct files} :
  option (outcome unit * node) :=
  match files with
  | [] => Some (Ok tt, fs)
  | file :: rest =>
      if skip_includes skip file then emptyDir_loop recurse dir skip rest fs
      else
        let abs := path_resolve dir file in
        match lstat_isDirectory fs abs with
        | Throw e => Some (Throw e, fs)
        | Ok true =>
            match recurse abs fs with
            | None => None
            | Some (Throw e, fs1) => Some (Throw e, fs1)
            | Some (Ok _, fs1) =>
                match rmdirSync fs1 abs with
                | Throw e => Some (Throw e, fs1)
                | Ok fs2 => emptyDir_loop recurse dir skip rest fs2
                end
            end
        | Ok false =>
            match unlinkSync fs abs with
            | Throw e => Some (Throw e, fs)
            | Ok fs1 => emptyDir_loop recurse dir skip rest fs1
            end
        end
  end.

(** [emptyDir(dir, skip)].  The recursion descends into sub-directories, so
    the embedding carries fuel, one unit per level. *)
Fixpoint emptyDir (fuel : nat) (dir : jsstring) (skip : option (list jsstring))
         (fs : node) {struct fuel} : option (outcome unit * node) :=
  match fuel with
  | O => None
  | S f =>
      match readdirSync fs dir with
      | Throw e => Some (Throw e, fs)
      | Ok files =>
          emptyDir_loop (fun abs fs' => emptyDir f abs None fs') dir skip files fs
      end
  end.

(** The text handed to [config.logger.warn]; [chalk] styling is taken at
    colour level 0, where every style is the identity. *)
Definition outside_root_warning (outDir : jsstring) : jsstring :=
  [10%N] ++ lit "(!)" ++ lit " outDir " ++ outDir ++
  lit " is not inside project root and will not be emptied." ++ [10%N] ++
  lit "Use --emptyOutDir to override." ++ [10%N].

Section PrepareOutDir.

(** [normalizePath] is imported from vite, not defined by the plugin. *)
Variable normalizePath : jsstring -> jsstring.

(** [emptyOutDir == null] holds for [null] and [undefined] alike: the
    preference is [None] when unspecified. *)
Definition outside_root (outDir root : jsstring) : bool :=
  negb (startsWith (normalizePath outDir) (root ++ [slash])).

(** [prepareOutDir(outDir, emptyOutDir, config)]: the completion, the file
    system afterwards and the warnings logged ([config.root] is the only
    part of the configuration it reads). *)
Definition prepareOutDir (fuel : nat) (outDir : jsstring)
           (emptyOutDir : option bool) (root : jsstring) (fs : node) :
  option (outcome unit * node * list jsstring) :=
  if existsSync fs outDir then
    if match emptyOutDir with None => true | Some _ => false end
       && outside_root outDir root
    then Some (Ok tt, fs, [outside_root_warning outDir])
    else if match emptyOutDir with Some false => false | _ => true end
    then
      match emptyDir fuel outDir (Some [lit ".git"]) fs with
      | Some (r, fs') => Some (r, fs', [])
      | None => None
      end
    else Some (Ok tt, fs, [])
  else Some (Ok tt, fs, []).

End PrepareOutDir.

(** Depth of a tree: one call of [emptyDir] per level. *)
Fixpoint height (n : node) : nat :=
  match n with
  | File _ => 0
  | Dir es =>
      S ((fix hs (l : list (jsstring * node)) : nat :=
            match l with
            | [] => 0
            | (_, c) :: l' => Nat.max (height c) (hs l')
            end) es)
  end.

Definition valid_name (k : jsstring) : bool :=
  match k with
  | [] => false
  | _ :: _ => forallb (fun c => negb (N.eqb c slash)) k
  end.

(** Well-formed trees: entry names are non-empty, contain no slash and are
    pairwise distinct within a directory. *)
Inductive wf : node -> Prop :=
| wf_file d : wf (File d)
| wf_dir es :
    NoDup (map fst es) ->
    Forall (fun kn => valid_name (fst kn) = true /\ wf (snd kn)) es ->
    wf (Dir es).

(** The boolean form of [wf]. *)
Fixpoint distinct (names : list jsstring) : bool :=
  match names with
  | [] => true
  | k :: r => negb (existsb (fun k' => str_eqb k' k) r) && distinct r
  end.

Fixpoint wfb (n : node) : bool :=
  match n with
  | File _ => true
  | Dir es =>
      distinct (map fst es) &&
      (fix all (l : list (jsstring * node)) : bool :=
         match l with
         | [] => true
         | (k, c) :: l' => valid_name k && wfb c && all l'
         end) es
  end.

End Fs.

(* ================================================================= *)
(** ** The plugin ([index.ts]) *)

Module Plugin.
Import Js Json.

(** What the middleware reads of an [IncomingMessage] and of a
    [ServerResponse]. *)
Record Request : Type := {
  url : option jsstring;
  originalUrl : option jsstring;
  headers : list (jsstring * value)
}.

Record Response : Type := {
  writableEnded : bool
}.

(** [req.headers[name]]. *)
Definition header (req : Request) (name : jsstring) : value :=
  match find (fun kv => str_eqb (fst kv) name) (headers req) with
  | Some (_, v) => v
  | None => VUndefined
  end.

(** The module returned by [server.ssrLoadModule]: its [render] export,
    when it is callable. *)
Record SsrModule : Type := {
  module_render : option (Request -> jsstring -> outcome value)
}.

Record RenderContext : Type := {
  ctx_ssr : SsrModule;
  ctx_req : Request;
  ctx_res : Response;
  ctx_template : jsstring;
  ctx_manifest : value
}.

(** An in-place write to a value that a hook holds: it changes the
    properties of an object or the elements of an array; it cannot make the
    object something else, and a primitive cannot be written to. *)
Definition written (before after : value) : value :=
  match before, after with
  | VObject _, VObject props => VObject props
  | VArray _, VArray items => VArray items
  | _, _ => before
  end.

(** The render hook.  Line 282 hands it the stored manifest object itself
    as [ctx.manifest], so a run of the hook is what awaiting the call gives
    and what the call leaves in that object. *)
Record RenderHook : Type := {
  hook_result :> RenderContext -> outcome value;
  hook_manifest : RenderContext -> value
}.

(** A render hook that does not write to [ctx.manifest]. *)
Definition reading (f : RenderContext -> outcome value) : RenderHook :=
  {| hook_result := f; hook_manifest := ctx_manifest |}.

(** [PluginOptions].  A transform hook is a function of its argument; its
    outcome is what awaiting the call gives. *)
Record PluginOptions : Type := {
  ssr : value;
  manifestId : option jsstring;
  templateId : option jsstring;
  buildConfig : value;
  writeManifest : option bool;
  transformManifest : option (value -> outcome value);
  transformTemplate : option (jsstring -> outcome value);
  render : option RenderHook
}.

(** [options?.field] on the optional argument of [ssr]. *)
Definition opt_ssr (options : option PluginOptions) : value :=
  match options with Some o => ssr o | None => VUndefined end.
Definition opt_manifestId (options : option PluginOptions) : option jsstring :=
  match options with Some o => manifestId o | None => None end.
Definition opt_templateId (options : option PluginOptions) : option jsstring :=
  match options with Some o => templateId o | None => None end.
Definition opt_writeManifest (options : option PluginOptions) : option bool :=
  match options with Some o => writeManifest o | None => None end.
Definition opt_transformManifest (options : option PluginOptions) :=
  match options with Some o => transformManifest o | None => None end.
Definition opt_transformTemplate (options : option PluginOptions) :=
  match options with Some o => transformTemplate o | None => None end.
Definition opt_render (options : option PluginOptions) :=
  match options with Some o => render o | None => None end.

(** [s || d] for an optional string: the default replaces [undefined] and
    the empty string. *)
Definition or_default (s : option jsstring) (d : jsstring) : jsstring :=
  match s with
  | Some (c :: r) => c :: r
  | Some [] => d
  | None => d
  end.

(** [a || b] on values. *)
Definition or_else (a b : value) : value := if truthy a then a else b.

(** Lines 104 and 105: both names are computed from [manifestId]. *)
Definition SSR_MANIFEST_NAME (options : option PluginOptions) : jsstring :=
  or_default (opt_manifestId options) (lit "ssr:manifest").
Definition SSR_TEMPLATE_NAME (options : option PluginOptions) : jsstring :=
  or_default (opt_manifestId options) (lit "ssr:template").

(** The closure variables [manifestSource] and [templateSource] (the
    artifact store), and the disk. *)
Record State : Type := {
  manifestSource : value;
  templateSource : jsstring;
  disk : Fs.node
}.

(** The state of a freshly created plugin on a given disk. *)
Definition initial (d : Fs.node) : State :=
  {| manifestSource := VObject []; templateSource := []; disk := d |}.

(** What the plugin does to its collaborators, in order. *)
Inductive event : Type :=
| ENext (err : option value)
| EExistsSync (file : jsstring)
| EReadFileSync (file : jsstring)
| EUnlinkSync (file : jsstring)
| EWriteFileSync (file : jsstring) (data : jsstring)
| ETransformIndexHtml (u : jsstring) (html : jsstring) (orig : option jsstring)
| ETransformManifest (arg : value)
| ETransformTemplate (arg : jsstring)
| ESsrLoadModule (id : jsstring)
| ERenderHook (ctx : RenderContext)
| EModuleRender (req : Request) (template : jsstring)
| ESend (body : jsstring) (type : jsstring) (hdrs : value)
| EBuild (outDir : jsstring)
| EInfo (name text : jsstring)
| EWarn (text : jsstring).

(** State, trace and exceptions. *)
Definition M (A : Type) : Type := State -> outcome A * State * list event.

Definition ret {A} (a : A) : M A := fun st => (Ok a, st, []).

Definition bind {A B} (m : M A) (k : A -> M B) : M B :=
  fun st =>
    match m st with
    | (Ok a, st1, t1) =>
        match k a st1 with
        | (r, st2, t2) => (r, st2, t1 ++ t2)
        end
    | (Throw e, st1, t1) => (Throw e, st1, t1)
    end.

Definition try_catch {A} (m : M A) (h : value -> M A) : M A :=
  fun st =>
    match m st with
    | (Throw e, st1, t1) =>
        match h e st1 with
        | (r, st2, t2) => (r, st2, t1 ++ t2)
        end
    | (Ok a, st1, t1) => (Ok a, st1, t1)
    end.

(** The completion of a call into a collaborator (or of awaiting it). *)
Definition call {A} (o : outcome A) : M A := fun st => (o, st, []).
Definition emit (e : event) : M unit := fun st => (Ok tt, st, [e]).
Definition get {A} (f : State -> A) : M A := fun st => (Ok (f st), st, []).
Definition set_manifestSource (v : value) : M unit :=
  fun st => (Ok tt, {| manifestSource := v; templateSource := templateSource st;
                       disk := disk st |}, []).
Definition set_templateSource (t : jsstring) : M unit :=
  fun st => (Ok tt, {| manifestSource := manifestSource st; templateSource := t;
                       disk := disk st |}, []).
Definition set_disk (d : Fs.node) : M unit :=
  fun st => (Ok tt, {| manifestSource := manifestSource st;
                       templateSource := templateSource st; disk := d |}, []).

Notation "x <- m ;; k" := (bind m (fun x => k))
  (at level 61, m at next level, right associativity).
Notation "m ;;; k" := (bind m (fun _ => k))
  (at level 61, right associativity).

Section Closures.

Variable options : option PluginOptions.

(** [applyManifestTransformation]. *)
Definition applyManifestTransformation : M unit :=
  manifest <-
    match opt_transformManifest options with
    | Some hook =>
        current <- get manifestSource ;;
        emit (ETransformManifest current) ;;;
        call (hook current)
    | None => ret VUndefined
    end ;;
  manifest <-
    match manifest with
    | VString text => call (parse text)
    | other => ret other
    end ;;
  if truthy manifest && jstype_eqb (typeof manifest) TObject
  then set_manifestSource manifest
  else ret tt.

(** [applyTemplateTransformation]. *)
Definition applyTemplateTransformation : M unit :=
  template <-
    match opt_transformTemplate options with
    | Some hook =>
        current <- get templateSource ;;
        emit (ETransformTemplate current) ;;;
        call (hook current)
    | None => ret VUndefined
    end ;;
  match template with
  | VString t => set_templateSource t
  | _ => ret tt
  end.

(** [transformIndexHtml.transform(html)]: [templateSource = html || '']. *)
Definition transformIndexHtml_transform (html : option jsstring) : M unit :=
  set_templateSource (or_default html []).

(** [resolveId(source)]; [None] is the result [undefined]. *)
Definition resolveId (source : jsstring) : option jsstring :=
  if str_eqb source (SSR_MANIFEST_NAME options)
     || str_eqb source (SSR_TEMPLATE_NAME options)
  then Some source
  else None.

(** [load(id)]; [None] is the result [undefined]. *)
Definition load (st : State) (id : jsstring) : option jsstring :=
  if str_eqb id (SSR_MANIFEST_NAME options) then
    Some (lit "export default " ++
          interpolate (stringify_pretty (manifestSource st)))
  else if str_eqb id (SSR_TEMPLATE_NAME options) then
    Some (lit "export default " ++ quote (templateSource st))
  else None.

End Closures.

(** The resolved configuration of the dev server, as far as it is read. *)
Record ServerConfig : Type := {
  root : jsstring;
  build_ssr : value;
  build_rollupOptions_input : value;
  server_headers : value
}.

(** The dev server, vite's [send] and the Node functions the middleware
    calls.  [send] is given the request, the response and the body. *)
Record ViteDevServer : Type := {
  config : ServerConfig;
  transformIndexHtml : jsstring -> jsstring -> option jsstring -> outcome jsstring;
  ssrLoadModule : jsstring -> outcome SsrModule;
  send : Request -> Response -> jsstring -> outcome unit;
  path_join : jsstring -> jsstring -> jsstring;
  decodeURIComponent : jsstring -> outcome jsstring
}.

Definition next (err : option value) : M unit := emit (ENext err).

(** Awaiting [options.render(ctx)]: what the hook has written to
    [ctx.manifest] is in the store whether it resolves or rejects. *)
Definition call_render (hook : RenderHook) (ctx : RenderContext) : M value :=
  fun st =>
    (hook ctx,
     {| manifestSource := written (manifestSource st) (hook_manifest hook ctx);
        templateSource := templateSource st; disk := disk st |},
     []).

(** [req.url && req.url.replace(/#.*$/s, '').replace(/\?.*$/s, '')]. *)
Definition request_path (req : Request) : option jsstring :=
  match url req with
  | Some (c :: r) => Some (strip_from 63%N (strip_from 35%N (c :: r)))
  | Some [] => Some []
  | None => None
  end.

(** [v !== 'script']. *)
Definition is_not_string (v : value) (s : jsstring) : bool :=
  match v with
  | VString t => negb (str_eqb t s)
  | _ => true
  end.

(** The module whose path is the SSR entry: [options.ssr], else
    [build.ssr]; [true] stands for the rollup input; only a string
    counts. *)
Definition ssr_entry (options : option PluginOptions) (server : ViteDevServer) :
  option jsstring :=
  let ssrInput := or_else (opt_ssr options) (build_ssr (config server)) in
  let ssrInput :=
    match ssrInput with
    | VBool true => build_rollupOptions_input (config server)
    | other => other
    end in
  match ssrInput with
  | VString s => Some s
  | _ => None
  end.

(** The middleware installed by [configureServer].  One request is run
    from its start to its end. *)
Definition middleware (options : option PluginOptions) (server : ViteDevServer)
           (req : Request) (res : Response) : M unit :=
  if writableEnded res then next None
  else
    match ssr_entry options server with
    | None => next None
    | Some [] => next None
    | Some (m0 :: ms) =>
        let ssrModule := m0 :: ms in
        match request_path req with
        | Some u =>
            if endsWith u (lit ".html")
               && is_not_string (header req (lit "sec-fetch-dest")) (lit "script")
            then
              filename <-
                call (decodeURIComponent server
                        (path_join server (root (config server)) (slice1 u))) ;;
              emit (EExistsSync filename) ;;;
              d <- get disk ;;
              if Fs.existsSync d filename then
                try_catch
                  (emit (EReadFileSync filename) ;;;
                   template <- call (Fs.readFileSync d filename) ;;
                   emit (ETransformIndexHtml u template (originalUrl req)) ;;;
                   template <-
                     call (transformIndexHtml server u template (originalUrl req)) ;;
                   set_templateSource template ;;;
                   applyTemplateTransformation options ;;;
                   template <- get templateSource ;;
                   emit (ESsrLoadModule ssrModule) ;;;
                   loaded <- call (ssrLoadModule server ssrModule) ;;
                   renderedTemplate <-
                     match opt_render options with
                     | Some hook =>
                         manifest <- get manifestSource ;;
                         let ctx := {| ctx_ssr := loaded; ctx_req := req;
                                       ctx_res := res; ctx_template := template;
                                       ctx_manifest := manifest |} in
                         emit (ERenderHook ctx) ;;;
                         call_render hook ctx
                     | None =>
                         match module_render loaded with
                         | Some f =>
                             emit (EModuleRender req template) ;;;
                             call (f req template)
                         | None => call (Throw TypeError)
                         end
                     end ;;
                   let template :=
                     match renderedTemplate with
                     | VString t => t
                     | _ => template
                     end in
                   emit (ESend template (lit "html")
                           (server_headers (config server))) ;;;
                   call (send server req res template))
                  (fun e => next (Some e))
              else next None
            else next None
        | None => next None
        end
    end.

(** The resolved configuration read by [buildStart], and the closure
    variables set by the [config] and [configResolved] hooks. *)
Record ResolvedConfig : Type := {
  rc_root : jsstring;
  rc_build_write : bool;
  rc_build_outDir : jsstring;
  rc_publicDir : jsstring;
  rc_configFile : value;
  rc_build_rollupOptions_input : value
}.

Record BuildState : Type := {
  generateSSRBuild : bool;
  emptyOutDir : option bool;
  resolvedConfig : ResolvedConfig
}.

(** Node's [path] functions, and vite's [build] and [normalizePath]: the
    collaborators of [buildStart].  [build] is given the output directory
    of the client build and acts on the disk: it resolves or rejects, and
    leaves a disk either way. *)
Record BuildHost : Type := {
  path_resolve : list jsstring -> jsstring;
  path_basename : jsstring -> jsstring;
  normalizePath : jsstring -> jsstring;
  build : value -> jsstring -> Fs.node -> outcome unit * Fs.node
}.

Definition info (name text : jsstring) : M unit := emit (EInfo name text).

Definition nonempty (s : jsstring) : bool :=
  match s with [] => false | _ :: _ => true end.

(** [fs.unlinkSync] and [fs.writeFileSync] on the disk of the state. *)
Definition unlink (file : jsstring) : M unit :=
  emit (EUnlinkSync file) ;;;
  d <- get disk ;;
  d' <- call (Fs.unlinkSync d file) ;;
  set_disk d'.

Definition write (file data : jsstring) : M unit :=
  emit (EWriteFileSync file data) ;;;
  d <- get disk ;;
  d' <- call (Fs.writeFileSync d file data) ;;
  set_disk d'.

(** The block of [buildStart] that reads the ssr manifest. *)
Definition harvest_manifest (options : option PluginOptions) (host : BuildHost)
           (rc : ResolvedConfig) (ssrManifestFile : jsstring) : M unit :=
  d <- get disk ;;
  if nonempty ssrManifestFile && Fs.existsSync d ssrManifestFile then
    emit (EReadFileSync ssrManifestFile) ;;;
    ssrManifest <- call (Fs.readFileSync d ssrManifestFile) ;;
    unlink ssrManifestFile ;;;
    parsed <- call (parse ssrManifest) ;;
    set_manifestSource parsed ;;;
    applyManifestTransformation options ;;;
    match opt_writeManifest options with
    | Some false => ret tt
    | _ =>
        let fn := path_basename host ssrManifestFile in
        manifest <- get manifestSource ;;
        match stringify_pretty manifest with
        | Some text =>
            write (path_resolve host [rc_root rc; rc_build_outDir rc; fn]) text
        | None => call (Throw TypeError)
        end
    end
  else ret tt.

(** The block of [buildStart] that reads the template. *)
Definition harvest_template (options : option PluginOptions) (host : BuildHost)
           (rc : ResolvedConfig) (templateFile : option jsstring) : M unit :=
  match templateFile with
  | Some templateFile =>
      d <- get disk ;;
      if nonempty templateFile && Fs.existsSync d templateFile then
        emit (EReadFileSync templateFile) ;;;
        template <- call (Fs.readFileSync d templateFile) ;;
        unlink templateFile ;;;
        set_templateSource template ;;;
        applyTemplateTransformation options ;;;
        match opt_writeManifest options with
        | Some false => ret tt
        | _ =>
            let fn := path_basename host templateFile in
            template <- get templateSource ;;
            write (path_resolve host [rc_root rc; rc_build_outDir rc; fn]) template
        end
      else ret tt
  | None => ret tt
  end.

(** [buildStart], from the computation of the client output directory
    on. *)
Definition buildStart_client (options : option PluginOptions) (host : BuildHost)
           (rc : ResolvedConfig) : M unit :=
  let outDir :=
    path_resolve host
      [path_resolve host [rc_root rc; rc_build_outDir rc];
       path_basename host
         (if nonempty (rc_publicDir rc) then rc_publicDir rc else lit "www")] in
  emit (EBuild outDir) ;;;
  d <- get disk ;;
  let built := build host (rc_configFile rc) outDir d in
  set_disk (snd built) ;;;
  call (fst built) ;;;
  let ssrManifestFile := path_resolve host [outDir; lit "ssr-manifest.json"] in
  let input :=
    or_else (rc_build_rollupOptions_input rc) (VString (lit "index.html")) in
  let templateFile :=
    match input with
    | VString i =>
        if endsWith i (lit ".html") then Some (path_resolve host [outDir; i])
        else None
    | _ => None
    end in
  harvest_manifest options host rc ssrManifestFile ;;;
  harvest_template options host rc templateFile.

(** Lines 314 to 316 of [buildStart]: the output directory is prepared
    when the build writes to disk.  The result is the outcome, the disk and
    the warnings; [None] when the fuel given to [emptyDir] does not
    suffice. *)
Definition buildStart_prepare (fuel : nat) (host : BuildHost) (bs : BuildState)
           (st : State) : option (outcome unit * Fs.node * list jsstring) :=
  let rc := resolvedConfig bs in
  if rc_build_write rc then
    Fs.prepareOutDir (normalizePath host) fuel
      (path_resolve host [rc_root rc; rc_build_outDir rc])
      (emptyOutDir bs) (rc_root rc) (disk st)
  else Some (Ok tt, disk st, []).

(** [buildStart]; [None] when the fuel given to [emptyDir] does not
    suffice. *)
Definition buildStart (fuel : nat) (options : option PluginOptions)
           (host : BuildHost) (bs : BuildState) (st : State) :
  option (outcome unit * State * list event) :=
  if negb (generateSSRBuild bs) then Some (Ok tt, st, [])
  else
    let rc := resolvedConfig bs in
    let hello := EInfo (lit "SSR build") (lit "generating the SSR target...") in
    match buildStart_prepare fuel host bs st with
    | None => None
    | Some (r, d, warnings) =>
        let st1 := {| manifestSource := manifestSource st;
                      templateSource := templateSource st; disk := d |} in
        let t1 := hello :: map EWarn warnings in
        match r with
        | Throw e => Some (Throw e, st1, t1)
        | Ok _ =>
            match buildStart_client options host rc st1 with
            | (r2, st2, t2) => Some (r2, st2, t1 ++ t2)
            end
        end
    end.

End Plugin.

(* ================================================================= *)
(** ** The minification transform ([minify.ts]) *)

Module Minify.
Import Js.

(** The namespace object of [html-minifier-terser]: its [minify] export,
    when it is callable, as a function of the text and the options. *)
Record MinifierModule : Type := {
  lib_minify : option (jsstring -> list (jsstring * value) -> outcome value)
}.

(** The options object passed to the library. *)
Definition minify_options : list (jsstring * value) :=
  [ (lit "processScripts", VArray [VString (lit "application/ld+json")]);
    (lit "collapseBooleanAttributes", VBool true);
    (lit "collapseInlineTagWhitespace", VBool true);
    (lit "collapseWhitespace", VBool true);
    (lit "conservativeCollapse", VBool false);
    (lit "decodeEntities", VBool true);
    (lit "includeAutoGeneratedTags", VBool false);
    (lit "minifyCSS", VBool true);
    (lit "minifyJS", VBool true);
    (lit "minifyURLs", VBool true);
    (lit "preventAttributesEscaping", VBool true);
    (lit "processConditionalComments", VBool true);
    (lit "removeAttributeQuotes", VBool false);
    (lit "removeComments", VBool true);
    (lit "removeEmptyAttributes", VBool true);
    (lit "removeOptionalTags", VBool false);
    (lit "removeRedundantAttributes", VBool true);
    (lit "removeScriptTypeAttributes", VBool true);
    (lit "removeStyleLinkTypeAttributes", VBool true);
    (lit "sortAttributes", VBool true);
    (lit "sortClassName", VBool true);
    (lit "useShortDoctype", VBool false) ].

Definition missing_dependency_warning : jsstring :=
  lit "'html-minifier-terser' is required for minify the html, the html will not be minified.".

(** The function returned by [minify()], applied to [html] when the
    dynamic [import('html-minifier-terser')] of that call completes with
    [imported]: the completion of the returned promise and the lines
    written with [console.log]. *)
Definition minify (imported : outcome MinifierModule) (html : jsstring) :
  outcome value * list jsstring :=
  match imported with
  | Throw _ => (Ok (VString html), [missing_dependency_warning])
  | Ok m =>
      match lib_minify m with
      | Some f => (f html minify_options, [])
      | None => (Throw TypeError, [])
      end
  end.

End Minify.

(* ================================================================= *)
(** ** The [config] and [configResolved] hooks ([index.ts]) *)

Module Config.
Import Js Plugin.

(** [v[k]] (and [v?.[k]]) for a plain object [v]; [undefined] for a missing
    key and for anything that is not a plain object. *)
Definition get_prop (v : value) (k : jsstring) : value :=
  match v with
  | VObject props =>
      match find (fun kv => str_eqb (fst kv) k) props with
      | Some (_, x) => x
      | None => VUndefined
      end
  | _ => VUndefined
  end.

(** The [env] argument of the hook. *)
Record ConfigEnv : Type := {
  mode : jsstring;
  command : jsstring
}.

(** The closure variables [generateSSRBuild] and [emptyOutDir]. *)
Record Flags : Type := {
  flag_generateSSRBuild : bool;
  flag_emptyOutDir : value
}.

(** [let generateSSRBuild = false] and [let emptyOutDir = null]. *)
Definition initial_flags : Flags :=
  {| flag_generateSSRBuild := false; flag_emptyOutDir := VNull |}.

(** The first argument of the inner [mergeConfig]. *)
Definition spa_reset : value :=
  VObject [(lit "build",
            VObject [(lit "rollupOptions",
                      VObject [(lit "output",
                                VObject [(lit "entryFileNames",
                                          VString (lit "[name].js"))])])])].

(** The second argument of the outer [mergeConfig]. *)
Definition forced_off : value :=
  VObject [(lit "publicDir", VBool false);
           (lit "build", VObject [(lit "emptyOutDir", VBool false)])].

Section ConfigHook.

(** [mergeConfig] is imported from vite. *)
Variable mergeConfig : value -> value -> value.

Variable options : option PluginOptions.

Definition opt_buildConfig : value :=
  match options with Some o => buildConfig o | None => VUndefined end.

(** [config(config, env)]: the returned configuration ([None] for
    [undefined]), the closure variables afterwards and what is logged. *)
Definition config_hook (config : value) (env : ConfigEnv) (flags : Flags) :
  option value * Flags * list event :=
  match opt_buildConfig with
  | VBool false => (None, flags, [])
  | _ =>
      if negb (str_eqb (mode env) (lit "production"))
         || negb (str_eqb (command env) (lit "build"))
         || negb (jstype_eqb (typeof (get_prop (get_prop config (lit "build")) (lit "ssr")))
                             TString)
      then (None, flags, [])
      else
        (Some (mergeConfig
                 (mergeConfig spa_reset (or_else opt_buildConfig (VObject [])))
                 forced_off),
         {| flag_generateSSRBuild := true;
            flag_emptyOutDir :=
              get_prop (get_prop config (lit "build")) (lit "emptyOutDir") |},
         [EInfo (lit "SSR build")
                (lit "building SSR bundle for " ++ mode env ++ lit "...")])
  end.

End ConfigHook.

(** The closure variable [emptyOutDir] as [prepareOutDir] tests it:
    [== null] holds for [null] and [undefined], [!== false] for everything
    but [false]. *)
Definition preference (v : value) : option bool :=
  match v with
  | VUndefined | VNull => None
  | VBool b => Some b
  | _ => Some true
  end.

(** The closure variables as [buildStart] finds them after [config] and
    [configResolved(config)], which stores its argument. *)
Definition build_state (flags : Flags) (resolved : ResolvedConfig) : BuildState :=
  {| generateSSRBuild := flag_generateSSRBuild flags;
     emptyOutDir := preference (flag_emptyOutDir flags);
     resolvedConfig := resolved |}.

End Config.

(* ================================================================= *)
(** * Properties *)

Module JsFacts.
Import Js.

Lemma str_eqb_refl (a : jsstring) : str_eqb a a = true.
Proof.
  induction a as [|x a IH]; simpl; [reflexivity|].
  now rewrite N.eqb_refl, IH.
Qed.

Lemma str_eqb_eq (a b : jsstring) : str_eqb a b = true <-> a = b.
Proof.
  split.
  - revert b; induction a as [|x a IH]; intros [|y b]; simpl; try discriminate; auto.
    intros H. apply andb_true_iff in H as [H1 H2].
    apply N.eqb_eq in H1. apply IH in H2. now subst.
  - intros ->. apply str_eqb_refl.
Qed.

Lemma str_eqb_neq (a b : jsstring) : str_eqb a b = false <-> a <> b.
Proof.
  split.
  - intros H E. apply str_eqb_eq in E. congruence.
  - intros H. destruct (str_eqb a b) eqn:E; [|reflexivity].
    apply str_eqb_eq in E. contradiction.
Qed.

Lemma str_eqb_sym (a b : jsstring) : str_eqb a b = str_eqb b a.
Proof.
  destruct (str_eqb a b) eqn:E.
  - apply str_eqb_eq in E. subst. now rewrite str_eqb_refl.
  - symmetry. apply str_eqb_neq. apply str_eqb_neq in E. congruence.
Qed.

Lemma strip_from_no_char (c : char16) (s : jsstring) :
  ~ In c (strip_from c s).
Proof.
  induction s as [|x r IH]; simpl; [tauto|].
  destruct (N.eqb x c) eqn:E; simpl; [tauto|].
  intros [->|H]; [now rewrite N.eqb_refl in E | auto].
Qed.

Lemma strip_from_prefix (c : char16) (s : jsstring) :
  exists rest, s = strip_from c s ++ rest /\
               (rest = [] \/ exists r, rest = c :: r).
Proof.
  induction s as [|x r (rest & E & H)]; simpl.
  - exists []. auto.
  - destruct (N.eqb x c) eqn:Ex.
    + apply N.eqb_eq in Ex. subst. exists (c :: r). split; eauto.
    + exists rest. split; [simpl; congruence | exact H].
Qed.


End JsFacts.

(* ----------------------------------------------------------------- *)
(** ** The JSON functions on small inputs *)

Module JsonFacts.
Import Js Json.

Definition dq : jsstring := [34%N].

Example parse_nested_array :
  parse (lit " [1, [2.5e3, true, null], -0] ")
  = Ok (VArray [VNumber (lit "1");
                VArray [VNumber (lit "2.5e3"); VBool true; VNull];
                VNumber (lit "-0")]).
Proof. reflexivity. Qed.

Example parse_object_with_escape :
  parse (lit "{" ++ dq ++ lit "src/main.ts" ++ dq ++ lit ": [" ++
         dq ++ lit "a\u0041\n" ++ dq ++ lit "]}")
  = Ok (VObject [(lit "src/main.ts", VArray [VString [97; 65; 10]%N])]).
Proof. reflexivity. Qed.

Example parse_rejects_unfinished_object : parse (lit "{") = Throw SyntaxError.
Proof. reflexivity. Qed.

Example parse_rejects_trailing_comma : parse (lit "[1,]") = Throw SyntaxError.
Proof. reflexivity. Qed.

Example parse_rejects_leading_zero : parse (lit "01") = Throw SyntaxError.
Proof. reflexivity. Qed.

Example parse_rejects_empty_text : parse [] = Throw SyntaxError.
Proof. reflexivity. Qed.

Example stringify_pretty_manifest :
  stringify_pretty
    (VObject [(lit "src/main.ts", VArray [VString (lit "/a.css"); VString (lit "/b.js")]);
              (lit "empty", VArray [])])
  = Some (lit "{" ++ [10%N] ++
          lit "  " ++ dq ++ lit "src/main.ts" ++ dq ++ lit ": [" ++ [10%N] ++
          lit "    " ++ dq ++ lit "/a.css" ++ dq ++ lit "," ++ [10%N] ++
          lit "    " ++ dq ++ lit "/b.js" ++ dq ++ [10%N] ++
          lit "  ]," ++ [10%N] ++
          lit "  " ++ dq ++ lit "empty" ++ dq ++ lit ": []" ++ [10%N] ++
          lit "}").
Proof. reflexivity. Qed.

Example stringify_of_the_empty_manifest :
  stringify_pretty (VObject []) = Some (lit "{}").
Proof. reflexivity. Qed.

Example quote_escapes :
  quote ([60; 10; 34; 92; 9; 1]%N ++ [0xD83D; 0xDE00; 0xDC00]%N)
  = dq ++ lit "<\n\" ++ dq ++ lit "\\\t\u0001" ++ [0xD83D; 0xDE00]%N ++
    lit "\udc00" ++ dq.
Proof. reflexivity. Qed.

End JsonFacts.

(* ----------------------------------------------------------------- *)
(** ** The template module evaluates to the template *)

Module EsFacts.
Import Js Json Es.

Ltac n_cases :=
  repeat match goal with
  | H : N.eqb _ _ = true |- _ => apply N.eqb_eq in H
  | H : N.eqb _ _ = false |- _ => apply N.eqb_neq in H
  | H : N.leb _ _ = true |- _ => apply N.leb_le in H
  | H : N.leb _ _ = false |- _ => apply N.leb_gt in H
  | H : N.ltb _ _ = true |- _ => apply N.ltb_lt in H
  | H : N.ltb _ _ = false |- _ => apply N.ltb_ge in H
  | H : andb _ _ = true |- _ => apply andb_true_iff in H as [? ?]
  | H : andb _ _ = false |- _ => apply andb_false_iff in H
  | H : orb _ _ = true |- _ => apply orb_true_iff in H
  | H : orb _ _ = false |- _ => apply orb_false_iff in H as [? ?]
  | H : _ \/ _ |- _ => destruct H
  end.

Lemma hex_value_hex_digit (n : N) :
  (n < 16)%N -> hex_value (hex_digit n) = Some n.
Proof.
  intros Hn. unfold hex_digit, hex_value.
  destruct (N.ltb n 10) eqn:E; n_cases.
  - replace (N.leb 48 (48 + n)) with true by (symmetry; apply N.leb_le; lia).
    replace (N.leb (48 + n) 57) with true by (symmetry; apply N.leb_le; lia).
    cbn [andb]. f_equal. lia.
  - replace (N.leb (87 + n) 57) with false by (symmetry; apply N.leb_gt; lia).
    rewrite andb_false_r.
    replace (N.leb 97 (87 + n)) with true by (symmetry; apply N.leb_le; lia).
    replace (N.leb (87 + n) 102) with true by (symmetry; apply N.leb_le; lia).
    cbn [andb]. f_equal. lia.
Qed.

Lemma hex4_unicode_digits (c : N) :
  (c < 65536)%N ->
  hex4 (hex_digit ((c / 4096) mod 16)) (hex_digit ((c / 256) mod 16))
       (hex_digit ((c / 16) mod 16)) (hex_digit (c mod 16)) = Some c.
Proof.
  intros Hc. unfold hex4.
  rewrite !hex_value_hex_digit by (apply N.mod_upper_bound; lia).
  f_equal.
  pose proof (N.div_mod c 16 ltac:(lia)) as H1.
  pose proof (N.div_mod (c / 16) 16 ltac:(lia)) as H2.
  pose proof (N.div_mod (c / 256) 16 ltac:(lia)) as H3.
  rewrite N.Div0.div_div in H2, H3.
  change (16 * 16)%N with 256%N in *. change (256 * 16)%N with 4096%N in *.
  assert (H4 : (c / 4096 < 16)%N) by (apply N.Div0.div_lt_upper_bound; lia).
  rewrite (N.mod_small (c / 4096) 16) by exact H4.
  lia.
Qed.

(** A raw character that is neither a quote, a backslash nor a line
    terminator denotes itself. *)
Lemma eval_raw (c : char16) (t : jsstring) (f : nat) :
  c <> 34%N -> c <> 92%N -> c <> 10%N -> c <> 13%N ->
  eval_string_chars (S f) (c :: t) = prepend [c] (eval_string_chars f t).
Proof.
  intros H1 H2 H3 H4. simpl.
  apply N.eqb_neq in H1, H2, H3, H4.
  now rewrite H1, H2, H3, H4.
Qed.

Lemma eval_u4 (a b c d : char16) (t : jsstring) (f : nat) :
  N.eqb a 123 = false ->
  eval_string_chars (S f) (92 :: 117 :: a :: b :: c :: d :: t)%N
  = match hex4 a b c d with
    | Some u => prepend [u] (eval_string_chars f t)
    | None => None
    end.
Proof.
  intros Ha. cbn [eval_string_chars]. 
  change (N.eqb 92 34) with false. change (N.eqb 92 92) with true.
  cbv iota. unfold eval_escape.
  change (N.eqb 117 34) with false. change (N.eqb 117 39) with false.
  change (N.eqb 117 92) with false. change (N.eqb 117 98) with false.
  change (N.eqb 117 102) with false. change (N.eqb 117 110) with false.
  change (N.eqb 117 114) with false. change (N.eqb 117 116) with false.
  change (N.eqb 117 118) with false. change (N.eqb 117 48) with false.
  change (is_digit 117%N) with false. change (N.eqb 117 120) with false.
  change (N.eqb 117 117) with true. cbv iota.
  rewrite Ha. destruct (hex4 a b c d); reflexivity.
Qed.

Lemma eval_unicode_escape (c : char16) (t : jsstring) (f : nat) :
  (c < 65536)%N ->
  eval_string_chars (S f) (unicode_escape c ++ t)
  = prepend [c] (eval_string_chars f t).
Proof.
  intros Hc. unfold unicode_escape. cbn [app].
  rewrite eval_u4.
  - now rewrite hex4_unicode_digits by exact Hc.
  - apply N.eqb_neq. unfold hex_digit.
    assert ((c / 4096) mod 16 < 16)%N by (apply N.mod_upper_bound; lia).
    destruct (N.ltb ((c / 4096) mod 16) 10); lia.
Qed.

(** Every escape produced by [quote_unit] is read back as the unit. *)
Lemma eval_quote_unit (c : char16) (t : jsstring) (f : nat) :
  eval_string_chars (S f) (quote_unit c ++ t)
  = prepend [c] (eval_string_chars f t).
Proof.
  unfold quote_unit.
  destruct (N.eqb c 8) eqn:E8; [apply N.eqb_eq in E8; subst; reflexivity|].
  destruct (N.eqb c 9) eqn:E9; [apply N.eqb_eq in E9; subst; reflexivity|].
  destruct (N.eqb c 10) eqn:E10; [apply N.eqb_eq in E10; subst; reflexivity|].
  destruct (N.eqb c 12) eqn:E12; [apply N.eqb_eq in E12; subst; reflexivity|].
  destruct (N.eqb c 13) eqn:E13; [apply N.eqb_eq in E13; subst; reflexivity|].
  destruct (N.eqb c 34) eqn:E34; [apply N.eqb_eq in E34; subst; reflexivity|].
  destruct (N.eqb c 92) eqn:E92; [apply N.eqb_eq in E92; subst; reflexivity|].
  destruct (N.ltb c 32 || is_high_surrogate c || is_low_surrogate c) eqn:Eu.
  - apply eval_unicode_escape.
    unfold is_high_surrogate, is_low_surrogate in Eu.
    n_cases; lia.
  - apply eval_raw; n_cases; assumption.
Qed.

Lemma surrogate_is_raw (c : char16) :
  is_high_surrogate c || is_low_surrogate c = true ->
  c <> 34%N /\ c <> 92%N /\ c <> 10%N /\ c <> 13%N.
Proof.
  unfold is_high_surrogate, is_low_surrogate. intros H.
  n_cases; repeat split; lia.
Qed.

(** Reading back the quoted body of [T], one unit of fuel per code unit
    and one for the closing quote. *)
Lemma eval_quote_body (n : nat) :
  forall (T rest : jsstring) (f : nat),
    (length T <= n)%nat -> (length T < f)%nat ->
    eval_string_chars f (quote_body T ++ 34%N :: rest) = Some (T, rest).
Proof.
  induction n as [|n IH]; intros T rest f Hn Hf.
  - destruct T; [|simpl in Hn; lia].
    destruct f; [lia|]. reflexivity.
  - destruct T as [|c r].
    + destruct f; [lia|]. reflexivity.
    + destruct f as [|f]; [lia|]. simpl in Hn, Hf.
      assert (Hone : eval_string_chars (S f) ((quote_unit c ++ quote_body r) ++ 34%N :: rest)
                     = Some (c :: r, rest)).
      { rewrite <- app_assoc, eval_quote_unit, IH by lia. reflexivity. }
      cbn [quote_body].
      destruct (is_high_surrogate c) eqn:Hh; [|exact Hone].
      destruct r as [|d r'];
        [simpl in Hone; rewrite app_nil_r in Hone; exact Hone|].
      destruct (is_low_surrogate d) eqn:Hl; [|exact Hone].
      destruct f as [|f]; [simpl in Hf; lia|].
      destruct (surrogate_is_raw c) as (A1 & A2 & A3 & A4);
        [now rewrite Hh|].
      destruct (surrogate_is_raw d) as (B1 & B2 & B3 & B4);
        [now rewrite Hl, orb_true_r|].
      cbn [app]. rewrite eval_raw, eval_raw by assumption.
      rewrite IH by (simpl in *; lia). reflexivity.
Qed.

(** The literal produced by [JSON.stringify] for a string denotes that
    string. *)
Lemma eval_default_export_quote (T : jsstring) :
  eval_default_export (lit "export default " ++ quote T) = Some (VString T).
Proof.
  unfold eval_default_export, quote.
  change (startsWith (lit "export default " ++ 34%N :: quote_body T ++ [34%N])
            (lit "export default ")) with true.
  change (skipn (length (lit "export default "))
            (lit "export default " ++ 34%N :: quote_body T ++ [34%N]))
    with (34%N :: quote_body T ++ [34%N]).
  cbv iota. rewrite N.eqb_refl.
  assert (Hlen : (length T <= length (quote_body T ++ [34%N]))%nat).
  { clear. rewrite length_app. simpl.
    assert (forall n T, (length T <= n)%nat -> (length T <= length (quote_body T))%nat) as H.
    { induction n as [|n IH]; intros [|c r] Hn; simpl in *; try lia.
      assert (Hu : (1 <= length (quote_unit c))%nat).
      { unfold quote_unit, unicode_escape.
        repeat match goal with |- context [if ?b then _ else _] => destruct b end;
          simpl; lia. }
      assert (H1 : (S (length r) <= length (quote_unit c ++ quote_body r))%nat).
      { rewrite length_app. specialize (IH r ltac:(lia)). lia. }
      destruct (is_high_surrogate c); [|exact H1].
      destruct r as [|d r']; [simpl; lia|].
      destruct (is_low_surrogate d); [|exact H1].
      simpl in *. specialize (IH r' ltac:(lia)). lia. }
    specialize (H (length T) T (le_n _)). lia. }
  rewrite eval_quote_body with (n := length T) by lia.
  reflexivity.
Qed.

End EsFacts.

(* ----------------------------------------------------------------- *)
(** ** The virtual modules: [resolveId] and [load] *)

Module RegistryFacts.
Import Js JsFacts Json Es Plugin.

(** Options that set nothing but [templateId]. *)
Definition only_templateId (name : jsstring) : option PluginOptions :=
  Some {| ssr := VUndefined; manifestId := None; templateId := Some name;
          buildConfig := VUndefined; writeManifest := None;
          transformManifest := None; transformTemplate := None;
          render := None |}.

(** Options that set nothing but the two identifiers. *)
Definition both_ids (m t : jsstring) : option PluginOptions :=
  Some {| ssr := VUndefined; manifestId := Some m; templateId := Some t;
          buildConfig := VUndefined; writeManifest := None;
          transformManifest := None; transformTemplate := None;
          render := None |}.

Definition sample_state : State :=
  {| manifestSource := VObject [(lit "src/main.ts", VArray [VString (lit "/assets/main.css")])];
     templateSource := lit "<!DOCTYPE html>" ++ [10; 32; 32; 9]%N ++ lit "<div id='app'></div>" ++ [13; 10]%N;
     disk := Fs.Dir [] |}.

(** C1 (the code at the failing input).  With only [templateId] set to
    [my:template], neither [resolveId] nor [load] knows that name and the
    template stays under [ssr:template]; with both identifiers set, the
    template name is the manifest's, and importing it gives the manifest. *)
Theorem C1_templateId_is_not_read (st : State) :
  resolveId (only_templateId (lit "my:template")) (lit "my:template") = None /\
  load (only_templateId (lit "my:template")) st (lit "my:template") = None /\
  resolveId (only_templateId (lit "my:template")) (lit "ssr:template")
    = Some (lit "ssr:template") /\
  SSR_TEMPLATE_NAME (both_ids (lit "my:manifest") (lit "my:template"))
    = lit "my:manifest" /\
  resolveId (both_ids (lit "my:manifest") (lit "my:template")) (lit "my:template")
    = None /\
  load (both_ids (lit "my:manifest") (lit "my:template")) st (lit "my:manifest")
    = Some (lit "export default " ++ interpolate (stringify_pretty (manifestSource st))).
Proof.
  repeat split.
Qed.

(** C8.  Whenever [load] serves the template module (the identifier is the
    template's and is not taken by the manifest), the source it returns is
    a module whose default export evaluates to the stored template, code
    unit for code unit. *)
Theorem C8_template_module_exports_template
        (options : option PluginOptions) (st : State) (id : jsstring) :
  id = SSR_TEMPLATE_NAME options ->
  id <> SSR_MANIFEST_NAME options ->
  exists src,
    load options st id = Some src /\
    eval_default_export src = Some (VString (templateSource st)).
Proof.
  intros Ht Hm. unfold load.
  apply str_eqb_neq in Hm. rewrite Hm.
  subst id. rewrite str_eqb_refl.
  eexists. split; [reflexivity|].
  apply EsFacts.eval_default_export_quote.
Qed.

Lemma C8_template_module_exports_template_witness :
  lit "ssr:template" = SSR_TEMPLATE_NAME None /\
  lit "ssr:template" <> SSR_MANIFEST_NAME None /\
  exists src,
    load None sample_state (lit "ssr:template") = Some src /\
    eval_default_export src = Some (VString (templateSource sample_state)).
Proof.
  assert (Hne : lit "ssr:template" <> SSR_MANIFEST_NAME None).
  { intros H. vm_compute in H. discriminate H. }
  split; [reflexivity|]. split; [exact Hne|].
  exact (C8_template_module_exports_template None sample_state
           (id := lit "ssr:template") eq_refl Hne).
Defined.

(** C10.  When the two names coincide, the common name is resolved and
    [load] answers it with the manifest module, and every other identifier
    with nothing: whatever the identifier, the result is not the template
    branch's, and it does not depend on the stored template. *)
Theorem C10_manifest_shadows_template
        (options : option PluginOptions) (st : State) (id : jsstring) :
  SSR_MANIFEST_NAME options = SSR_TEMPLATE_NAME options ->
  resolveId options (SSR_TEMPLATE_NAME options) = Some (SSR_TEMPLATE_NAME options) /\
  load options st (SSR_TEMPLATE_NAME options)
  = Some (lit "export default " ++
          interpolate (stringify_pretty (manifestSource st))) /\
  load options st id =
    (if str_eqb id (SSR_MANIFEST_NAME options)
     then Some (lit "export default " ++
                interpolate (stringify_pretty (manifestSource st)))
     else None) /\
  (forall t : jsstring,
      load options {| manifestSource := manifestSource st;
                      templateSource := t; disk := disk st |} id
      = load options st id).
Proof.
  intros Heq. unfold load, resolveId. rewrite <- Heq.
  rewrite str_eqb_refl.
  destruct (str_eqb id (SSR_MANIFEST_NAME options)); auto.
Qed.

Lemma C10_manifest_shadows_template_witness :
  SSR_MANIFEST_NAME (both_ids (lit "virtual:ssr") (lit "virtual:html"))
  = SSR_TEMPLATE_NAME (both_ids (lit "virtual:ssr") (lit "virtual:html")) /\
  load (both_ids (lit "virtual:ssr") (lit "virtual:html")) sample_state
       (lit "virtual:ssr")
  = Some (lit "export default " ++
          interpolate (stringify_pretty (manifestSource sample_state))) /\
  load (both_ids (lit "virtual:ssr") (lit "virtual:html")) sample_state
       (lit "virtual:html")
  = None.
Proof.
  split; [reflexivity|]. split.
  - exact (proj1 (proj2 (proj2 (C10_manifest_shadows_template
                    (both_ids (lit "virtual:ssr") (lit "virtual:html"))
                    sample_state (lit "virtual:ssr") eq_refl)))).
  - exact (proj1 (proj2 (proj2 (C10_manifest_shadows_template
                    (both_ids (lit "virtual:ssr") (lit "virtual:html"))
                    sample_state (lit "virtual:html") eq_refl)))).
Defined.

End RegistryFacts.

(* ----------------------------------------------------------------- *)
(** ** The transform pipeline *)

Module TransformFacts.
Import Js JsFacts Json Plugin.

(** The values for which [manifest && typeof manifest === 'object']
    holds. *)
Definition is_object (v : value) : bool :=
  match v with
  | VObject _ | VArray _ => true
  | _ => false
  end.

Lemma sniff_object (v : value) :
  truthy v && jstype_eqb (typeof v) TObject = is_object v.
Proof.
  destruct v as [| |b|n|s|items|props|name]; simpl; try reflexivity.
  - now rewrite andb_false_r.
  - now rewrite andb_false_r.
  - destruct s; reflexivity.
Qed.

Definition with_manifest (st : State) (v : value) : State :=
  {| manifestSource := v; templateSource := templateSource st; disk := disk st |}.

(** Options whose only setting is a manifest transform. *)
Definition manifest_hook (hook : value -> outcome value) : option PluginOptions :=
  Some {| ssr := VUndefined; manifestId := None; templateId := None;
          buildConfig := VUndefined; writeManifest := None; transformManifest := Some hook;
          transformTemplate := None; render := None |}.

(** C3 as stated fails: a hook that answers with the text of an unfinished
    object makes [applyManifestTransformation] throw the [SyntaxError] of
    [JSON.parse]. *)
Lemma C3_unparsable_string_throws :
  applyManifestTransformation
    (manifest_hook (fun _ => Ok (VString (lit "{ not json"))))
    (initial (Fs.Dir []))
  = (Throw SyntaxError, initial (Fs.Dir []), [ETransformManifest (VObject [])]).
Proof. reflexivity. Qed.

(** C3 (amended).  The hook is called once with the stored manifest.  An
    object it returns becomes the stored manifest; a string is handed to
    [JSON.parse]: an object parsed from it becomes the stored manifest, a
    parse failure is thrown and leaves the store as it was; everything
    else (including a string that parses to something that is not an
    object) is ignored. *)
Theorem C3_manifest_transform_sniffing
        (options : option PluginOptions) (hook : value -> outcome value)
        (st : State) (r : value) :
  opt_transformManifest options = Some hook ->
  hook (manifestSource st) = Ok r ->
  let called := [ETransformManifest (manifestSource st)] in
  (is_object r = true ->
     applyManifestTransformation options st = (Ok tt, with_manifest st r, called)) /\
  (forall text v, r = VString text -> parse text = Ok v -> is_object v = true ->
     applyManifestTransformation options st = (Ok tt, with_manifest st v, called)) /\
  (forall text e, r = VString text -> parse text = Throw e ->
     applyManifestTransformation options st = (Throw e, st, called)) /\
  (forall text v, r = VString text -> parse text = Ok v -> is_object v = false ->
     applyManifestTransformation options st = (Ok tt, st, called)) /\
  (is_object r = false -> typeof r <> TString ->
     applyManifestTransformation options st = (Ok tt, st, called)).
Proof.
  intros Hopt Hhook called.
  unfold applyManifestTransformation. rewrite Hopt.
  unfold bind, get, emit, call, ret, set_manifestSource. rewrite Hhook.
  repeat split.
  - intros Hobj. destruct r; try discriminate Hobj; reflexivity.
  - intros text v -> Hp Hobj. rewrite Hp, sniff_object, Hobj. reflexivity.
  - intros text e -> Hp. rewrite Hp. reflexivity.
  - intros text v -> Hp Hobj. rewrite Hp, sniff_object, Hobj. reflexivity.
  - intros Hobj Hty.
    destruct r; try discriminate Hobj; try reflexivity.
    + destruct b; reflexivity.
    + simpl. destruct (mantissa_is_zero lexeme); reflexivity.
    + now contradiction Hty.
Qed.

(** The text of an object with one key [a] bound to an empty array. *)
Definition object_text : jsstring := [123; 34; 97; 34; 58; 91; 93; 125]%N.

Lemma C3_manifest_transform_sniffing_witness :
  applyManifestTransformation
    (manifest_hook (fun _ => Ok (VString object_text))) (initial (Fs.Dir []))
  = (Ok tt, with_manifest (initial (Fs.Dir [])) (VObject [(lit "a", VArray [])]),
     [ETransformManifest (VObject [])]) /\
  applyManifestTransformation
    (manifest_hook (fun _ => Ok (VNumber (lit "42")))) (initial (Fs.Dir []))
  = (Ok tt, initial (Fs.Dir []), [ETransformManifest (VObject [])]).
Proof.
  split.
  - exact (proj1 (proj2
      (C3_manifest_transform_sniffing
         (manifest_hook (fun _ => Ok (VString object_text)))
         (hook := fun _ => Ok (VString object_text))
         (initial (Fs.Dir [])) eq_refl eq_refl))
      object_text (VObject [(lit "a", VArray [])]) eq_refl eq_refl eq_refl).
  - refine (proj2 (proj2 (proj2 (proj2
      (C3_manifest_transform_sniffing
         (manifest_hook (fun _ => Ok (VNumber (lit "42"))))
         (hook := fun _ => Ok (VNumber (lit "42")))
         (initial (Fs.Dir [])) eq_refl eq_refl)))) eq_refl _).
    simpl. discriminate.
Defined.

End TransformFacts.

(* ----------------------------------------------------------------- *)
(** ** The dev-server middleware *)

Module MiddlewareFacts.
Import Js JsFacts Json Plugin TransformFacts.

(** Computations that leave the stored manifest alone. *)
Definition keeps_manifest {A} (m : M A) : Prop :=
  forall st, manifestSource (snd (fst (m st))) = manifestSource st.

Lemma keeps_ret {A} (a : A) : keeps_manifest (ret a).
Proof. intros st. reflexivity. Qed.

Lemma keeps_call {A} (o : outcome A) : keeps_manifest (call o).
Proof. intros st. reflexivity. Qed.

Lemma keeps_emit (e : event) : keeps_manifest (emit e).
Proof. intros st. reflexivity. Qed.

Lemma keeps_get {A} (f : State -> A) : keeps_manifest (get f).
Proof. intros st. reflexivity. Qed.

Lemma keeps_set_templateSource (t : jsstring) :
  keeps_manifest (set_templateSource t).
Proof. intros st. reflexivity. Qed.

Lemma keeps_bind {A B} (m : M A) (k : A -> M B) :
  keeps_manifest m -> (forall a, keeps_manifest (k a)) ->
  keeps_manifest (bind m k).
Proof.
  intros Hm Hk st. unfold bind. specialize (Hm st).
  destruct (m st) as [[[a|e] st1] t1]; simpl in *; [|exact Hm].
  specialize (Hk a st1).
  destruct (k a st1) as [[r st2] t2]; simpl in *. congruence.
Qed.

Lemma keeps_try_catch {A} (m : M A) (h : value -> M A) :
  keeps_manifest m -> (forall e, keeps_manifest (h e)) ->
  keeps_manifest (try_catch m h).
Proof.
  intros Hm Hh st. unfold try_catch. specialize (Hm st).
  destruct (m st) as [[[a|e] st1] t1]; simpl in *; [exact Hm|].
  specialize (Hh e st1).
  destruct (h e st1) as [[r st2] t2]; simpl in *. congruence.
Qed.

Create HintDb keeps.
#[export] Hint Resolve keeps_ret keeps_call keeps_emit keeps_get
  keeps_set_templateSource : keeps.

Ltac keeps :=
  repeat first
    [ progress intros
    | apply keeps_bind
    | apply keeps_try_catch
    | solve [auto with keeps]
    | match goal with
      | |- keeps_manifest (match ?x with _ => _ end) => destruct x
      | |- keeps_manifest (if ?x then _ else _) => destruct x
      end ].

Lemma keeps_applyTemplateTransformation (options : option PluginOptions) :
  keeps_manifest (applyTemplateTransformation options).
Proof. unfold applyTemplateTransformation. keeps. Qed.

Lemma keeps_next (err : option value) : keeps_manifest (next err).
Proof. apply keeps_emit. Qed.

#[export] Hint Resolve keeps_applyTemplateTransformation keeps_next : keeps.

(** Without a render hook nothing in the middleware touches the stored
    manifest: the middleware never assigns [manifestSource]. *)
Lemma middleware_frames_manifest
      (options : option PluginOptions) (server : ViteDevServer)
      (req : Request) (res : Response) :
  opt_render options = None ->
  keeps_manifest (middleware options server req res).
Proof. intros H. unfold middleware. rewrite H. keeps. Qed.

Definition is_manifest_transform (e : event) : bool :=
  match e with ETransformManifest _ => true | _ => false end.

Definition is_template_transform (e : event) : bool :=
  match e with ETransformTemplate _ => true | _ => false end.

(** A call of the render hook or of the module's [render] export. *)
Definition is_render_call (e : event) : bool :=
  match e with ERenderHook _ | EModuleRender _ _ => true | _ => false end.

Definition calls (p : event -> bool) (trace : list event) : nat :=
  length (filter p trace).

Definition trace_of {A} (r : outcome A * State * list event) : list event := snd r.
Definition state_of {A} (r : outcome A * State * list event) : State := snd (fst r).
Definition result_of {A} (r : outcome A * State * list event) : outcome A := fst (fst r).

Ltac run :=
  unfold middleware, applyTemplateTransformation, call_render, next, bind,
    try_catch, emit, call, get, ret, set_templateSource, trace_of, state_of,
    result_of, calls in *.

Ltac branch :=
  match goal with
  | H : context [match ?x with _ => _ end] |- _ =>
      lazymatch x with
      | context [match _ with _ => _ end] => fail
      | _ => destruct x eqn:?
      end
  | |- context [match ?x with _ => _ end] =>
      lazymatch x with
      | context [match _ with _ => _ end] => fail
      | _ => destruct x eqn:?
      end
  end.

(** A small project served from [/srv]: one document, an entry module
    whose [render] export answers with the template it is given. *)
Definition sample_disk : Fs.node :=
  Fs.Dir [(lit "srv",
           Fs.Dir [(lit "index.html", Fs.File (lit "<div id='app'></div>"));
                   (lit "entry.js", Fs.File (lit "export function render() {}"))])].

Definition sample_module : SsrModule :=
  {| module_render := Some (fun _ template => Ok (VString template)) |}.

Definition sample_server : ViteDevServer :=
  {| config := {| root := lit "/srv"; build_ssr := VUndefined;
                  build_rollupOptions_input := VUndefined;
                  server_headers := VUndefined |};
     transformIndexHtml := fun _ html _ => Ok html;
     ssrLoadModule := fun _ => Ok sample_module;
     send := fun _ _ _ => Ok tt;
     path_join := fun a b => a ++ Fs.slash :: b;
     decodeURIComponent := fun s => Ok s |}.

Definition get_request (u : string) (hs : list (jsstring * value)) : Request :=
  {| url := Some (lit u); originalUrl := Some (lit u); headers := hs |}.

Definition open_response : Response := {| writableEnded := false |}.

(** All three hooks set: the manifest transform is the identity, the
    template transform appends a comment, the render hook fills the
    application element. *)
Definition sample_options : option PluginOptions :=
  Some {| ssr := VString (lit "/entry.js");
          manifestId := None; templateId := None;
          buildConfig := VUndefined; writeManifest := None;
          transformManifest := Some (fun m => Ok m);
          transformTemplate := Some (fun t => Ok (VString (t ++ lit "<!-- ssr -->")));
          render := Some (reading (fun _ => Ok (VString (lit "<div id='app'>X</div>")))) |}.

(** The same without hooks: the default renderer is used. *)
Definition default_options : option PluginOptions :=
  Some {| ssr := VString (lit "/entry.js");
          manifestId := None; templateId := None;
          buildConfig := VUndefined; writeManifest := None;
          transformManifest := None; transformTemplate := None;
          render := None |}.

(** C2 as stated fails: a request for [/index.html] is rendered through
    the render hook, with all hooks configured, and the manifest transform
    is not called while it is handled. *)
Lemma C2_manifest_transform_not_called_in_dev :
  let trace := trace_of (middleware sample_options sample_server
                           (get_request "/index.html" []) open_response
                           (initial sample_disk)) in
  existsb is_render_call trace = true /\
  calls is_manifest_transform trace = 0%nat /\
  calls is_template_transform trace = 1%nat.
Proof. vm_compute. repeat split. Qed.

(** C2 (amended).  While a development request that reaches a render call
    is handled, the template transform, when configured, is called exactly
    once, and the manifest transform is not called. *)
Theorem C2_transforms_per_request
        (options : option PluginOptions) (server : ViteDevServer)
        (req : Request) (res : Response) (st : State) :
  existsb is_render_call (trace_of (middleware options server req res st)) = true ->
  calls is_template_transform (trace_of (middleware options server req res st))
  = (match opt_transformTemplate options with Some _ => 1 | None => 0 end)%nat /\
  calls is_manifest_transform (trace_of (middleware options server req res st)) = 0%nat.
Proof.
  intros H. run.
  repeat (branch; cbn in *; try discriminate; try (split; reflexivity)).
Qed.

Lemma C2_transforms_per_request_witness :
  existsb is_render_call
    (trace_of (middleware sample_options sample_server
                 (get_request "/index.html?a=b#top" []) open_response
                 (initial sample_disk))) = true /\
  calls is_template_transform
    (trace_of (middleware sample_options sample_server
                 (get_request "/index.html?a=b#top" []) open_response
                 (initial sample_disk))) = 1%nat /\
  calls is_manifest_transform
    (trace_of (middleware sample_options sample_server
                 (get_request "/index.html?a=b#top" []) open_response
                 (initial sample_disk))) = 0%nat.
Proof.
  split; [vm_compute; reflexivity|].
  apply (C2_transforms_per_request sample_options sample_server
           (get_request "/index.html?a=b#top" []) open_response
           (initial sample_disk)).
  vm_compute. reflexivity.
Defined.

(** The manifest transform is not called by the middleware on any
    request. *)
Lemma middleware_never_transforms_manifest
        (options : option PluginOptions) (server : ViteDevServer)
        (req : Request) (res : Response) (st : State) :
  calls is_manifest_transform (trace_of (middleware options server req res st)) = 0%nat.
Proof.
  run. repeat (branch; cbn in *; try reflexivity).
Qed.



Definition is_send (e : event) : bool :=
  match e with ESend _ _ _ => true | _ => false end.


(** The body that line 290 chooses. *)
Definition body_of (rendered : value) (template : jsstring) : jsstring :=
  match rendered with
  | VString s => s
  | _ => template
  end.

Ltac in_trace :=
  repeat match goal with
  | H : In _ _ |- _ => cbn in H
  | H : _ \/ _ |- _ => destruct H
  | H : False |- _ => destruct H
  | H : @eq event _ _ |- _ => first [discriminate H | inversion H; subst; clear H]
  end.

(** Two completions of the same call are equal. *)
Ltac same_call H :=
  match type of H with
  | ?lhs = ?rhs =>
      match goal with
      | E : lhs = ?r |- _ =>
          tryif constr_eq r rhs then fail
          else (rewrite E in H; inversion H; subst)
      end
  end.

(** C4.  When the configured render hook is called and resolves, the
    request it is given is the request being handled and the template it is
    given is the stored, already transformed template; exactly one response
    is sent, and its body is the string the hook resolved to, or that
    template when the hook resolved to something that is not a string.
    Without a configured hook, once the entry module is loaded and has a
    callable [render] export, that export is called with the request and
    the template, and its result decides the body in the same way. *)
Theorem C4_render_decides_body
        (options : option PluginOptions) (server : ViteDevServer)
        (req : Request) (res : Response) (st : State) :
  (forall hook ctx v,
      opt_render options = Some hook ->
      In (ERenderHook ctx) (trace_of (middleware options server req res st)) ->
      hook ctx = Ok v ->
      ctx_req ctx = req /\
      ctx_template ctx = templateSource (state_of (middleware options server req res st)) /\
      filter is_send (trace_of (middleware options server req res st))
      = [ESend (body_of v (templateSource (state_of (middleware options server req res st))))
               (lit "html") (server_headers (config server))]) /\
  (forall id loaded f v,
      opt_render options = None ->
      In (ESsrLoadModule id) (trace_of (middleware options server req res st)) ->
      ssrLoadModule server id = Ok loaded ->
      module_render loaded = Some f ->
      f req (templateSource (state_of (middleware options server req res st))) = Ok v ->
      In (EModuleRender req (templateSource (state_of (middleware options server req res st))))
         (trace_of (middleware options server req res st)) /\
      filter is_send (trace_of (middleware options server req res st))
      = [ESend (body_of v (templateSource (state_of (middleware options server req res st))))
               (lit "html") (server_headers (config server))]).
Proof.
  split.
  - intros hook ctx v Hopt Hin Hv. run. rewrite Hopt in *.
    repeat (branch; cbn in *; try contradiction);
      in_trace; cbn in *; same_call Hv; repeat split; reflexivity.
  - intros id loaded f v Hopt Hin Hload Hf Hv. run. rewrite Hopt in *.
    repeat (branch; cbn in *; try contradiction);
      in_trace; cbn in *; same_call Hload; same_call Hf; same_call Hv;
      (split; cbn; [repeat (first [left; reflexivity | right]) | reflexivity]).
Qed.

(** *** The stored manifest during a request *)

Lemma written_same (v : value) : written v v = v.
Proof. destruct v; reflexivity. Qed.

Lemma render_hook_called_or_not (trace : list event) :
  (forall ctx, ~ In (ERenderHook ctx) trace) \/
  (exists ctx, In (ERenderHook ctx) trace).
Proof.
  induction trace as [|ev trace [IH|[ctx IH]]].
  - left. intros ctx [].
  - destruct ev; try (left; intros c [Hc|Hc]; [discriminate Hc | exact (IH c Hc)]).
    right. exists ctx. now left.
  - right. exists ctx. now right.
Qed.

(** The stored manifest after a request: as before when the render hook
    was not called, and else what the hook left in the object it was
    handed, which is the stored one. *)
Lemma middleware_manifest_after
      (options : option PluginOptions) (server : ViteDevServer)
      (req : Request) (res : Response) (st : State) :
  ((forall ctx, ~ In (ERenderHook ctx)
                     (trace_of (middleware options server req res st))) ->
   manifestSource (state_of (middleware options server req res st))
   = manifestSource st) /\
  (forall hook ctx,
      opt_render options = Some hook ->
      In (ERenderHook ctx) (trace_of (middleware options server req res st)) ->
      ctx_manifest ctx = manifestSource st /\
      manifestSource (state_of (middleware options server req res st))
      = written (manifestSource st) (hook_manifest hook ctx)).
Proof.
  split.
  - intros H. run.
    repeat (branch; cbn in *; try reflexivity);
      exfalso; eapply H; repeat (first [left; reflexivity | right]).
  - intros hook ctx Hopt Hin. run. rewrite Hopt in *.
    repeat (branch; cbn in *; try contradiction);
      in_trace; cbn in *; split; reflexivity.
Qed.

(** A render hook that writes a property to the manifest it is handed, and
    resolves to nothing. *)
Definition writing_hook : RenderHook :=
  {| hook_result := fun _ => Ok VUndefined;
     hook_manifest := fun ctx =>
       match ctx_manifest ctx with
       | VObject props => VObject (obj_set props (lit "seen") (VBool true))
       | other => other
       end |}.

Definition writing_options : option PluginOptions :=
  Some {| ssr := VString (lit "/entry.js");
          manifestId := None; templateId := None;
          buildConfig := VUndefined; writeManifest := None;
          transformManifest := None; transformTemplate := None;
          render := Some writing_hook |}.

(** C7 as stated fails: the render hook is handed the stored manifest
    itself, and what it writes there is in the store after the request. *)
Lemma C7_render_hook_writes_the_manifest :
  let st := initial sample_disk in
  let out := middleware writing_options sample_server
               (get_request "/index.html" []) open_response st in
  result_of out = Ok tt /\
  manifestSource st = VObject [] /\
  manifestSource (state_of out) = VObject [(lit "seen", VBool true)].
Proof. vm_compute. repeat split. Qed.

(** C7 (amended).  The middleware never assigns the stored manifest.  After
    a development request the stored manifest is as before when no render
    hook is configured, when the configured hook does not write to the
    manifest it is handed, and when the request does not reach the hook;
    when the hook is called, it is handed the stored manifest, and the
    store then holds what the hook left in it. *)
Theorem C7_manifest_changes_only_by_the_render_hook
        (options : option PluginOptions) (server : ViteDevServer)
        (req : Request) (res : Response) (st : State) :
  (opt_render options = None ->
   manifestSource (state_of (middleware options server req res st))
   = manifestSource st) /\
  (forall hook,
      opt_render options = Some hook ->
      (forall ctx, hook_manifest hook ctx = ctx_manifest ctx) ->
      manifestSource (state_of (middleware options server req res st))
      = manifestSource st) /\
  ((forall ctx, ~ In (ERenderHook ctx)
                     (trace_of (middleware options server req res st))) ->
   manifestSource (state_of (middleware options server req res st))
   = manifestSource st) /\
  (forall hook ctx,
      opt_render options = Some hook ->
      In (ERenderHook ctx) (trace_of (middleware options server req res st)) ->
      ctx_manifest ctx = manifestSource st /\
      manifestSource (state_of (middleware options server req res st))
      = written (manifestSource st) (hook_manifest hook ctx)).
Proof.
  destruct (middleware_manifest_after options server req res st) as [Hnone Hhook].
  split; [|split; [|split]].
  - intros H. apply (@middleware_frames_manifest options server req res H).
  - intros hook Hopt Hread.
    destruct (render_hook_called_or_not
                (trace_of (middleware options server req res st))) as [Hno|[ctx Hin]].
    + exact (Hnone Hno).
    + destruct (Hhook hook ctx Hopt Hin) as [Hctx Hst].
      rewrite Hst, Hread, Hctx. apply written_same.
  - exact Hnone.
  - exact Hhook.
Qed.

(** The context that the middleware builds for [/index.html] without a
    template transform. *)
Definition plain_context : RenderContext :=
  {| ctx_ssr := sample_module;
     ctx_req := get_request "/index.html" [];
     ctx_res := open_response;
     ctx_template := lit "<div id='app'></div>";
     ctx_manifest := VObject [] |}.

Lemma C7_manifest_changes_only_by_the_render_hook_witness :
  manifestSource
    (state_of (middleware default_options sample_server
                 (get_request "/index.html" []) open_response (initial sample_disk)))
  = VObject [] /\
  manifestSource
    (state_of (middleware sample_options sample_server
                 (get_request "/index.html" []) open_response (initial sample_disk)))
  = VObject [] /\
  manifestSource
    (state_of (middleware writing_options sample_server
                 (get_request "/index.html" []) open_response (initial sample_disk)))
  = written (VObject []) (hook_manifest writing_hook plain_context).
Proof.
  split; [|split].
  - exact (proj1
      (C7_manifest_changes_only_by_the_render_hook default_options sample_server
         (get_request "/index.html" []) open_response (initial sample_disk))
      eq_refl).
  - exact (proj1 (proj2
      (C7_manifest_changes_only_by_the_render_hook sample_options sample_server
         (get_request "/index.html" []) open_response (initial sample_disk)))
      (reading (fun _ => Ok (VString (lit "<div id='app'>X</div>"))))
      eq_refl (fun ctx => eq_refl)).
  - refine (proj2 (proj2 (proj2 (proj2
      (C7_manifest_changes_only_by_the_render_hook writing_options sample_server
         (get_request "/index.html" []) open_response (initial sample_disk))))
      writing_hook plain_context eq_refl _)).
    vm_compute. do 4 right. left. reflexivity.
Defined.

(** Serving requests one after the other. *)
Fixpoint serve (options : option PluginOptions) (server : ViteDevServer)
         (requests : list (Request * Response)) (st : State) : State :=
  match requests with
  | [] => st
  | (req, res) :: rest =>
      serve options server rest (state_of (middleware options server req res st))
  end.

(** In development, without a render hook, the manifest stays the empty
    object the plugin starts with. *)
Lemma manifest_stays_empty_in_dev
      (options : option PluginOptions) (server : ViteDevServer)
      (requests : list (Request * Response)) (d : Fs.node) :
  opt_render options = None ->
  manifestSource (serve options server requests (initial d)) = VObject [].
Proof.
  intros Hopt.
  assert (H : forall st, manifestSource (serve options server requests st)
                         = manifestSource st).
  { induction requests as [|[req res] rest IH]; intros st; simpl; [reflexivity|].
    rewrite IH. apply (@middleware_frames_manifest options server req res Hopt). }
  now rewrite H.
Qed.

(** The context that the middleware builds for [/index.html] with
    [sample_options]. *)
Definition sample_context : RenderContext :=
  {| ctx_ssr := sample_module;
     ctx_req := get_request "/index.html" [];
     ctx_res := open_response;
     ctx_template := lit "<div id='app'></div><!-- ssr -->";
     ctx_manifest := VObject [] |}.

Lemma C4_render_decides_body_witness :
  filter is_send
    (trace_of (middleware sample_options sample_server
                 (get_request "/index.html" []) open_response (initial sample_disk)))
  = [ESend (lit "<div id='app'>X</div>") (lit "html") VUndefined] /\
  In (EModuleRender (get_request "/index.html" []) (lit "<div id='app'></div>"))
     (trace_of (middleware default_options sample_server
                  (get_request "/index.html" []) open_response (initial sample_disk))).
Proof.
  split.
  - refine (proj2 (proj2 (proj1
      (C4_render_decides_body sample_options sample_server
         (get_request "/index.html" []) open_response (initial sample_disk))
      (reading (fun _ => Ok (VString (lit "<div id='app'>X</div>")))) sample_context
      (VString (lit "<div id='app'>X</div>")) eq_refl _ eq_refl))).
    vm_compute. do 5 right. left. reflexivity.
  - refine (proj1 (proj2
      (C4_render_decides_body default_options sample_server
         (get_request "/index.html" []) open_response (initial sample_disk))
      (lit "/entry.js") sample_module (fun _ template => Ok (VString template))
      (VString (lit "<div id='app'></div>")) eq_refl _ eq_refl eq_refl eq_refl)).
    vm_compute. do 3 right. left. reflexivity.
Defined.

End MiddlewareFacts.

(* ----------------------------------------------------------------- *)
(** ** Emptying the output directory *)

Module FsFacts.
Import Js JsFacts Fs.

(** *** Entries of one directory *)

Lemma find_entry_app (a b : list (jsstring * node)) (x : jsstring) :
  ~ In x (map fst a) -> find_entry (a ++ b) x = find_entry b x.
Proof.
  induction a as [|[k n] a IH]; simpl; intros H; [reflexivity|].
  destruct (str_eqb k x) eqn:E.
  - apply str_eqb_eq in E. tauto.
  - apply IH. tauto.
Qed.

Lemma find_entry_head (b : list (jsstring * node)) (x : jsstring) (c : node) :
  find_entry ((x, c) :: b) x = Some c.
Proof. simpl. now rewrite str_eqb_refl. Qed.

Lemma find_entry_set_entry (es : list (jsstring * node)) (x : jsstring) (c n : node) :
  find_entry es x = Some c -> find_entry (set_entry es x n) x = Some n.
Proof.
  induction es as [|[k m] es IH]; simpl; [discriminate|].
  destruct (str_eqb k x) eqn:E; simpl; rewrite E; auto.
Qed.

Lemma set_entry_set_entry (es : list (jsstring * node)) (x : jsstring) (a b : node) :
  set_entry (set_entry es x a) x b = set_entry es x b.
Proof.
  induction es as [|[k m] es IH]; simpl; [reflexivity|].
  destruct (str_eqb k x) eqn:E; simpl; rewrite E; [reflexivity|].
  now rewrite IH.
Qed.

Lemma set_entry_same (es : list (jsstring * node)) (x : jsstring) (c : node) :
  find_entry es x = Some c -> set_entry es x c = es.
Proof.
  induction es as [|[k m] es IH]; simpl; [reflexivity|].
  destruct (str_eqb k x) eqn:E.
  - intros [= ->]. reflexivity.
  - intros H. now rewrite IH.
Qed.

Lemma remove_entry_set_entry (es : list (jsstring * node)) (x : jsstring) (n : node) :
  remove_entry (set_entry es x n) x = remove_entry es x.
Proof.
  unfold remove_entry.
  induction es as [|[k m] es IH]; simpl; [reflexivity|].
  destruct (str_eqb k x) eqn:E; simpl; rewrite E; simpl; [reflexivity|].
  now rewrite IH.
Qed.

Lemma remove_entry_absent (es : list (jsstring * node)) (x : jsstring) :
  ~ In x (map fst es) -> remove_entry es x = es.
Proof.
  unfold remove_entry.
  induction es as [|[k m] es IH]; simpl; intros H; [reflexivity|].
  destruct (str_eqb k x) eqn:E.
  - apply str_eqb_eq in E. tauto.
  - simpl. rewrite IH; tauto.
Qed.

Lemma remove_entry_middle (a b : list (jsstring * node)) (x : jsstring) (c : node) :
  NoDup (map fst (a ++ (x, c) :: b)) ->
  remove_entry (a ++ (x, c) :: b) x = a ++ b.
Proof.
  intros H. rewrite map_app in H. simpl in H.
  apply NoDup_remove in H as [_ H]. rewrite in_app_iff in H.
  unfold remove_entry. rewrite filter_app. simpl.
  rewrite str_eqb_refl. simpl.
  fold (remove_entry a x). fold (remove_entry b x).
  rewrite !remove_entry_absent; tauto.
Qed.

(** *** Paths in a tree *)

Lemma lookup_app (fs : node) (p q : path) (n : node) :
  lookup fs p = Some n -> lookup fs (p ++ q) = lookup n q.
Proof.
  revert fs. induction p as [|x p IH]; simpl; intros fs H.
  - now inversion H.
  - destruct fs as [d|es]; [discriminate|].
    destruct (find_entry es x); [auto|discriminate].
Qed.

Lemma lookup_set_at (fs : node) (p : path) (n0 n : node) :
  lookup fs p = Some n0 -> lookup (set_at fs p n) p = Some n.
Proof.
  revert fs. induction p as [|x p IH]; simpl; intros fs H; [reflexivity|].
  destruct fs as [d|es]; [discriminate|].
  destruct (find_entry es x) as [c|] eqn:E; [|discriminate].
  simpl. erewrite find_entry_set_entry by eassumption. eauto.
Qed.

Lemma set_at_set_at (fs : node) (p : path) (n0 a b : node) :
  lookup fs p = Some n0 -> set_at (set_at fs p a) p b = set_at fs p b.
Proof.
  revert fs. induction p as [|x p IH]; simpl; intros fs H; [reflexivity|].
  destruct fs as [d|es]; [discriminate|].
  destruct (find_entry es x) as [c|] eqn:E; [|discriminate].
  simpl. erewrite find_entry_set_entry by eassumption.
  rewrite set_entry_set_entry. f_equal. f_equal. eauto.
Qed.

Lemma set_at_same (fs : node) (p : path) (n : node) :
  lookup fs p = Some n -> set_at fs p n = fs.
Proof.
  revert fs. induction p as [|x p IH]; simpl; intros fs H.
  - now inversion H.
  - destruct fs as [d|es]; [discriminate|].
    destruct (find_entry es x) as [c|] eqn:E; [|discriminate].
    rewrite IH by exact H. f_equal. now apply set_entry_same.
Qed.

Lemma set_at_app (fs : node) (p q : path) (n0 n : node) :
  lookup fs p = Some n0 ->
  set_at fs (p ++ q) n = set_at fs p (set_at n0 q n).
Proof.
  revert fs. induction p as [|x p IH]; simpl; intros fs H.
  - now inversion H.
  - destruct fs as [d|es]; [discriminate|].
    destruct (find_entry es x) as [c|] eqn:E; [|discriminate].
    f_equal. f_equal. eauto.
Qed.

Lemma split_last_snoc (p : path) (x : jsstring) :
  split_last (p ++ [x]) = Some (p, x).
Proof.
  induction p as [|y p IH]; simpl; [reflexivity|].
  rewrite IH. destruct (p ++ [x]) eqn:E; [|reflexivity].
  destruct p; discriminate.
Qed.

(** *** Path strings *)

Lemma components_aux_name (k cur : jsstring) :
  forallb (fun c => negb (N.eqb c slash)) k = true ->
  components_aux k cur = match cur ++ k with [] => [] | _ :: _ => [cur ++ k] end.
Proof.
  revert cur. induction k as [|c k IH]; simpl; intros cur H.
  - rewrite app_nil_r. reflexivity.
  - apply andb_true_iff in H as [Hc Hk].
    apply negb_true_iff in Hc. rewrite Hc.
    rewrite IH by exact Hk. now rewrite <- app_assoc.
Qed.

Lemma components_aux_resolve (dir k cur : jsstring) :
  valid_name k = true ->
  components_aux (path_resolve dir k) cur = components_aux dir cur ++ [k].
Proof.
  intros Hk. unfold path_resolve.
  assert (Hone : components_aux k [] = [k]).
  { destruct k as [|c k]; [discriminate|].
    simpl in Hk. now rewrite components_aux_name. }
  revert cur. induction dir as [|c dir IH]; intros cur.
  - cbn [app components_aux]. rewrite N.eqb_refl, Hone. now destruct cur.
  - cbn [app components_aux]. destruct (N.eqb c slash).
    + destruct cur; now rewrite IH.
    + apply IH.
Qed.

Lemma components_resolve (dir k : jsstring) :
  valid_name k = true ->
  components (path_resolve dir k) = components dir ++ [k].
Proof. apply components_aux_resolve. Qed.


(** *** Depth and well-formedness *)

Lemma height_child (es : list (jsstring * node)) (x : jsstring) (c : node) :
  In (x, c) es -> (height c < height (Dir es))%nat.
Proof.
  simpl. induction es as [|[k n] es IH]; simpl; [tauto|].
  intros [[= -> ->]|H]; [lia|].
  specialize (IH H). lia.
Qed.

Lemma wf_dir_inv (es : list (jsstring * node)) :
  wf (Dir es) ->
  NoDup (map fst es) /\
  Forall (fun kn => valid_name (fst kn) = true /\ wf (snd kn)) es.
Proof. intros H. inversion H; subst. auto. Qed.

Lemma filter_none {A} (l : list A) : filter (fun _ => false) l = [].
Proof. induction l; simpl; auto. Qed.

(** *** [emptyDir] *)

Section Loop.

Variable f : nat.
Variable recurse : jsstring -> node -> option (outcome unit * node).
Variable dir : jsstring.
Variable skip : option (list jsstring).

(** The recursive call empties every well-formed directory of depth at
    most [f]. *)
Hypothesis recurse_spec :
  forall d fs ces,
    wf (Dir ces) ->
    lookup fs (components d) = Some (Dir ces) ->
    (height (Dir ces) <= f)%nat ->
    recurse d fs = Some (Ok tt, set_at fs (components d) (Dir [])).

Definition kept_by_skip (kn : jsstring * node) : bool :=
  skip_includes skip (fst kn).

(** The loop invariant: the directory holds the entries already kept,
    followed by the entries still to be visited. *)
Lemma emptyDir_loop_spec :
  forall (todo kept : list (jsstring * node)) (fs : node),
    lookup fs (components dir) = Some (Dir (kept ++ todo)) ->
    NoDup (map fst (kept ++ todo)) ->
    Forall (fun kn => valid_name (fst kn) = true /\ wf (snd kn) /\
                      (height (snd kn) <= f)%nat) todo ->
    emptyDir_loop recurse dir skip (map fst todo) fs
    = Some (Ok tt,
            set_at fs (components dir) (Dir (kept ++ filter kept_by_skip todo))).
Proof.
  induction todo as [|[x c] todo IH]; intros kept fs Hdir Hnd Hall.
  - simpl. rewrite app_nil_r in *. now rewrite set_at_same.
  - inversion Hall as [|? ? (Hx & Hwf & Hh) Hall']; subst. simpl in Hx, Hwf, Hh.
    assert (Hfresh : ~ In x (map fst kept)).
    { rewrite map_app in Hnd. simpl in Hnd.
      apply NoDup_remove_2 in Hnd. rewrite in_app_iff in Hnd. tauto. }
    assert (Hchild : lookup fs (components (path_resolve dir x)) = Some c).
    { rewrite components_resolve by exact Hx.
      erewrite lookup_app by exact Hdir. simpl.
      now rewrite find_entry_app, find_entry_head. }
    assert (Hrest : NoDup (map fst (kept ++ todo))).
    { rewrite map_app in *. simpl in Hnd. now apply NoDup_remove_1 in Hnd. }
    assert (Hgone :
      forall fs1, lookup fs1 (components dir) = Some (Dir (kept ++ todo)) ->
        emptyDir_loop recurse dir skip (map fst todo) fs1
        = Some (Ok tt, set_at fs1 (components dir)
                         (Dir (kept ++ filter kept_by_skip todo)))).
    { intros fs1 H1. now apply IH. }
    cbn [map fst emptyDir_loop filter]. unfold kept_by_skip at 1. cbn [fst].
    destruct (skip_includes skip x) eqn:Es.
    + specialize (IH (kept ++ [(x, c)]) fs).
      rewrite <- !app_assoc in IH. apply IH; assumption.
    + unfold lstat_isDirectory. rewrite Hchild.
      destruct c as [d|ces].
      * unfold unlinkSync. rewrite Hchild.
        rewrite components_resolve by exact Hx.
        unfold remove_at. rewrite split_last_snoc, Hdir.
        rewrite remove_entry_middle by exact Hnd.
        rewrite Hgone by (eapply lookup_set_at; eassumption).
        erewrite set_at_set_at by eassumption. reflexivity.
      * rewrite (recurse_spec _ _ Hwf Hchild Hh).
        unfold rmdirSync.
        erewrite lookup_set_at by eassumption.
        rewrite components_resolve by exact Hx.
        unfold remove_at. rewrite split_last_snoc.
        erewrite set_at_app by exact Hdir.
        erewrite lookup_set_at by eassumption.
        cbn [set_at].
        rewrite find_entry_app, find_entry_head by exact Hfresh.
        rewrite remove_entry_set_entry, remove_entry_middle by exact Hnd.
        erewrite set_at_set_at by eassumption.
        rewrite Hgone by (eapply lookup_set_at; eassumption).
        erewrite set_at_set_at by eassumption. reflexivity.
Qed.

End Loop.

(** With one unit of fuel per level, [emptyDir] completes on a well-formed
    directory and leaves exactly the skipped entries in it, untouched; the
    rest of the file system is as before. *)
Lemma emptyDir_spec (fuel : nat) :
  forall (dir : jsstring) (skip : option (list jsstring)) (fs : node)
         (es : list (jsstring * node)),
    wf (Dir es) ->
    lookup fs (components dir) = Some (Dir es) ->
    (height (Dir es) <= fuel)%nat ->
    emptyDir fuel dir skip fs
    = Some (Ok tt, set_at fs (components dir)
                     (Dir (filter (kept_by_skip skip) es))).
Proof.
  induction fuel as [|f IH]; intros dir skip fs es Hwf Hdir Hh.
  - simpl in Hh. lia.
  - cbn [emptyDir]. unfold readdirSync. rewrite Hdir.
    apply wf_dir_inv in Hwf as [Hnd Hall].
    apply (emptyDir_loop_spec (f := f)) with (kept := []).
    + intros d fs' ces Hwf' Hd Hh'.
      rewrite (IH d None fs' ces Hwf' Hd Hh').
      unfold kept_by_skip. simpl. now rewrite filter_none.
    + exact Hdir.
    + exact Hnd.
    + rewrite Forall_forall in *. intros [x c] Hin.
      destruct (Hall _ Hin) as [Hx Hc]. repeat split; auto.
      apply height_child in Hin. simpl in *. lia.
Qed.


Lemma distinct_NoDup (names : list jsstring) :
  distinct names = true -> NoDup names.
Proof.
  induction names as [|k r IH]; simpl; intros H; constructor.
  - apply andb_true_iff in H as [H _]. apply negb_true_iff in H.
    intros Hin. assert (existsb (fun k' => str_eqb k' k) r = true); [|congruence].
    apply existsb_exists. exists k. split; [exact Hin|apply str_eqb_refl].
  - apply IH. now apply andb_true_iff in H as [_ H].
Qed.

Lemma wfb_wf (h : nat) :
  forall n, (height n <= h)%nat -> wfb n = true -> wf n.
Proof.
  induction h as [|h IH]; intros [d|es] Hh Hb.
  - constructor.
  - simpl in Hh. lia.
  - constructor.
  - simpl in Hb. apply andb_true_iff in Hb as [Hd Hb].
    constructor; [now apply distinct_NoDup|].
    assert (Hch : forall x c, In (x, c) es -> (height c <= h)%nat).
    { intros x c Hin. apply height_child in Hin. lia. }
    clear Hh Hd. induction es as [|[k c] es IHes]; constructor.
    + apply andb_true_iff in Hb as [Hb _]. apply andb_true_iff in Hb as [Hk Hc].
      split; [exact Hk|]. apply IH; [|exact Hc]. eapply Hch. now left.
    + apply IHes.
      * now apply andb_true_iff in Hb as [_ Hb].
      * intros x c' Hin. eapply Hch. right. exact Hin.
Qed.

Lemma wfb_sound (n : node) : wfb n = true -> wf n.
Proof. apply wfb_wf with (h := height n). apply le_n. Qed.

(** The entries that [emptyDir(outDir, ['.git'])] keeps. *)
Definition is_git (kn : jsstring * node) : bool := str_eqb (fst kn) (lit ".git").

Lemma kept_by_skip_git (es : list (jsstring * node)) :
  filter (kept_by_skip (Some [lit ".git"])) es = filter is_git es.
Proof.
  apply filter_ext. intros [k n]. unfold kept_by_skip, is_git. simpl.
  now rewrite orb_false_r, str_eqb_sym.
Qed.

Section PrepareOutDirFacts.

Variable normalizePath : jsstring -> jsstring.


End PrepareOutDirFacts.

(** What is visible afterwards: the listing of the emptied directory, and
    everything below a spared entry. *)
Lemma emptied_listing (fs : node) (outDir : jsstring) (es : list (jsstring * node)) :
  lookup fs (components outDir) = Some (Dir es) ->
  readdirSync (set_at fs (components outDir) (Dir (filter is_git es))) outDir
  = Ok (filter (fun k => str_eqb k (lit ".git")) (map fst es)).
Proof.
  intros H. unfold readdirSync. erewrite lookup_set_at by exact H.
  f_equal. clear H. induction es as [|[k n] es IH]; simpl; [reflexivity|].
  unfold is_git at 1. simpl. destruct (str_eqb k (lit ".git")); simpl; now rewrite IH.
Qed.

Lemma find_entry_filter_git (es : list (jsstring * node)) :
  find_entry (filter is_git es) (lit ".git") = find_entry es (lit ".git").
Proof.
  induction es as [|[k n] es IH]; simpl; [reflexivity|].
  unfold is_git at 1. simpl.
  destruct (str_eqb k (lit ".git")) eqn:E; simpl; rewrite ?E; auto.
Qed.

Lemma spared_contents (fs : node) (outDir : jsstring) (es : list (jsstring * node))
      (q : path) :
  lookup fs (components outDir) = Some (Dir es) ->
  lookup (set_at fs (components outDir) (Dir (filter is_git es)))
         (components outDir ++ lit ".git" :: q)
  = lookup fs (components outDir ++ lit ".git" :: q).
Proof.
  intros H.
  rewrite lookup_app with (n := Dir (filter is_git es))
    by (eapply lookup_set_at; exact H).
  rewrite lookup_app with (n := Dir es) by exact H.
  cbn [lookup]. now rewrite find_entry_filter_git.
Qed.


(** A project in [/proj] with a build in [/proj/dist], and a directory
    elsewhere. *)
Definition project : node :=
  Dir [(lit "proj",
        Dir [(lit "dist",
              Dir [(lit ".git", Dir [(lit "HEAD", File (lit "ref: refs/heads/main"))]);
                   (lit "assets",
                    Dir [(lit ".git", Dir []);
                         (lit "main.js", File (lit "console.log(1)"))]);
                   (lit "index.html", File (lit "<html></html>"))]);
             (lit "src", Dir [(lit "main.ts", File (lit "export {}"))])]);
       (lit "elsewhere", Dir [(lit "out", Dir [(lit "keep.txt", File (lit "k"))])])].


Definition dist_entries : list (jsstring * node) :=
  [(lit ".git", Dir [(lit "HEAD", File (lit "ref: refs/heads/main"))]);
   (lit "assets",
    Dir [(lit ".git", Dir []); (lit "main.js", File (lit "console.log(1)"))]);
   (lit "index.html", File (lit "<html></html>"))].


End FsFacts.

(* ----------------------------------------------------------------- *)
(** ** The minification transform *)

Module MinifyFacts.
Import Js Minify.

(** A minifier that, like an HTML parser without error recovery, rejects a
    text that ends inside a tag and otherwise returns its input. *)
Definition ParseError : value :=
  VObject [(lit "message", VString (lit "Parse Error"))].

Definition strict_minifier : MinifierModule :=
  {| lib_minify :=
       Some (fun html _ =>
               if existsb (N.eqb 60) html && negb (existsb (N.eqb 62) html)
               then Throw ParseError
               else Ok (VString html)) |}.

(** C9 as stated fails: the call of the library's [minify] is outside the
    [try] block, so when the library rejects the text the returned promise
    rejects. *)
Lemma C9_minify_rejects_with_the_library :
  minify (Ok strict_minifier) (lit "<div") = (Throw ParseError, []).
Proof. reflexivity. Qed.

(** C9 (amended).  When the import fails, the function logs the warning
    and resolves to its input; when it succeeds and the library exports a
    callable [minify], the promise settles exactly as the library's call
    on the input and the fixed options does, and nothing is logged. *)
Theorem C9_minify_falls_back_or_delegates
        (imported : outcome MinifierModule) (html : jsstring) :
  (forall e, imported = Throw e ->
     minify imported html = (Ok (VString html), [missing_dependency_warning])) /\
  (forall m f, imported = Ok m -> lib_minify m = Some f ->
     minify imported html = (f html minify_options, [])).
Proof.
  split.
  - intros e ->. reflexivity.
  - intros m f -> Hf. unfold minify. rewrite Hf. reflexivity.
Qed.

Lemma C9_minify_falls_back_or_delegates_witness :
  minify (Throw (VString (lit "ERR_MODULE_NOT_FOUND"))) (lit "<p>  a  </p>")
  = (Ok (VString (lit "<p>  a  </p>")), [missing_dependency_warning]) /\
  minify (Ok strict_minifier) (lit "<p>  a  </p>")
  = (Ok (VString (lit "<p>  a  </p>")), []).
Proof.
  split.
  - exact (proj1 (C9_minify_falls_back_or_delegates
                    (Throw (VString (lit "ERR_MODULE_NOT_FOUND"))) (lit "<p>  a  </p>"))
                 _ eq_refl).
  - exact (proj2 (C9_minify_falls_back_or_delegates
                    (Ok strict_minifier) (lit "<p>  a  </p>"))
                 strict_minifier _ eq_refl eq_refl).
Defined.

End MinifyFacts.

(* ----------------------------------------------------------------- *)
(** ** The production harvest *)

Module HarvestFacts.
Import Js JsFacts Json Plugin TransformFacts MiddlewareFacts.

#[local] Opaque stringify_pretty parse Fs.existsSync Fs.readFileSync
  Fs.unlinkSync Fs.writeFileSync endsWith.

Ltac run_build :=
  unfold harvest_manifest, harvest_template, applyManifestTransformation,
    applyTemplateTransformation, unlink, write, bind, emit, call, get, ret,
    set_templateSource, set_manifestSource, set_disk, trace_of, state_of,
    result_of, calls in *.

(** The trace of a sequence. *)
Lemma calls_app (p : event -> bool) (t1 t2 : list event) :
  calls p (t1 ++ t2) = (calls p t1 + calls p t2)%nat.
Proof. unfold calls. now rewrite filter_app, length_app. Qed.

Lemma calls_bind {A B} (p : event -> bool) (m : M A) (k : A -> M B) (st : State) :
  calls p (trace_of (bind m k st))
  = (calls p (trace_of (m st)) +
     match result_of (m st) with
     | Ok a => calls p (trace_of (k a (state_of (m st))))
     | Throw _ => 0
     end)%nat.
Proof.
  unfold bind, trace_of, result_of, state_of.
  destruct (m st) as [[[a|e] st1] t1]; simpl; [|lia].
  destruct (k a st1) as [[r st2] t2]; simpl. apply calls_app.
Qed.

Lemma result_bind_ok {A B} (m : M A) (k : A -> M B) (st : State) (b : B) :
  result_of (bind m k st) = Ok b ->
  exists a, result_of (m st) = Ok a /\
            result_of (k a (state_of (m st))) = Ok b.
Proof.
  unfold bind, result_of, state_of.
  destruct (m st) as [[[a|e] st1] t1]; simpl; [|discriminate].
  intros H. exists a. split; [reflexivity|].
  destruct (k a st1) as [[r st2] t2]; simpl in *. exact H.
Qed.

(** The manifest block calls the manifest transform at most once, and the
    template transform never; the template block the other way round. *)
Lemma harvest_manifest_calls
      (options : option PluginOptions) (host : BuildHost) (rc : ResolvedConfig)
      (file : jsstring) (st : State) :
  (calls is_manifest_transform (trace_of (harvest_manifest options host rc file st)) <= 1)%nat /\
  calls is_template_transform (trace_of (harvest_manifest options host rc file st)) = 0%nat.
Proof.
  run_build. repeat (branch; cbn in *; try (split; lia)).
Qed.

Lemma harvest_template_calls
      (options : option PluginOptions) (host : BuildHost) (rc : ResolvedConfig)
      (file : option jsstring) (st : State) :
  calls is_manifest_transform (trace_of (harvest_template options host rc file st)) = 0%nat /\
  (calls is_template_transform (trace_of (harvest_template options host rc file st)) <= 1)%nat.
Proof.
  run_build. repeat (branch; cbn in *; try (split; lia)).
Qed.

(** A manifest block that completes after finding the file calls a
    configured manifest transform. *)
Lemma harvest_manifest_calls_hook
      (options : option PluginOptions) (host : BuildHost) (rc : ResolvedConfig)
      (file : jsstring) (st : State) (hook : value -> outcome value) :
  opt_transformManifest options = Some hook ->
  nonempty file && Fs.existsSync (disk st) file = true ->
  result_of (harvest_manifest options host rc file st) = Ok tt ->
  calls is_manifest_transform (trace_of (harvest_manifest options host rc file st)) = 1%nat.
Proof.
  intros Hopt Hfile Hok. run_build. rewrite Hopt in *. cbn in *.
  rewrite Hfile in *.
  repeat (branch; cbn in *; try discriminate; try reflexivity).
Qed.

(** The client output directory and the manifest file of a harvest. *)
Definition client_outDir (host : BuildHost) (rc : ResolvedConfig) : jsstring :=
  path_resolve host
    [path_resolve host [rc_root rc; rc_build_outDir rc];
     path_basename host
       (if nonempty (rc_publicDir rc) then rc_publicDir rc else lit "www")].

Definition manifest_file (host : BuildHost) (rc : ResolvedConfig) : jsstring :=
  path_resolve host [client_outDir host rc; lit "ssr-manifest.json"].

Definition template_file (host : BuildHost) (rc : ResolvedConfig) : option jsstring :=
  match or_else (rc_build_rollupOptions_input rc) (VString (lit "index.html")) with
  | VString i =>
      if endsWith i (lit ".html")
      then Some (path_resolve host [client_outDir host rc; i])
      else None
  | _ => None
  end.

(** [buildStart_client], after a client build that leaves the disk
    [built]. *)
Lemma buildStart_client_after_build
      (options : option PluginOptions) (host : BuildHost)
      (rc : ResolvedConfig) (st : State) (built : Fs.node) :
  build host (rc_configFile rc) (client_outDir host rc) (disk st) = (Ok tt, built) ->
  let st1 := {| manifestSource := manifestSource st;
                templateSource := templateSource st; disk := built |} in
  buildStart_client options host rc st
  = match bind (harvest_manifest options host rc (manifest_file host rc))
               (fun _ => harvest_template options host rc (template_file host rc))
               st1 with
    | (r, st2, t) => (r, st2, EBuild (client_outDir host rc) :: t)
    end.
Proof.
  intros Hbuild st1.
  unfold buildStart_client. fold (client_outDir host rc).
  fold (manifest_file host rc). fold (template_file host rc).
  set (rest := bind (harvest_manifest options host rc (manifest_file host rc))
                    (fun _ => harvest_template options host rc (template_file host rc))).
  unfold bind at 1 2 3 4. unfold emit, get, call, set_disk. cbn [disk].
  rewrite Hbuild. cbn [fst snd manifestSource templateSource disk].
  fold st1. destruct (rest st1) as [[r st2] t]. reflexivity.
Qed.

Lemma buildStart_client_build_fails
      (options : option PluginOptions) (host : BuildHost)
      (rc : ResolvedConfig) (st : State) (e : value) (left : Fs.node) :
  build host (rc_configFile rc) (client_outDir host rc) (disk st) = (Throw e, left) ->
  buildStart_client options host rc st
  = (Throw e,
     {| manifestSource := manifestSource st;
        templateSource := templateSource st; disk := left |},
     [EBuild (client_outDir host rc)]).
Proof.
  intros Hbuild.
  unfold buildStart_client. fold (client_outDir host rc).
  fold (manifest_file host rc). fold (template_file host rc).
  set (rest := bind (harvest_manifest options host rc (manifest_file host rc))
                    (fun _ => harvest_template options host rc (template_file host rc))).
  unfold bind at 1 2 3 4. unfold emit, get, call, set_disk. cbn [disk].
  rewrite Hbuild. reflexivity.
Qed.

(** One harvest calls each transform at most once. *)
Lemma harvest_transforms_at_most_once
      (options : option PluginOptions) (host : BuildHost)
      (rc : ResolvedConfig) (st : State) :
  (calls is_manifest_transform (trace_of (buildStart_client options host rc st)) <= 1)%nat /\
  (calls is_template_transform (trace_of (buildStart_client options host rc st)) <= 1)%nat.
Proof.
  destruct (build host (rc_configFile rc) (client_outDir host rc) (disk st))
    as [[[]|e] built] eqn:Hbuild.
  - rewrite (buildStart_client_after_build options host rc st Hbuild).
    set (st1 := {| manifestSource := manifestSource st;
                   templateSource := templateSource st; disk := built |}).
    pose proof (calls_bind is_manifest_transform
                  (harvest_manifest options host rc (manifest_file host rc))
                  (fun _ => harvest_template options host rc (template_file host rc))
                  st1) as Hm.
    pose proof (calls_bind is_template_transform
                  (harvest_manifest options host rc (manifest_file host rc))
                  (fun _ => harvest_template options host rc (template_file host rc))
                  st1) as Ht.
    pose proof (harvest_manifest_calls options host rc (manifest_file host rc) st1)
      as [Hm1 Ht1].
    pose proof (harvest_template_calls options host rc (template_file host rc)
                  (state_of (harvest_manifest options host rc (manifest_file host rc) st1)))
      as [Hm2 Ht2].
    destruct (bind _ _ st1) as [[r st2] t].
    unfold calls, trace_of in *.
    cbn [snd filter is_manifest_transform is_template_transform] in *.
    rewrite Hm, Ht.
    destruct (result_of _) as [[]|]; clear - Hm1 Ht1 Hm2 Ht2; lia.
  - rewrite (buildStart_client_build_fails options host rc st Hbuild).
    unfold calls, trace_of. cbn. split; lia.
Qed.

(** A harvest that completes and finds the manifest file left by the
    client build calls a configured manifest transform exactly once. *)
Lemma harvest_transforms_manifest_once
      (options : option PluginOptions) (host : BuildHost)
      (rc : ResolvedConfig) (st : State)
      (hook : value -> outcome value) (built : Fs.node) :
  opt_transformManifest options = Some hook ->
  build host (rc_configFile rc) (client_outDir host rc) (disk st) = (Ok tt, built) ->
  nonempty (manifest_file host rc) && Fs.existsSync built (manifest_file host rc) = true ->
  result_of (buildStart_client options host rc st) = Ok tt ->
  calls is_manifest_transform (trace_of (buildStart_client options host rc st)) = 1%nat.
Proof.
  intros Hopt Hbuild Hfile Hok.
  rewrite (buildStart_client_after_build options host rc st Hbuild) in *.
  set (st1 := {| manifestSource := manifestSource st;
                 templateSource := templateSource st; disk := built |}) in *.
  pose proof (calls_bind is_manifest_transform
                (harvest_manifest options host rc (manifest_file host rc))
                (fun _ => harvest_template options host rc (template_file host rc))
                st1) as Hm.
  pose proof (@result_bind_ok _ _
                (harvest_manifest options host rc (manifest_file host rc))
                (fun _ => harvest_template options host rc (template_file host rc))
                st1 tt) as Hr.
  pose proof (harvest_template_calls options host rc (template_file host rc)
                (state_of (harvest_manifest options host rc (manifest_file host rc) st1)))
    as [Hm2 _].
  destruct (bind _ _ st1) as [[r st2] t].
  destruct (Hr Hok) as ([] & Hr1 & Hr2).
  pose proof (harvest_manifest_calls_hook options host rc (manifest_file host rc) st1
                Hopt Hfile Hr1) as Hone.
  rewrite Hr1 in Hm.
  unfold calls, trace_of in *.
  cbn [snd filter is_manifest_transform] in *.
  clear - Hm Hone Hm2. lia.
Qed.

End HarvestFacts.

(* ================================================================= *)
(** * Further properties of the plugin *)

(* ----------------------------------------------------------------- *)
(** ** [resolveId], [load] and the [transformIndexHtml] hook *)

Module RegistryMore.
Import Js JsFacts Json Es Plugin.

(** [resolveId] and [load] agree: an identifier is resolved (to itself)
    exactly when [load] produces a module for it, in every state. *)
Theorem resolveId_agrees_with_load
        (options : option PluginOptions) (st : State) (id : jsstring) :
  (resolveId options id = Some id <-> load options st id <> None) /\
  (resolveId options id = None <-> load options st id = None).
Proof.
  unfold resolveId, load.
  destruct (str_eqb id (SSR_MANIFEST_NAME options));
    destruct (str_eqb id (SSR_TEMPLATE_NAME options)); simpl;
    repeat split; intros; congruence.
Qed.

(** Without a manifest identifier (unset, or the empty string, which [||]
    treats alike) the two modules are served under their default names,
    whatever [templateId] says. *)
Theorem default_names_are_served
        (options : option PluginOptions) (st : State) :
  opt_manifestId options = None \/ opt_manifestId options = Some [] ->
  resolveId options (lit "ssr:manifest") = Some (lit "ssr:manifest") /\
  load options st (lit "ssr:manifest")
  = Some (lit "export default " ++ interpolate (stringify_pretty (manifestSource st))) /\
  resolveId options (lit "ssr:template") = Some (lit "ssr:template") /\
  load options st (lit "ssr:template")
  = Some (lit "export default " ++ quote (templateSource st)).
Proof.
  intros H. unfold resolveId, load, SSR_MANIFEST_NAME, SSR_TEMPLATE_NAME.
  destruct H as [-> | ->]; repeat split.
Qed.

Lemma default_names_are_served_witness :
  opt_manifestId (RegistryFacts.only_templateId (lit "my:template")) = None /\
  load (RegistryFacts.only_templateId (lit "my:template")) RegistryFacts.sample_state
       (lit "ssr:template")
  = Some (lit "export default " ++ quote (templateSource RegistryFacts.sample_state)).
Proof.
  split; [reflexivity|].
  exact (proj2 (proj2 (proj2
    (default_names_are_served (RegistryFacts.only_templateId (lit "my:template"))
       RegistryFacts.sample_state (or_introl eq_refl))))).
Defined.

(** The html that vite hands to the [transformIndexHtml] hook is what the
    template module exports afterwards (the empty string when there is
    none). *)
Theorem transformed_html_is_exported
        (options : option PluginOptions) (html : option jsstring)
        (st : State) (id : jsstring) :
  id = SSR_TEMPLATE_NAME options ->
  id <> SSR_MANIFEST_NAME options ->
  exists src,
    load options (snd (fst (transformIndexHtml_transform html st))) id = Some src /\
    eval_default_export src
    = Some (VString (match html with Some h => h | None => [] end)).
Proof.
  intros Ht Hm. unfold load. apply str_eqb_neq in Hm. rewrite Hm.
  subst id. rewrite str_eqb_refl.
  eexists. split; [reflexivity|].
  rewrite EsFacts.eval_default_export_quote. simpl.
  destruct html as [[|c r]|]; reflexivity.
Qed.

Lemma transformed_html_is_exported_witness :
  lit "ssr:template" = SSR_TEMPLATE_NAME None /\
  lit "ssr:template" <> SSR_MANIFEST_NAME None /\
  exists src,
    load None (snd (fst (transformIndexHtml_transform
                           (Some (lit "<html>  </html>")) (initial (Fs.Dir [])))))
         (lit "ssr:template") = Some src /\
    eval_default_export src = Some (VString (lit "<html>  </html>")).
Proof.
  assert (Hne : lit "ssr:template" <> SSR_MANIFEST_NAME None).
  { intros H. vm_compute in H. discriminate H. }
  split; [reflexivity|]. split; [exact Hne|].
  exact (transformed_html_is_exported None (Some (lit "<html>  </html>"))
           (initial (Fs.Dir [])) (id := lit "ssr:template") eq_refl Hne).
Defined.

End RegistryMore.

(* ----------------------------------------------------------------- *)
(** ** The two transformations *)

Module TransformMore.
Import Js JsFacts Json Plugin TransformFacts.

Definition with_templateSource (st : State) (t : jsstring) : State :=
  {| manifestSource := manifestSource st; templateSource := t; disk := disk st |}.

(** Options whose only setting is a template transform. *)
Definition template_hook (hook : jsstring -> outcome value) : option PluginOptions :=
  Some {| ssr := VUndefined; manifestId := None; templateId := None;
          buildConfig := VUndefined; writeManifest := None;
          transformManifest := None; transformTemplate := Some hook;
          render := None |}.

(** [applyTemplateTransformation]: the hook is called once with the stored
    template; a string it resolves to becomes the stored template, anything
    else is ignored, and a rejection is passed on with the store as it
    was.  The manifest and the disk are never touched. *)
Theorem template_transform_sniffing
        (options : option PluginOptions) (hook : jsstring -> outcome value)
        (st : State) :
  opt_transformTemplate options = Some hook ->
  let called := [ETransformTemplate (templateSource st)] in
  (forall t, hook (templateSource st) = Ok (VString t) ->
     applyTemplateTransformation options st
     = (Ok tt, with_templateSource st t, called)) /\
  (forall v, hook (templateSource st) = Ok v -> typeof v <> TString ->
     applyTemplateTransformation options st = (Ok tt, st, called)) /\
  (forall e, hook (templateSource st) = Throw e ->
     applyTemplateTransformation options st = (Throw e, st, called)).
Proof.
  intros Hopt called. unfold applyTemplateTransformation. rewrite Hopt.
  unfold bind, get, emit, call, ret, set_templateSource.
  repeat split.
  - intros t ->. reflexivity.
  - intros v -> Hty. destruct v; try reflexivity. now contradiction Hty.
  - intros e ->. reflexivity.
Qed.

Lemma template_transform_sniffing_witness :
  applyTemplateTransformation
    (template_hook (fun t => Ok (VString (t ++ lit "<!-- x -->"))))
    (with_templateSource (initial (Fs.Dir [])) (lit "<p>"))
  = (Ok tt, with_templateSource (initial (Fs.Dir [])) (lit "<p><!-- x -->"),
     [ETransformTemplate (lit "<p>")]) /\
  applyTemplateTransformation
    (template_hook (fun _ => Ok (VObject [])))
    (with_templateSource (initial (Fs.Dir [])) (lit "<p>"))
  = (Ok tt, with_templateSource (initial (Fs.Dir [])) (lit "<p>"),
     [ETransformTemplate (lit "<p>")]).
Proof.
  split.
  - exact (proj1
      (template_transform_sniffing
         (template_hook (fun t => Ok (VString (t ++ lit "<!-- x -->"))))
         (hook := fun t => Ok (VString (t ++ lit "<!-- x -->")))
         (with_templateSource (initial (Fs.Dir [])) (lit "<p>")) eq_refl)
      (lit "<p><!-- x -->") eq_refl).
  - refine (proj1 (proj2
      (template_transform_sniffing
         (template_hook (fun _ => Ok (VObject [])))
         (hook := fun _ => Ok (VObject []))
         (with_templateSource (initial (Fs.Dir [])) (lit "<p>")) eq_refl))
      (VObject []) eq_refl _).
    simpl. discriminate.
Defined.

(** Whatever the manifest hook does, [applyManifestTransformation] keeps a
    stored manifest that is an object an object, and leaves the stored
    template and the disk alone. *)
Theorem manifest_transform_keeps_an_object
        (options : option PluginOptions) (st : State) :
  is_object (manifestSource st) = true ->
  is_object (manifestSource (snd (fst (applyManifestTransformation options st)))) = true /\
  templateSource (snd (fst (applyManifestTransformation options st))) = templateSource st /\
  disk (snd (fst (applyManifestTransformation options st))) = disk st.
Proof.
  intros Hobj. unfold applyManifestTransformation.
  unfold bind, get, emit, call, ret, set_manifestSource.
  destruct (opt_transformManifest options) as [hook|]; simpl; [|auto].
  destruct (hook (manifestSource st)) as [r|e]; simpl; [|auto].
  destruct r as [| |b|n|text|items|props|name]; simpl; auto.
  - destruct b; simpl; auto.
  - destruct (mantissa_is_zero n); simpl; auto.
  - destruct (parse text) as [v|e]; simpl; [|auto].
    rewrite sniff_object. destruct (is_object v) eqn:Ev; simpl; auto.
Qed.

Lemma manifest_transform_keeps_an_object_witness :
  is_object (manifestSource (initial (Fs.Dir []))) = true /\
  is_object (manifestSource (snd (fst (applyManifestTransformation
     (manifest_hook (fun _ => Ok (VString (lit "42")))) (initial (Fs.Dir [])))))) = true.
Proof.
  split; [reflexivity|].
  exact (proj1 (manifest_transform_keeps_an_object
                  (manifest_hook (fun _ => Ok (VString (lit "42"))))
                  (initial (Fs.Dir [])) eq_refl)).
Defined.

End TransformMore.

(* ----------------------------------------------------------------- *)
(** ** More on the dev-server middleware *)

Module MiddlewareMore.
Import Js JsFacts Json Plugin TransformFacts MiddlewareFacts.

Definition is_next (e : event) : bool :=
  match e with ENext _ => true | _ => false end.

Definition is_disk_write (e : event) : bool :=
  match e with EUnlinkSync _ | EWriteFileSync _ _ | EBuild _ => true | _ => false end.

(** The file name that line 251 computes for a path. *)
Definition filename_of (server : ViteDevServer) (u : jsstring) : outcome jsstring :=
  decodeURIComponent server (path_join server (root (config server)) (slice1 u)).

(** A call of [next] or of [send]. *)
Definition is_answer (e : event) : bool := is_next e || is_send e.

(** Every request is answered.  Either the middleware completes having
    called exactly one of [next] and [send], once.  Or vite's [send], which
    is called inside the [try] block, has thrown: then its error is handed
    to [next], so that both are called, [send] first.  Or
    [decodeURIComponent], which is called outside the [try] block, has
    thrown on the file name: then the returned promise rejects with that
    error after neither [next] nor [send] nor anything else was called,
    the state being as before. *)
Theorem middleware_answers_every_request
        (options : option PluginOptions) (server : ViteDevServer)
        (req : Request) (res : Response) (st : State) :
  (result_of (middleware options server req res st) = Ok tt /\
   (calls is_next (trace_of (middleware options server req res st)) +
    calls is_send (trace_of (middleware options server req res st)) = 1)%nat) \/
  (exists body e,
      send server req res body = Throw e /\
      result_of (middleware options server req res st) = Ok tt /\
      filter is_answer (trace_of (middleware options server req res st))
      = [ESend body (lit "html") (server_headers (config server));
         ENext (Some e)]) \/
  (exists e u,
      request_path req = Some u /\
      filename_of server u = Throw e /\
      middleware options server req res st = (Throw e, st, [])).
Proof.
  unfold filename_of. run.
  repeat (branch; cbn in * );
    repeat match goal with u : unit |- _ => destruct u end;
    first [ left; split; reflexivity
          | right; left; do 2 eexists; split; [eassumption | split; reflexivity]
          | right; right; do 2 eexists; repeat split; eassumption ].
Qed.

(** A [send] that throws on the sample project: the page is sent, and then
    the error is passed on. *)
Definition SendError : value :=
  VObject [(lit "code", VString (lit "ERR_HTTP_HEADERS_SENT"))].

Definition closing_server : ViteDevServer :=
  {| config := config sample_server;
     transformIndexHtml := transformIndexHtml sample_server;
     ssrLoadModule := ssrLoadModule sample_server;
     send := fun _ _ _ => Throw SendError;
     path_join := path_join sample_server;
     decodeURIComponent := decodeURIComponent sample_server |}.

Example send_and_next :
  filter is_answer
    (trace_of (middleware default_options closing_server
                 (get_request "/index.html" []) open_response (initial sample_disk)))
  = [ESend (lit "<div id='app'></div>") (lit "html") VUndefined;
     ENext (Some SendError)].
Proof. vm_compute. reflexivity. Qed.

(** A malformed escape in the path: the promise rejects and the request is
    never passed on. *)
Theorem middleware_rejects_on_bad_escape
        (options : option PluginOptions) (server : ViteDevServer)
        (req : Request) (res : Response) (st : State)
        (m0 : char16) (ms u : jsstring) (e : value) :
  writableEnded res = false ->
  ssr_entry options server = Some (m0 :: ms) ->
  request_path req = Some u ->
  endsWith u (lit ".html") = true ->
  is_not_string (header req (lit "sec-fetch-dest")) (lit "script") = true ->
  filename_of server u = Throw e ->
  middleware options server req res st = (Throw e, st, []).
Proof.
  unfold filename_of. intros Hw Hs Hp He Hh Hd.
  unfold middleware. rewrite Hw, Hs, Hp, He, Hh. cbn [andb].
  unfold bind, call. rewrite Hd. reflexivity.
Qed.

(** A document that is not on the disk: after the one [existsSync] the
    request is passed on; nothing is read, no hook or module is called and
    the state is as before. *)
Theorem missing_document_passes_through
        (options : option PluginOptions) (server : ViteDevServer)
        (req : Request) (res : Response) (st : State)
        (m0 : char16) (ms u filename : jsstring) :
  writableEnded res = false ->
  ssr_entry options server = Some (m0 :: ms) ->
  request_path req = Some u ->
  endsWith u (lit ".html") = true ->
  is_not_string (header req (lit "sec-fetch-dest")) (lit "script") = true ->
  filename_of server u = Ok filename ->
  Fs.existsSync (disk st) filename = false ->
  middleware options server req res st
  = (Ok tt, st, [EExistsSync filename; ENext None]).
Proof.
  unfold filename_of. intros Hw Hs Hp He Hh Hd Hx.
  unfold middleware. rewrite Hw, Hs, Hp, He, Hh. cbn [andb].
  unfold bind, call, emit, get, next. rewrite Hd. cbn. rewrite Hx. reflexivity.
Qed.

(** Without an SSR entry (neither [options.ssr] nor [build.ssr] is truthy)
    every request is passed on untouched. *)
Theorem no_entry_passes_through
        (options : option PluginOptions) (server : ViteDevServer)
        (req : Request) (res : Response) (st : State) :
  truthy (opt_ssr options) = false ->
  truthy (build_ssr (config server)) = false ->
  middleware options server req res st = (Ok tt, st, [ENext None]).
Proof.
  intros Ho Hb. unfold middleware, ssr_entry, or_else, next, emit. rewrite Ho.
  destruct (writableEnded res); [reflexivity|].
  destruct (build_ssr (config server)) as [| |[|]|n|[|c r]|items|props|name];
    try discriminate Hb; reflexivity.
Qed.

(** An error thrown by the render hook, or by loading the entry module, is
    handed to [next]; nothing is sent, and the stored template is the
    transformed template of this request. *)
Theorem render_errors_are_forwarded
        (options : option PluginOptions) (server : ViteDevServer)
        (req : Request) (res : Response) (st : State) :
  (forall hook ctx e,
      opt_render options = Some hook ->
      In (ERenderHook ctx) (trace_of (middleware options server req res st)) ->
      hook ctx = Throw e ->
      result_of (middleware options server req res st) = Ok tt /\
      filter is_next (trace_of (middleware options server req res st))
      = [ENext (Some e)] /\
      filter is_send (trace_of (middleware options server req res st)) = [] /\
      templateSource (state_of (middleware options server req res st))
      = ctx_template ctx) /\
  (forall id e,
      In (ESsrLoadModule id) (trace_of (middleware options server req res st)) ->
      ssrLoadModule server id = Throw e ->
      result_of (middleware options server req res st) = Ok tt /\
      filter is_next (trace_of (middleware options server req res st))
      = [ENext (Some e)] /\
      filter is_send (trace_of (middleware options server req res st)) = [] /\
      filter is_render_call (trace_of (middleware options server req res st)) = []).
Proof.
  split.
  - intros hook ctx e Hopt Hin He. run. rewrite Hopt in *.
    repeat (branch; cbn in *; try contradiction);
      in_trace; cbn in *; same_call He; repeat split; reflexivity.
  - intros id e Hin He. run.
    repeat (branch; cbn in *; try contradiction);
      in_trace; cbn in *; same_call He; repeat split; reflexivity.
Qed.

(** The middleware only reads the disk. *)
Definition keeps_disk {A} (m : M A) : Prop :=
  forall st, disk (snd (fst (m st))) = disk st /\
             filter is_disk_write (snd (m st)) = [].

Lemma keeps_disk_bind {A B} (m : M A) (k : A -> M B) :
  keeps_disk m -> (forall a, keeps_disk (k a)) -> keeps_disk (bind m k).
Proof.
  intros Hm Hk st. unfold bind. specialize (Hm st).
  destruct (m st) as [[[a|e] st1] t1]; simpl in *; [|exact Hm].
  specialize (Hk a st1).
  destruct (k a st1) as [[r st2] t2]; simpl in *.
  destruct Hm as [Hm1 Hm2]. destruct Hk as [Hk1 Hk2].
  split; [congruence|]. now rewrite filter_app, Hm2, Hk2.
Qed.

Lemma keeps_disk_try_catch {A} (m : M A) (h : value -> M A) :
  keeps_disk m -> (forall e, keeps_disk (h e)) -> keeps_disk (try_catch m h).
Proof.
  intros Hm Hh st. unfold try_catch. specialize (Hm st).
  destruct (m st) as [[[a|e] st1] t1]; simpl in *; [exact Hm|].
  specialize (Hh e st1).
  destruct (h e st1) as [[r st2] t2]; simpl in *.
  destruct Hm as [Hm1 Hm2]. destruct Hh as [Hh1 Hh2].
  split; [congruence|]. now rewrite filter_app, Hm2, Hh2.
Qed.

Ltac keeps_disk :=
  repeat first
    [ progress intros
    | apply keeps_disk_bind
    | apply keeps_disk_try_catch
    | solve [intros ?; split; reflexivity]
    | match goal with
      | |- keeps_disk (match ?x with _ => _ end) => destruct x
      | |- keeps_disk (if ?x then _ else _) => destruct x
      end ].

(** The middleware leaves the disk as it finds it, and calls neither
    [unlinkSync] nor [writeFileSync], whatever the request, the hooks and
    the server do. *)
Theorem middleware_only_reads_the_disk
        (options : option PluginOptions) (server : ViteDevServer)
        (req : Request) (res : Response) (st : State) :
  disk (state_of (middleware options server req res st)) = disk st /\
  calls is_disk_write (trace_of (middleware options server req res st)) = 0%nat.
Proof.
  assert (H : keeps_disk (middleware options server req res)).
  { unfold middleware, applyTemplateTransformation, next. keeps_disk. }
  destruct (H st) as [H1 H2]. unfold state_of, trace_of, calls.
  now rewrite H1, H2.
Qed.

(** The path on which the middleware decides: it contains neither [?] nor
    [#], and the request's url is that path, followed by nothing or by a
    query or fragment. *)
Theorem request_path_is_the_url_before_query_and_fragment
        (req : Request) (u : jsstring) :
  request_path req = Some u ->
  ~ In 63%N u /\ ~ In 35%N u /\
  exists rest,
    url req = Some (u ++ rest) /\
    (rest = [] \/ exists c r, rest = c :: r /\ (c = 63%N \/ c = 35%N)).
Proof.
  unfold request_path. destruct (url req) as [[|c r]|]; intros [= <-].
  - repeat split; auto. exists []. auto.
  - set (w := c :: r).
    destruct (strip_from_prefix 35%N w) as (r1 & E1 & H1).
    destruct (strip_from_prefix 63%N (strip_from 35%N w)) as (r2 & E2 & H2).
    repeat split.
    + apply strip_from_no_char.
    + intros Hin. apply (strip_from_no_char 35%N w).
      rewrite E2. apply in_or_app. now left.
    + exists (r2 ++ r1). split.
      * f_equal. change (w = strip_from 63%N (strip_from 35%N w) ++ r2 ++ r1).
        rewrite app_assoc, <- E2. exact E1.
      * destruct H2 as [->|(r2' & ->)]; simpl.
        -- destruct H1 as [->|(r1' & ->)]; eauto 6.
        -- right. eauto.
Qed.

End MiddlewareMore.

(* ----------------------------------------------------------------- *)
(** ** Sample requests for the middleware *)

Module MiddlewareSamples.
Import Js JsFacts Json Plugin TransformFacts MiddlewareFacts MiddlewareMore.

Definition URIError : value :=
  VObject [(lit "name", VString (lit "URIError"))].

(** A decoder that agrees with [decodeURIComponent] on texts whose escapes
    all denote characters below [%80]; a percent sign that is not followed
    by two hexadecimal digits is a [URIError]. *)
Fixpoint decode_escapes (s : jsstring) : outcome jsstring :=
  match s with
  | [] => Ok []
  | c :: r =>
      if N.eqb c 37 then
        match r with
        | a :: r1 =>
            match r1 with
            | b :: r2 =>
                match hex_value a, hex_value b with
                | Some x, Some y =>
                    if N.ltb (16 * x + y) 128 then
                      match decode_escapes r2 with
                      | Ok t => Ok ((16 * x + y)%N :: t)
                      | Throw e => Throw e
                      end
                    else Throw URIError
                | _, _ => Throw URIError
                end
            | [] => Throw URIError
            end
        | [] => Throw URIError
        end
      else
        match decode_escapes r with
        | Ok t => Ok (c :: t)
        | Throw e => Throw e
        end
  end.

Definition decoding_server : ViteDevServer :=
  {| config := config sample_server;
     transformIndexHtml := transformIndexHtml sample_server;
     ssrLoadModule := ssrLoadModule sample_server;
     send := send sample_server;
     path_join := path_join sample_server;
     decodeURIComponent := decode_escapes |}.

(** A server whose entry module cannot be loaded. *)
Definition LoadError : value :=
  VObject [(lit "message", VString (lit "Cannot find module"))].

Definition broken_server : ViteDevServer :=
  {| config := config sample_server;
     transformIndexHtml := transformIndexHtml sample_server;
     ssrLoadModule := fun _ => Throw LoadError;
     send := send sample_server;
     path_join := path_join sample_server;
     decodeURIComponent := decodeURIComponent sample_server |}.

(** Options whose render hook fails. *)
Definition RenderError : value :=
  VObject [(lit "message", VString (lit "render failed"))].

Definition failing_render : option PluginOptions :=
  Some {| ssr := VString (lit "/entry.js");
          manifestId := None; templateId := None;
          buildConfig := VUndefined; writeManifest := None;
          transformManifest := None; transformTemplate := None;
          render := Some (reading (fun _ => Throw RenderError)) |}.

Lemma middleware_rejects_on_bad_escape_witness :
  filename_of decoding_server (lit "/100%.html") = Throw URIError /\
  middleware sample_options decoding_server (get_request "/100%.html" [])
             open_response (initial sample_disk)
  = (Throw URIError, initial sample_disk, []).
Proof.
  split; [reflexivity|].
  exact (@middleware_rejects_on_bad_escape sample_options decoding_server
           (get_request "/100%.html" []) open_response (initial sample_disk)
           47%N (lit "entry.js") (lit "/100%.html") URIError
           eq_refl eq_refl eq_refl eq_refl eq_refl eq_refl).
Defined.

Lemma missing_document_passes_through_witness :
  Fs.existsSync sample_disk (lit "/srv/about.html") = false /\
  middleware sample_options sample_server (get_request "/about.html?x=1" [])
             open_response (initial sample_disk)
  = (Ok tt, initial sample_disk, [EExistsSync (lit "/srv/about.html"); ENext None]).
Proof.
  split; [reflexivity|].
  exact (@missing_document_passes_through sample_options sample_server
           (get_request "/about.html?x=1" []) open_response (initial sample_disk)
           47%N (lit "entry.js") (lit "/about.html") (lit "/srv/about.html")
           eq_refl eq_refl eq_refl eq_refl eq_refl eq_refl eq_refl).
Defined.

Lemma no_entry_passes_through_witness :
  truthy (opt_ssr None) = false /\
  middleware None sample_server (get_request "/index.html" [])
             open_response (initial sample_disk)
  = (Ok tt, initial sample_disk, [ENext None]).
Proof.
  split; [reflexivity|].
  exact (no_entry_passes_through None sample_server (get_request "/index.html" [])
           open_response (initial sample_disk) eq_refl eq_refl).
Defined.

Definition failing_context : RenderContext :=
  {| ctx_ssr := sample_module;
     ctx_req := get_request "/index.html" [];
     ctx_res := open_response;
     ctx_template := lit "<div id='app'></div>";
     ctx_manifest := VObject [] |}.

Lemma render_errors_are_forwarded_witness :
  filter is_next
    (trace_of (middleware failing_render sample_server
                 (get_request "/index.html" []) open_response (initial sample_disk)))
  = [ENext (Some RenderError)] /\
  filter is_next
    (trace_of (middleware default_options broken_server
                 (get_request "/index.html" []) open_response (initial sample_disk)))
  = [ENext (Some LoadError)].
Proof.
  split.
  - refine (proj1 (proj2 (proj1
      (render_errors_are_forwarded failing_render sample_server
         (get_request "/index.html" []) open_response (initial sample_disk))
      (reading (fun _ => Throw RenderError)) failing_context RenderError eq_refl _ eq_refl))).
    vm_compute. do 4 right. left. reflexivity.
  - refine (proj1 (proj2 (proj2
      (render_errors_are_forwarded default_options broken_server
         (get_request "/index.html" []) open_response (initial sample_disk))
      (lit "/entry.js") LoadError _ eq_refl))).
    vm_compute. do 3 right. left. reflexivity.
Defined.

Lemma request_path_is_the_url_before_query_and_fragment_witness :
  request_path (get_request "/a/index.html?x=1#top?y" []) = Some (lit "/a/index.html") /\
  ~ In 63%N (lit "/a/index.html").
Proof.
  split; [reflexivity|].
  exact (proj1 (request_path_is_the_url_before_query_and_fragment
                  (get_request "/a/index.html?x=1#top?y" [])
                  (u := lit "/a/index.html") eq_refl)).
Defined.

End MiddlewareSamples.

(* ----------------------------------------------------------------- *)
(** ** More on [emptyDir] and [prepareOutDir] *)

Module FsMore.
Import Js JsFacts Fs FsFacts.

(** [emptyDir(dir, skip)] on a well-formed directory, with one unit of fuel
    per level: it completes, the directory then holds exactly its former
    entries whose names are in [skip] (all of it is gone without [skip]),
    with their contents, and the rest of the file system is as before. *)
Theorem emptyDir_leaves_the_skipped_entries
        (fuel : nat) (dir : jsstring) (skip : option (list jsstring))
        (fs : node) (es : list (jsstring * node)) :
  lookup fs (components dir) = Some (Dir es) ->
  wfb (Dir es) = true ->
  (height (Dir es) <= fuel)%nat ->
  emptyDir fuel dir skip fs
  = Some (Ok tt,
          set_at fs (components dir)
            (Dir (filter (fun kn => skip_includes skip (fst kn)) es))) /\
  (skip = None ->
   emptyDir fuel dir skip fs = Some (Ok tt, set_at fs (components dir) (Dir []))).
Proof.
  intros Hdir Hwf Hh. apply wfb_sound in Hwf.
  pose proof (@emptyDir_spec fuel dir skip fs es Hwf Hdir Hh) as H.
  split; [exact H|].
  intros ->. rewrite H. unfold kept_by_skip. simpl. now rewrite filter_none.
Qed.

Lemma emptyDir_leaves_the_skipped_entries_witness :
  emptyDir 2 (lit "/proj/dist/assets") None project
  = Some (Ok tt, set_at project [lit "proj"; lit "dist"; lit "assets"] (Dir [])) /\
  emptyDir 3 (lit "/proj/dist") (Some [lit "index.html"; lit "assets"]) project
  = Some (Ok tt,
          set_at project [lit "proj"; lit "dist"]
            (Dir [(lit "assets",
                   Dir [(lit ".git", Dir []);
                        (lit "main.js", File (lit "console.log(1)"))]);
                  (lit "index.html", File (lit "<html></html>"))])).
Proof.
  assert (H2 : (2 <= 2)%nat) by lia.
  assert (H3 : (3 <= 3)%nat) by lia.
  split.
  - exact (proj2 (emptyDir_leaves_the_skipped_entries (fuel := 2)
                    (lit "/proj/dist/assets") None project
                    (es := [(lit ".git", Dir []);
                            (lit "main.js", File (lit "console.log(1)"))])
                    eq_refl eq_refl H2) eq_refl).
  - exact (proj1 (emptyDir_leaves_the_skipped_entries (fuel := 3)
                    (lit "/proj/dist") (Some [lit "index.html"; lit "assets"])
                    project (es := dist_entries) eq_refl eq_refl H3)).
Defined.

Section PrepareOutDirMore.

Variable normalizePath : jsstring -> jsstring.

(** An output directory that does not exist: nothing happens and nothing
    is logged, whatever the preference and wherever the path lies.  A path
    that exists but is not a directory: where a directory would be emptied,
    [readdirSync] throws and the file system is as before. *)
Theorem prepareOutDir_without_a_directory
        (fuel : nat) (outDir : jsstring) (emptyOutDir : option bool)
        (root : jsstring) (fs : node) :
  (existsSync fs outDir = false ->
     prepareOutDir normalizePath fuel outDir emptyOutDir root fs
     = Some (Ok tt, fs, [])) /\
  (forall d, lookup fs (components outDir) = Some (File d) ->
     emptyOutDir = Some true \/
     (emptyOutDir = None /\ outside_root normalizePath outDir root = false) ->
     prepareOutDir normalizePath (S fuel) outDir emptyOutDir root fs
     = Some (Throw (fs_error "ENOTDIR"), fs, [])).
Proof.
  split.
  - intros H. unfold prepareOutDir. now rewrite H.
  - intros d Hd Hp. unfold prepareOutDir, existsSync. rewrite Hd.
    cbn [emptyDir]. unfold readdirSync. rewrite Hd.
    destruct Hp as [-> | [-> ->]]; reflexivity.
Qed.

End PrepareOutDirMore.

Lemma prepareOutDir_without_a_directory_witness :
  prepareOutDir (fun p => p) 0 (lit "/proj/build") None (lit "/elsewhere") project
  = Some (Ok tt, project, []) /\
  prepareOutDir (fun p => p) 1 (lit "/proj/dist/index.html") (Some true)
    (lit "/proj") project
  = Some (Throw (fs_error "ENOTDIR"), project, []).
Proof.
  split.
  - exact (proj1 (prepareOutDir_without_a_directory (fun p => p) 0
                    (lit "/proj/build") None (lit "/elsewhere") project) eq_refl).
  - exact (proj2 (prepareOutDir_without_a_directory (fun p => p) 0
                    (lit "/proj/dist/index.html") (Some true) (lit "/proj") project)
                 (lit "<html></html>") eq_refl (or_introl eq_refl)).
Defined.


(** *** What emptying does to the other paths *)

Lemma find_entry_set_entry_other (es : list (jsstring * node)) (x y : jsstring)
      (n : node) :
  x <> y -> find_entry (set_entry es x n) y = find_entry es y.
Proof.
  intros Hxy. induction es as [|[k m] es IH]; simpl; [reflexivity|].
  destruct (str_eqb k x) eqn:Ex; simpl.
  - apply str_eqb_eq in Ex. subst k.
    destruct (str_eqb x y) eqn:Ey; [|reflexivity].
    apply str_eqb_eq in Ey. contradiction.
  - destruct (str_eqb k y); [reflexivity|exact IH].
Qed.

(** Replacing the node at [c ++ x :: p] does not change what is found at
    [c ++ y :: q] for another name [y]. *)
Lemma lookup_set_at_diverging (c : path) :
  forall (fs : node) (x y : jsstring) (p q : path) (n : node),
    x <> y ->
    lookup (set_at fs (c ++ x :: p) n) (c ++ y :: q) = lookup fs (c ++ y :: q).
Proof.
  induction c as [|z c IH]; intros fs x y p q n Hxy.
  - cbn [app set_at lookup]. destruct fs as [d|es]; [reflexivity|].
    destruct (find_entry es x) as [ch|]; [|reflexivity].
    now rewrite find_entry_set_entry_other.
  - cbn [app set_at lookup]. destruct fs as [d|es]; [reflexivity|].
    destruct (find_entry es z) as [ch|] eqn:Ez; [|now rewrite Ez].
    erewrite find_entry_set_entry by exact Ez.
    now apply IH.
Qed.

Lemma find_entry_filter_git_other (es : list (jsstring * node)) (x : jsstring) :
  x <> lit ".git" -> find_entry (filter is_git es) x = None.
Proof.
  intros Hx. induction es as [|[k n] es IH]; simpl; [reflexivity|].
  unfold is_git at 1. simpl.
  destruct (str_eqb k (lit ".git")) eqn:E; [|exact IH].
  simpl. apply str_eqb_eq in E. subst k.
  destruct (str_eqb (lit ".git") x) eqn:Ex; [|exact IH].
  apply str_eqb_eq in Ex. congruence.
Qed.

Section Emptied.

Variable normalizePath : jsstring -> jsstring.

(** When [prepareOutDir] empties the output directory: the directory is
    still there; nothing exists any more below it except under its own
    [.git] entry (a [.git] further down is deleted with its parent), whose
    contents are as before; and every path that leaves the way to the
    output directory at some component finds what it found before. *)
Theorem prepareOutDir_touches_only_the_directory
        (fuel : nat) (outDir : jsstring) (emptyOutDir : option bool)
        (root : jsstring) (fs : node) (es : list (jsstring * node)) :
  lookup fs (components outDir) = Some (Dir es) ->
  wfb (Dir es) = true ->
  (height (Dir es) <= fuel)%nat ->
  emptyOutDir = Some true \/
  (emptyOutDir = None /\ outside_root normalizePath outDir root = false) ->
  exists fs',
    prepareOutDir normalizePath fuel outDir emptyOutDir root fs
    = Some (Ok tt, fs', []) /\
    existsSync fs' outDir = true /\
    (forall x q, x <> lit ".git" ->
       lookup fs' (components outDir ++ x :: q) = None) /\
    (forall q,
       lookup fs' (components outDir ++ lit ".git" :: q)
       = lookup fs (components outDir ++ lit ".git" :: q)) /\
    (forall c x y p q,
       components outDir = c ++ x :: p -> x <> y ->
       lookup fs' (c ++ y :: q) = lookup fs (c ++ y :: q)).
Proof.
  intros Hdir Hwf Hh Hp.
  exists (set_at fs (components outDir) (Dir (filter is_git es))).
  split; [|split; [|split; [|split]]].
  - apply wfb_sound in Hwf.
    unfold prepareOutDir, existsSync. rewrite Hdir.
    rewrite (@emptyDir_spec fuel outDir (Some [lit ".git"]) fs es Hwf Hdir Hh), kept_by_skip_git.
    destruct Hp as [-> | [-> ->]]; reflexivity.
  - unfold existsSync. erewrite lookup_set_at by exact Hdir. reflexivity.
  - intros x q Hx.
    rewrite lookup_app with (n := Dir (filter is_git es))
      by (eapply lookup_set_at; exact Hdir).
    cbn [lookup]. now rewrite find_entry_filter_git_other.
  - intros q. now apply spared_contents.
  - intros c x y p q Hc Hxy. rewrite Hc. now apply lookup_set_at_diverging.
Qed.

End Emptied.

Lemma prepareOutDir_touches_only_the_directory_witness :
  exists fs',
    prepareOutDir (fun p => p) 3 (lit "/proj/dist") None (lit "/proj") project
    = Some (Ok tt, fs', []) /\
    lookup fs' [lit "proj"; lit "dist"; lit "assets"; lit ".git"] = None /\
    lookup fs' [lit "proj"; lit "dist"; lit ".git"; lit "HEAD"]
    = Some (File (lit "ref: refs/heads/main")) /\
    lookup fs' [lit "proj"; lit "src"; lit "main.ts"] = Some (File (lit "export {}")).
Proof.
  assert (H3 : (3 <= 3)%nat) by lia.
  destruct (@prepareOutDir_touches_only_the_directory (fun p => p) 3
              (lit "/proj/dist") None (lit "/proj") project dist_entries
              eq_refl eq_refl H3 (or_intror (conj eq_refl eq_refl)))
    as (fs' & Hrun & _ & Hgone & Hgit & Hother).
  exists fs'. split; [exact Hrun|]. split; [|split].
  - apply (Hgone (lit "assets") [lit ".git"]). intros H. vm_compute in H. discriminate H.
  - exact (eq_trans (Hgit [lit "HEAD"]) eq_refl).
  - assert (Hne : lit "dist" <> lit "src").
    { intros H. vm_compute in H. discriminate H. }
    exact (eq_trans
             (Hother [lit "proj"] (lit "dist") (lit "src") [] [lit "main.ts"]
                     eq_refl Hne) eq_refl).
Defined.

End FsMore.

(* ----------------------------------------------------------------- *)
(** ** More on [buildStart] *)

Module HarvestMore.
Import Js JsFacts Json Plugin TransformFacts MiddlewareFacts HarvestFacts.

#[local] Opaque stringify_pretty parse Fs.existsSync Fs.readFileSync
  Fs.unlinkSync Fs.writeFileSync endsWith.

Definition is_write (e : event) : bool :=
  match e with EWriteFileSync _ _ => true | _ => false end.

Definition with_disk (st : State) (d : Fs.node) : State :=
  {| manifestSource := manifestSource st; templateSource := templateSource st;
     disk := d |}.

Lemma calls_warnings (p : event -> bool) (ws : list jsstring) :
  (forall w, p (EWarn w) = false) -> calls p (map EWarn ws) = 0%nat.
Proof.
  intros H. unfold calls. induction ws as [|w ws IH]; simpl; [reflexivity|].
  now rewrite H.
Qed.

(** One run of [buildStart], whatever it meets, calls the manifest
    transform at most once and the template transform at most once. *)
Theorem buildStart_transforms_at_most_once
        (fuel : nat) (options : option PluginOptions) (host : BuildHost)
        (bs : BuildState) (st : State)
        (out : outcome unit * State * list event) :
  buildStart fuel options host bs st = Some out ->
  (calls is_manifest_transform (trace_of out) <= 1)%nat /\
  (calls is_template_transform (trace_of out) <= 1)%nat.
Proof.
  unfold buildStart, buildStart_prepare.
  destruct (generateSSRBuild bs); cbn [negb];
    [|intros [= <-]; unfold calls, trace_of; simpl; lia].
  set (prepared := if rc_build_write (resolvedConfig bs) then _ else _).
  destruct prepared as [[[r d] ws]|]; [|discriminate].
  pose proof (harvest_transforms_at_most_once options host (resolvedConfig bs)
                {| manifestSource := manifestSource st;
                   templateSource := templateSource st; disk := d |}) as [Hm Ht].
  destruct r as [[]|e].
  - destruct (buildStart_client _ _ _ _) as [[r2 st2] t2].
    intros [= <-]. unfold trace_of in *. cbn [snd] in *.
    change (?a :: map EWarn ws ++ t2) with ((a :: map EWarn ws) ++ t2).
    rewrite !calls_app.
    assert (Hm0 : forall a, is_manifest_transform a = false ->
                  calls is_manifest_transform (a :: map EWarn ws) = 0%nat).
    { intros a Ha. unfold calls. simpl. rewrite Ha.
      now apply (calls_warnings is_manifest_transform). }
    assert (Ht0 : forall a, is_template_transform a = false ->
                  calls is_template_transform (a :: map EWarn ws) = 0%nat).
    { intros a Ha. unfold calls. simpl. rewrite Ha.
      now apply (calls_warnings is_template_transform). }
    rewrite Hm0, Ht0 by reflexivity. clear - Hm Ht. lia.
  - intros [= <-]. unfold trace_of. cbn [snd].
    unfold calls at 1 2. simpl.
    fold (calls is_manifest_transform (map EWarn ws)).
    fold (calls is_template_transform (map EWarn ws)).
    rewrite (calls_warnings is_manifest_transform), (calls_warnings is_template_transform)
      by reflexivity. lia.
Qed.

(** A harvest that completes and finds the manifest file left by the
    client build calls a configured manifest transform exactly once. *)
Theorem harvest_calls_the_manifest_transform_once
        (options : option PluginOptions) (host : BuildHost)
        (rc : ResolvedConfig) (st : State)
        (hook : value -> outcome value) (built : Fs.node) :
  opt_transformManifest options = Some hook ->
  build host (rc_configFile rc) (client_outDir host rc) (disk st) = (Ok tt, built) ->
  nonempty (manifest_file host rc) = true ->
  Fs.existsSync built (manifest_file host rc) = true ->
  result_of (buildStart_client options host rc st) = Ok tt ->
  calls is_manifest_transform (trace_of (buildStart_client options host rc st)) = 1%nat.
Proof.
  intros Hopt Hbuild Hne Hex Hok.
  apply (harvest_transforms_manifest_once options host rc st Hopt Hbuild); [|exact Hok].
  now rewrite Hne, Hex.
Qed.

(** A client build that throws, after the output directory has been
    prepared: [buildStart] rejects with the error of the build right after
    the call.  The harvest does not take place: the plugin reads, deletes
    and writes no file after the build and calls no transform, and the
    stored manifest and template are as before.  The disk is the one the
    failed build has left of the prepared disk. *)
Theorem failed_client_build_aborts
        (fuel : nat) (options : option PluginOptions) (host : BuildHost)
        (bs : BuildState) (st : State)
        (prepared left : Fs.node) (warnings : list jsstring) (e : value) :
  generateSSRBuild bs = true ->
  buildStart_prepare fuel host bs st = Some (Ok tt, prepared, warnings) ->
  build host (rc_configFile (resolvedConfig bs))
        (client_outDir host (resolvedConfig bs)) prepared = (Throw e, left) ->
  buildStart fuel options host bs st
  = Some (Throw e, with_disk st left,
          EInfo (lit "SSR build") (lit "generating the SSR target...")
          :: map EWarn warnings ++ [EBuild (client_outDir host (resolvedConfig bs))]).
Proof.
  intros Hg Hp Hb. unfold buildStart. rewrite Hg, Hp. cbn [negb].
  rewrite (@buildStart_client_build_fails options host (resolvedConfig bs)
             {| manifestSource := manifestSource st;
                templateSource := templateSource st; disk := prepared |}
             e left Hb).
  reflexivity.
Qed.

(** Neither file is there after the client build: the harvest completes
    without touching the store, reading a file or calling a hook. *)
Theorem missing_artifacts_are_skipped
        (options : option PluginOptions) (host : BuildHost)
        (rc : ResolvedConfig) (st : State) (built : Fs.node) :
  build host (rc_configFile rc) (client_outDir host rc) (disk st) = (Ok tt, built) ->
  Fs.existsSync built (manifest_file host rc) = false ->
  (forall f, template_file host rc = Some f -> Fs.existsSync built f = false) ->
  buildStart_client options host rc st
  = (Ok tt, with_disk st built, [EBuild (client_outDir host rc)]).
Proof.
  intros Hbuild Hm Ht.
  rewrite (buildStart_client_after_build options host rc st Hbuild).
  unfold bind, harvest_manifest, harvest_template, get, ret. cbn.
  rewrite Hm, andb_false_r. cbn.
  destruct (template_file host rc) as [f|]; [|reflexivity].
  cbn. rewrite (Ht f eq_refl), andb_false_r. reflexivity.
Qed.

(** The manifest block never changes the stored template. *)
Lemma harvest_manifest_keeps_template
      (options : option PluginOptions) (host : BuildHost) (rc : ResolvedConfig)
      (file : jsstring) (st : State) :
  templateSource (state_of (harvest_manifest options host rc file st))
  = templateSource st.
Proof.
  run_build. repeat (branch; cbn in *; try reflexivity).
Qed.

(** An entry that is not a string ending in [.html] is not taken as a
    template: the stored template is as before and the template transform
    is not called. *)
Theorem other_entries_are_not_templates
        (options : option PluginOptions) (host : BuildHost)
        (rc : ResolvedConfig) (st : State) :
  (forall i,
      or_else (rc_build_rollupOptions_input rc) (VString (lit "index.html"))
      = VString i ->
      endsWith i (lit ".html") = false) ->
  templateSource (state_of (buildStart_client options host rc st)) = templateSource st /\
  calls is_template_transform (trace_of (buildStart_client options host rc st)) = 0%nat.
Proof.
  intros Hin.
  assert (Hnone : template_file host rc = None).
  { unfold template_file.
    destruct (or_else _ _) as [| |b|n|i|items|props|name]; try reflexivity.
    now rewrite (Hin i eq_refl). }
  destruct (build host (rc_configFile rc) (client_outDir host rc) (disk st))
    as [[[]|e] built] eqn:Hbuild.
  - rewrite (buildStart_client_after_build options host rc st Hbuild).
    rewrite Hnone.
    set (st1 := {| manifestSource := manifestSource st;
                   templateSource := templateSource st; disk := built |}).
    pose proof (harvest_manifest_keeps_template options host rc
                  (manifest_file host rc) st1) as Hk.
    pose proof (harvest_manifest_calls options host rc
                  (manifest_file host rc) st1) as [_ Hc].
    unfold bind, harvest_template, ret, state_of, trace_of, calls in *.
    destruct (harvest_manifest options host rc (manifest_file host rc) st1)
      as [[[[]|e] st2] t2]; cbn [fst snd filter is_template_transform] in *;
      rewrite ?app_nil_r; split; assumption.
  - rewrite (buildStart_client_build_fails options host rc st Hbuild).
    split; reflexivity.
Qed.

(** The manifest file is deleted before it is parsed: when its text is not
    JSON, the harvest stops with the parse error after the file is gone;
    the store is as before and the template is not harvested. *)
Theorem unparsable_manifest_is_already_deleted
        (options : option PluginOptions) (host : BuildHost)
        (rc : ResolvedConfig) (st : State)
        (built after : Fs.node) (text : jsstring) (e : value) :
  build host (rc_configFile rc) (client_outDir host rc) (disk st) = (Ok tt, built) ->
  nonempty (manifest_file host rc) = true ->
  Fs.existsSync built (manifest_file host rc) = true ->
  Fs.readFileSync built (manifest_file host rc) = Ok text ->
  Fs.unlinkSync built (manifest_file host rc) = Ok after ->
  parse text = Throw e ->
  buildStart_client options host rc st
  = (Throw e, with_disk st after,
     [EBuild (client_outDir host rc);
      EReadFileSync (manifest_file host rc);
      EUnlinkSync (manifest_file host rc)]).
Proof.
  intros Hbuild Hne Hex Hread Hun Hparse.
  rewrite (buildStart_client_after_build options host rc st Hbuild).
  unfold bind at 1. unfold harvest_manifest.
  unfold bind, get, emit, call, unlink, set_disk. cbn.
  rewrite Hne, Hex. cbn. rewrite Hread. cbn. rewrite Hun. cbn.
  rewrite Hparse. reflexivity.
Qed.

(** With [writeManifest: false] the harvest writes no file. *)
Lemma harvest_manifest_writes_nothing
      (options : option PluginOptions) (host : BuildHost) (rc : ResolvedConfig)
      (file : jsstring) (st : State) :
  opt_writeManifest options = Some false ->
  calls is_write (trace_of (harvest_manifest options host rc file st)) = 0%nat.
Proof.
  intros Hw. run_build. rewrite Hw.
  repeat (branch; cbn in *; try reflexivity).
Qed.

Lemma harvest_template_writes_nothing
      (options : option PluginOptions) (host : BuildHost) (rc : ResolvedConfig)
      (file : option jsstring) (st : State) :
  opt_writeManifest options = Some false ->
  calls is_write (trace_of (harvest_template options host rc file st)) = 0%nat.
Proof.
  intros Hw. run_build. rewrite Hw.
  repeat (branch; cbn in *; try reflexivity).
Qed.

(** With [writeManifest: false] a whole harvest, manifest and template,
    calls [writeFileSync] not once. *)
Theorem writeManifest_false_writes_nothing
        (options : option PluginOptions) (host : BuildHost)
        (rc : ResolvedConfig) (st : State) :
  opt_writeManifest options = Some false ->
  calls is_write (trace_of (buildStart_client options host rc st)) = 0%nat.
Proof.
  intros Hw.
  destruct (build host (rc_configFile rc) (client_outDir host rc) (disk st))
    as [[[]|e] built] eqn:Hbuild.
  - rewrite (buildStart_client_after_build options host rc st Hbuild).
    set (st1 := {| manifestSource := manifestSource st;
                   templateSource := templateSource st; disk := built |}).
    pose proof (calls_bind is_write
                  (harvest_manifest options host rc (manifest_file host rc))
                  (fun _ => harvest_template options host rc (template_file host rc))
                  st1) as Hb.
    rewrite (@harvest_manifest_writes_nothing options host rc (manifest_file host rc) st1 Hw) in Hb.
    destruct (result_of (harvest_manifest options host rc (manifest_file host rc) st1))
      as [[]|e].
    + cbv beta in Hb.
      rewrite (@harvest_template_writes_nothing options host rc (template_file host rc) _ Hw) in Hb.
      destruct (bind _ _ st1) as [[r st2] t].
      unfold trace_of, calls in *. cbn [snd filter is_write] in *. exact Hb.
    + destruct (bind _ _ st1) as [[r st2] t].
      unfold trace_of, calls in *. cbn [snd filter is_write] in *. exact Hb.
  - rewrite (buildStart_client_build_fails options host rc st Hbuild). reflexivity.
Qed.

End HarvestMore.

(* ----------------------------------------------------------------- *)
(** ** Sample builds *)

Module HarvestSamples.
Import Js JsFacts Json Plugin TransformFacts MiddlewareFacts HarvestFacts HarvestMore.

(** [path.resolve] and [path.basename] on POSIX paths without [.] and
    [..]: an absolute segment starts afresh, a relative one is appended. *)
Definition join_paths (segments : list jsstring) : jsstring :=
  fold_left
    (fun acc seg =>
       match seg with
       | c :: _ => if N.eqb c Fs.slash then seg else acc ++ Fs.slash :: seg
       | [] => acc
       end)
    segments [].

Definition last_component (p : jsstring) : jsstring := last (Fs.components p) [].

Definition manifest_text : jsstring :=
  lit "{" ++ JsonFacts.dq ++ lit "src/main.ts" ++ JsonFacts.dq ++ lit ":[" ++
  JsonFacts.dq ++ lit "/assets/main.css" ++ JsonFacts.dq ++ lit "]}".

(** A client build that writes a manifest with the text [manifest] and a
    document into its output directory. *)
Definition client_build (manifest : jsstring) (outDir : jsstring) (d : Fs.node) :
  outcome Fs.node :=
  match Fs.writeFileSync d (join_paths [outDir; lit "ssr-manifest.json"]) manifest with
  | Ok d1 =>
      Fs.writeFileSync d1 (join_paths [outDir; lit "index.html"])
        (lit "<div id='app'></div>")
  | Throw e => Throw e
  end.

(** A build that resolves with the disk it has written, or rejects on the
    disk as it was. *)
Definition settled (d : Fs.node) (r : outcome Fs.node) : outcome unit * Fs.node :=
  match r with
  | Ok d' => (Ok tt, d')
  | Throw e => (Throw e, d)
  end.

Definition host_writing (manifest : jsstring) : BuildHost :=
  {| path_resolve := join_paths; path_basename := last_component;
     normalizePath := fun p => p;
     build := fun _ outDir d => settled d (client_build manifest outDir d) |}.

Definition BuildError : value :=
  VObject [(lit "message", VString (lit "Build failed"))].

(** A client build that fails after it has written a first chunk. *)
Definition failing_host : BuildHost :=
  {| path_resolve := join_paths; path_basename := last_component;
     normalizePath := fun p => p;
     build := fun _ outDir d =>
       (Throw BuildError,
        match Fs.writeFileSync d (join_paths [outDir; lit "chunk.js"]) (lit "x") with
        | Ok d' => d'
        | Throw _ => d
        end) |}.

(** A client build that leaves nothing behind. *)
Definition idle_host : BuildHost :=
  {| path_resolve := join_paths; path_basename := last_component;
     normalizePath := fun p => p;
     build := fun _ _ d => (Ok tt, d) |}.

Definition sample_rc (input : value) : ResolvedConfig :=
  {| rc_root := lit "/proj"; rc_build_write := true; rc_build_outDir := lit "dist";
     rc_publicDir := []; rc_configFile := VUndefined;
     rc_build_rollupOptions_input := input |}.

Definition build_disk : Fs.node :=
  Fs.Dir [(lit "proj", Fs.Dir [(lit "dist", Fs.Dir [(lit "www", Fs.Dir [])])])].

Definition build_options (w : option bool) : option PluginOptions :=
  Some {| ssr := VUndefined; manifestId := None; templateId := None;
          buildConfig := VUndefined; writeManifest := w;
          transformManifest := Some (fun m => Ok m);
          transformTemplate := Some (fun t => Ok (VString t));
          render := None |}.

(** After a complete harvest: the store holds the manifest and the
    template, and both files have moved from [www] to [dist]. *)
Example a_complete_harvest :
  let out := buildStart_client (build_options None) (host_writing manifest_text)
               (sample_rc VUndefined) (initial build_disk) in
  result_of out = Ok tt /\
  manifestSource (state_of out)
  = VObject [(lit "src/main.ts", VArray [VString (lit "/assets/main.css")])] /\
  templateSource (state_of out) = lit "<div id='app'></div>" /\
  Fs.readdirSync (disk (state_of out)) (lit "/proj/dist/www") = Ok [] /\
  Fs.readdirSync (disk (state_of out)) (lit "/proj/dist")
  = Ok [lit "www"; lit "ssr-manifest.json"; lit "index.html"].
Proof. vm_compute. repeat split. Qed.

Lemma harvest_calls_the_manifest_transform_once_witness :
  client_outDir (host_writing manifest_text) (sample_rc VUndefined)
  = lit "/proj/dist/www" /\
  calls is_manifest_transform
    (trace_of (buildStart_client (build_options None) (host_writing manifest_text)
                 (sample_rc VUndefined) (initial build_disk))) = 1%nat.
Proof.
  split; [reflexivity|].
  refine (@harvest_calls_the_manifest_transform_once (build_options None)
            (host_writing manifest_text) (sample_rc VUndefined) (initial build_disk)
            (fun m => Ok m) _ eq_refl eq_refl eq_refl _ _).
  - vm_compute. reflexivity.
  - vm_compute. reflexivity.
Defined.

Lemma buildStart_transforms_at_most_once_witness :
  exists out,
    buildStart 3 (build_options None) (host_writing manifest_text)
      {| generateSSRBuild := true; emptyOutDir := Some false;
         resolvedConfig := sample_rc VUndefined |} (initial build_disk) = Some out /\
    (calls is_manifest_transform (trace_of out) <= 1)%nat /\
    (calls is_template_transform (trace_of out) <= 1)%nat.
Proof.
  eexists. split; [vm_compute; reflexivity|].
  eapply (@buildStart_transforms_at_most_once 3 (build_options None)
            (host_writing manifest_text)
            {| generateSSRBuild := true; emptyOutDir := Some false;
               resolvedConfig := sample_rc VUndefined |} (initial build_disk)).
  vm_compute. reflexivity.
Defined.

(** The disk that the failing build leaves. *)
Definition chunk_disk : Fs.node :=
  Fs.Dir [(lit "proj",
           Fs.Dir [(lit "dist",
                    Fs.Dir [(lit "www",
                             Fs.Dir [(lit "chunk.js", Fs.File (lit "x"))])])])].

Lemma failed_client_build_aborts_witness :
  let bs := {| generateSSRBuild := true; emptyOutDir := Some false;
               resolvedConfig := sample_rc VUndefined |} in
  buildStart_prepare 3 failing_host bs (initial build_disk)
  = Some (Ok tt, build_disk, []) /\
  buildStart 3 (build_options None) failing_host bs (initial build_disk)
  = Some (Throw BuildError, with_disk (initial build_disk) chunk_disk,
          [EInfo (lit "SSR build") (lit "generating the SSR target...");
           EBuild (lit "/proj/dist/www")]).
Proof.
  intros bs. split; [reflexivity|].
  exact (@failed_client_build_aborts 3 (build_options None) failing_host bs
           (initial build_disk) build_disk chunk_disk [] BuildError
           eq_refl eq_refl eq_refl).
Defined.

Lemma missing_artifacts_are_skipped_witness :
  buildStart_client (build_options None) idle_host (sample_rc VUndefined)
    (initial build_disk)
  = (Ok tt, initial build_disk, [EBuild (lit "/proj/dist/www")]).
Proof.
  refine (@missing_artifacts_are_skipped (build_options None) idle_host
            (sample_rc VUndefined) (initial build_disk) build_disk
            eq_refl eq_refl _).
  intros f H. vm_compute in H. injection H as <-. reflexivity.
Defined.

Lemma other_entries_are_not_templates_witness :
  templateSource
    (state_of (buildStart_client (build_options None) (host_writing manifest_text)
                 (sample_rc (VString (lit "src/entry-server.ts"))) (initial build_disk)))
  = [] /\
  templateSource
    (state_of (buildStart_client (build_options None) (host_writing manifest_text)
                 (sample_rc (VArray [VString (lit "index.html")])) (initial build_disk)))
  = [].
Proof.
  split.
  - refine (proj1 (@other_entries_are_not_templates (build_options None)
                     (host_writing manifest_text)
                     (sample_rc (VString (lit "src/entry-server.ts")))
                     (initial build_disk) _)).
    intros i H. vm_compute in H. injection H as <-. reflexivity.
  - refine (proj1 (@other_entries_are_not_templates (build_options None)
                     (host_writing manifest_text)
                     (sample_rc (VArray [VString (lit "index.html")]))
                     (initial build_disk) _)).
    intros i H. vm_compute in H. discriminate H.
Defined.

Lemma unparsable_manifest_is_already_deleted_witness :
  exists after,
    Fs.existsSync after (lit "/proj/dist/www/ssr-manifest.json") = false /\
    buildStart_client (build_options None) (host_writing (lit "{ not json"))
      (sample_rc VUndefined) (initial build_disk)
    = (Throw SyntaxError, with_disk (initial build_disk) after,
       [EBuild (lit "/proj/dist/www");
        EReadFileSync (lit "/proj/dist/www/ssr-manifest.json");
        EUnlinkSync (lit "/proj/dist/www/ssr-manifest.json")]).
Proof.
  eexists. split.
  2:{ refine (@unparsable_manifest_is_already_deleted (build_options None)
                (host_writing (lit "{ not json")) (sample_rc VUndefined)
                (initial build_disk) _ _ (lit "{ not json") SyntaxError
                _ eq_refl _ _ _ eq_refl).
      - vm_compute. reflexivity.
      - vm_compute. reflexivity.
      - vm_compute. reflexivity.
      - vm_compute. reflexivity. }
  vm_compute. reflexivity.
Defined.

Lemma writeManifest_false_writes_nothing_witness :
  opt_writeManifest (build_options (Some false)) = Some false /\
  calls is_write
    (trace_of (buildStart_client (build_options (Some false))
                 (host_writing manifest_text) (sample_rc VUndefined)
                 (initial build_disk))) = 0%nat.
Proof.
  split; [reflexivity|].
  exact (@writeManifest_false_writes_nothing (build_options (Some false))
           (host_writing manifest_text) (sample_rc VUndefined)
           (initial build_disk) eq_refl).
Defined.

End HarvestSamples.

(* ----------------------------------------------------------------- *)
(** ** The [config] hook and [buildStart] *)

Module ConfigFacts.
Import Js JsFacts Json Plugin Config TransformFacts MiddlewareFacts HarvestFacts.

Section WithMerge.

Variable mergeConfig : value -> value -> value.

(** Unless the command is a production build whose [build.ssr] is a string,
    and unless [buildConfig] is [false], the [config] hook returns nothing
    and logs nothing, and a [buildStart] that follows it on a fresh plugin
    does nothing: no directory is emptied, no client build is started and
    the state is as before. *)
Theorem plugin_is_inert_outside_ssr_builds
        (options : option PluginOptions) (config : value) (env : ConfigEnv)
        (fuel : nat) (host : BuildHost) (resolved : ResolvedConfig) (st : State) :
  opt_buildConfig options = VBool false \/
  mode env <> lit "production" \/
  command env <> lit "build" \/
  typeof (get_prop (get_prop config (lit "build")) (lit "ssr")) <> TString ->
  config_hook mergeConfig options config env initial_flags
  = (None, initial_flags, []) /\
  buildStart fuel options host
    (build_state (snd (fst (config_hook mergeConfig options config env initial_flags)))
                 resolved) st
  = Some (Ok tt, st, []).
Proof.
  intros H.
  assert (Hc : config_hook mergeConfig options config env initial_flags
               = (None, initial_flags, [])).
  { unfold config_hook.
    destruct H as [-> | H]; [reflexivity|].
    assert (Hg : negb (str_eqb (mode env) (lit "production"))
                 || negb (str_eqb (command env) (lit "build"))
                 || negb (jstype_eqb
                            (typeof (get_prop (get_prop config (lit "build")) (lit "ssr")))
                            TString) = true).
    { destruct H as [H | [H | H]].
      - apply str_eqb_neq in H. now rewrite H.
      - apply str_eqb_neq in H. rewrite H. now rewrite orb_true_r.
      - destruct (typeof _); try (now rewrite !orb_true_r).
        now contradiction H. }
    rewrite Hg. destruct (opt_buildConfig options) as [| |[|]| | | | |]; reflexivity. }
  rewrite Hc. split; reflexivity.
Qed.

(** In a production build with a string [build.ssr] the hook switches the
    plugin on and records the user's [build.emptyOutDir] as it finds it;
    when that is [false], or when [build.write] is off, the [buildStart]
    that follows deletes nothing: it logs its line and runs the client
    build and the harvest on the disk as it is. *)
Theorem user_preference_false_is_kept
        (options : option PluginOptions) (config : value) (env : ConfigEnv)
        (fuel : nat) (host : BuildHost) (resolved : ResolvedConfig) (st : State) :
  opt_buildConfig options <> VBool false ->
  mode env = lit "production" ->
  command env = lit "build" ->
  typeof (get_prop (get_prop config (lit "build")) (lit "ssr")) = TString ->
  get_prop (get_prop config (lit "build")) (lit "emptyOutDir") = VBool false \/
  rc_build_write resolved = false ->
  let flags := snd (fst (config_hook mergeConfig options config env initial_flags)) in
  flag_generateSSRBuild flags = true /\
  flag_emptyOutDir flags = get_prop (get_prop config (lit "build")) (lit "emptyOutDir") /\
  buildStart fuel options host (build_state flags resolved) st
  = match buildStart_client options host resolved st with
    | (r, st2, t2) =>
        Some (r, st2,
              EInfo (lit "SSR build") (lit "generating the SSR target...") :: t2)
    end.
Proof.
  intros Hb Hm Hcmd Hssr Hpref flags.
  assert (Hf : flags
               = {| flag_generateSSRBuild := true;
                    flag_emptyOutDir :=
                      get_prop (get_prop config (lit "build")) (lit "emptyOutDir") |}).
  { unfold flags, config_hook. rewrite Hm, Hcmd, Hssr, !str_eqb_refl. simpl.
    destruct (opt_buildConfig options) as [| |[|]| | | | |]; try reflexivity.
    now contradiction Hb. }
  rewrite Hf. cbn [flag_generateSSRBuild flag_emptyOutDir].
  split; [reflexivity|]. split; [reflexivity|].
  unfold buildStart, buildStart_prepare, build_state.
  cbn [generateSSRBuild emptyOutDir resolvedConfig flag_generateSSRBuild
       flag_emptyOutDir negb].
  assert (Hprep :
    (if rc_build_write resolved
     then Fs.prepareOutDir (normalizePath host) fuel
            (path_resolve host [rc_root resolved; rc_build_outDir resolved])
            (preference (get_prop (get_prop config (lit "build")) (lit "emptyOutDir")))
            (rc_root resolved) (disk st)
     else Some (Ok tt, disk st, []))
    = Some (Ok tt, disk st, [])).
  { destruct Hpref as [-> | ->]; [|reflexivity].
    destruct (rc_build_write resolved); [|reflexivity].
    unfold Fs.prepareOutDir. simpl.
    destruct (Fs.existsSync _ _); reflexivity. }
  rewrite Hprep. destruct st as [m t d]. cbn [manifestSource templateSource disk map].
  destruct (buildStart_client _ _ _ _) as [[r st2] t2]. reflexivity.
Qed.

End WithMerge.

End ConfigFacts.

(* ----------------------------------------------------------------- *)
(** ** Sample configurations *)

Module ConfigSamples.
Import Js JsFacts Json Plugin Config TransformFacts MiddlewareFacts HarvestFacts
       HarvestMore HarvestSamples ConfigFacts.

(** A merge in which the second object wins key by key. *)
Definition shallow_merge (a b : value) : value :=
  match a, b with
  | VObject pa, VObject pb =>
      VObject (pb ++ filter (fun kv => negb (existsb (fun kw => str_eqb (fst kw) (fst kv)) pb)) pa)
  | _, _ => b
  end.

Definition ssr_build_config (emptyOutDir : value) : value :=
  VObject [(lit "build",
            VObject [(lit "ssr", VString (lit "src/entry-server.ts"));
                     (lit "emptyOutDir", emptyOutDir)])].

Definition production_build : ConfigEnv :=
  {| mode := lit "production"; command := lit "build" |}.

Definition dev_serve : ConfigEnv :=
  {| mode := lit "development"; command := lit "serve" |}.

Lemma plugin_is_inert_outside_ssr_builds_witness :
  mode dev_serve <> lit "production" /\
  config_hook shallow_merge (build_options None) (ssr_build_config VUndefined)
    dev_serve initial_flags
  = (None, initial_flags, []) /\
  buildStart 3 (build_options None) (host_writing manifest_text)
    (build_state
       (snd (fst (config_hook shallow_merge (build_options None)
                    (ssr_build_config VUndefined) dev_serve initial_flags)))
       (sample_rc VUndefined))
    (initial build_disk)
  = Some (Ok tt, initial build_disk, []).
Proof.
  assert (Hne : mode dev_serve <> lit "production").
  { intros H. vm_compute in H. discriminate H. }
  split; [exact Hne|].
  exact (@plugin_is_inert_outside_ssr_builds shallow_merge (build_options None)
           (ssr_build_config VUndefined) dev_serve 3 (host_writing manifest_text)
           (sample_rc VUndefined) (initial build_disk)
           (or_intror (or_introl Hne))).
Defined.

(** A disk on which the output directory already holds a file. *)
Definition used_disk : Fs.node :=
  Fs.Dir [(lit "proj",
           Fs.Dir [(lit "dist",
                    Fs.Dir [(lit "www", Fs.Dir []);
                            (lit "old.js", Fs.File (lit "old"))])])].

Lemma user_preference_false_is_kept_witness :
  exists out,
    buildStart 3 (build_options None) (host_writing manifest_text)
      (build_state
         (snd (fst (config_hook shallow_merge (build_options None)
                      (ssr_build_config (VBool false)) production_build initial_flags)))
         (sample_rc VUndefined))
      (initial used_disk)
    = Some out /\
    Fs.existsSync (disk (state_of out)) (lit "/proj/dist/old.js") = true.
Proof.
  assert (Hb : opt_buildConfig (build_options None) <> VBool false)
    by (intros H; vm_compute in H; discriminate H).
  destruct (@user_preference_false_is_kept shallow_merge (build_options None)
              (ssr_build_config (VBool false)) production_build 3
              (host_writing manifest_text) (sample_rc VUndefined) (initial used_disk)
              Hb eq_refl eq_refl eq_refl (or_introl eq_refl))
    as (_ & _ & Hrun).
  eexists. split.
  - rewrite Hrun. vm_compute. reflexivity.
  - vm_compute. reflexivity.
Defined.

End ConfigSamples.

(* ----------------------------------------------------------------- *)
(** ** [minify()] as the template transform *)

Module MinifyMore.
Import Js JsFacts Json Plugin Minify TransformFacts TransformMore MinifyFacts.

(** The hook that [transformTemplate: minify()] installs, for calls whose
    dynamic import completes with [imported]. *)
Definition minify_hook (imported : outcome MinifierModule) :
  jsstring -> outcome value :=
  fun html => fst (minify imported html).

(** With [minify()] as the template transform: when the library cannot be
    imported the stored template stays as it is; when it can, the stored
    template becomes the string the library resolves to, and a rejection of
    the library is thrown by [applyTemplateTransformation] with the store
    as it was. *)
Theorem minify_as_template_transform
        (options : option PluginOptions) (imported : outcome MinifierModule)
        (st : State) :
  opt_transformTemplate options = Some (minify_hook imported) ->
  let called := [ETransformTemplate (templateSource st)] in
  (forall e, imported = Throw e ->
     applyTemplateTransformation options st = (Ok tt, st, called)) /\
  (forall m f s, imported = Ok m -> lib_minify m = Some f ->
     f (templateSource st) minify_options = Ok (VString s) ->
     applyTemplateTransformation options st
     = (Ok tt, with_templateSource st s, called)) /\
  (forall m f e, imported = Ok m -> lib_minify m = Some f ->
     f (templateSource st) minify_options = Throw e ->
     applyTemplateTransformation options st = (Throw e, st, called)).
Proof.
  intros Hopt called. unfold applyTemplateTransformation. rewrite Hopt.
  unfold bind, get, emit, call, ret, set_templateSource, minify_hook, minify.
  repeat split.
  - intros e ->. destruct st; reflexivity.
  - intros m f s -> Hf Hs. rewrite Hf. cbn. rewrite Hs. reflexivity.
  - intros m f e -> Hf He. rewrite Hf. cbn. rewrite He. reflexivity.
Qed.

Lemma minify_as_template_transform_witness :
  applyTemplateTransformation
    (template_hook (minify_hook (Throw (VString (lit "ERR_MODULE_NOT_FOUND")))))
    (with_templateSource (initial (Fs.Dir [])) (lit "<p>  a  </p>"))
  = (Ok tt, with_templateSource (initial (Fs.Dir [])) (lit "<p>  a  </p>"),
     [ETransformTemplate (lit "<p>  a  </p>")]) /\
  applyTemplateTransformation
    (template_hook (minify_hook (Ok strict_minifier)))
    (with_templateSource (initial (Fs.Dir [])) (lit "<div"))
  = (Throw ParseError, with_templateSource (initial (Fs.Dir [])) (lit "<div"),
     [ETransformTemplate (lit "<div")]).
Proof.
  split.
  - exact (proj1
      (minify_as_template_transform
         (template_hook (minify_hook (Throw (VString (lit "ERR_MODULE_NOT_FOUND")))))
         (imported := Throw (VString (lit "ERR_MODULE_NOT_FOUND")))
         (with_templateSource (initial (Fs.Dir [])) (lit "<p>  a  </p>")) eq_refl)
      _ eq_refl).
  - exact (proj2 (proj2
      (minify_as_template_transform
         (template_hook (minify_hook (Ok strict_minifier)))
         (imported := Ok strict_minifier)
         (with_templateSource (initial (Fs.Dir [])) (lit "<div")) eq_refl))
      strict_minifier _ ParseError eq_refl eq_refl eq_refl).
Defined.

End MinifyMore.

(* ----------------------------------------------------------------- *)
(** ** [buildStart] cleans before it builds *)

Module CleanBuild.
Import Js JsFacts Json Fs FsFacts Plugin TransformFacts MiddlewareFacts HarvestFacts
       HarvestMore HarvestSamples.

(** The directory that [buildStart] prepares: [path.resolve(root, outDir)]. *)
Definition target (host : BuildHost) (rc : ResolvedConfig) : jsstring :=
  path_resolve host [rc_root rc; rc_build_outDir rc].

(** An SSR build that writes to disk and whose output directory exists:
    when the directory is to be emptied (preference [true], or unspecified
    and inside the root), the client build and the harvest run on the disk
    in which that directory holds nothing but its [.git] entry; when the
    preference is unspecified and the directory is outside the root, they
    run on the disk as it is, after the warning. *)
Theorem buildStart_cleans_before_the_client_build
        (fuel : nat) (options : option PluginOptions) (host : BuildHost)
        (bs : BuildState) (st : State) (es : list (jsstring * node)) :
  generateSSRBuild bs = true ->
  rc_build_write (resolvedConfig bs) = true ->
  lookup (disk st) (components (target host (resolvedConfig bs))) = Some (Dir es) ->
  wfb (Dir es) = true ->
  (height (Dir es) <= fuel)%nat ->
  let hello := EInfo (lit "SSR build") (lit "generating the SSR target...") in
  let outside :=
    outside_root (normalizePath host) (target host (resolvedConfig bs))
                 (rc_root (resolvedConfig bs)) in
  (emptyOutDir bs = Some true \/ (emptyOutDir bs = None /\ outside = false) ->
   buildStart fuel options host bs st
   = match buildStart_client options host (resolvedConfig bs)
             (with_disk st
                (set_at (disk st) (components (target host (resolvedConfig bs)))
                        (Dir (filter is_git es)))) with
     | (r, st2, t2) => Some (r, st2, hello :: t2)
     end) /\
  (emptyOutDir bs = None -> outside = true ->
   buildStart fuel options host bs st
   = match buildStart_client options host (resolvedConfig bs) st with
     | (r, st2, t2) =>
         Some (r, st2,
               hello :: EWarn (outside_root_warning (target host (resolvedConfig bs)))
                     :: t2)
     end).
Proof.
  intros Hg Hw Hdir Hwf Hh hello outside.
  apply wfb_sound in Hwf. unfold target in *.
  split.
  - intros Hp. unfold buildStart, buildStart_prepare. rewrite Hg, Hw. cbn [negb].
    unfold prepareOutDir, existsSync. rewrite Hdir.
    rewrite (@emptyDir_spec fuel _ (Some [lit ".git"]) (disk st) es Hwf Hdir Hh),
            kept_by_skip_git.
    destruct Hp as [-> | [-> Ho]]; cbn [andb].
    + unfold with_disk. cbn [map app].
      destruct (buildStart_client _ _ _ _) as [[r st2] t2]. reflexivity.
    + unfold outside in Ho. rewrite Ho. unfold with_disk. cbn [map app].
      destruct (buildStart_client _ _ _ _) as [[r st2] t2]. reflexivity.
  - intros Hp Ho. unfold buildStart, buildStart_prepare. rewrite Hg, Hw. cbn [negb].
    unfold prepareOutDir, existsSync. rewrite Hdir, Hp.
    unfold outside in Ho. rewrite Ho. cbn [andb map app].
    destruct st as [m t d]. cbn [manifestSource templateSource disk].
    destruct (buildStart_client _ _ _ _) as [[r st2] t2]. reflexivity.
Qed.

(** After an SSR build on a used output directory: the old file is gone,
    [.git] is still there, and the harvested files lie beside the client
    directory. *)
Definition used_tree : node :=
  Dir [(lit "proj",
        Dir [(lit "dist",
              Dir [(lit ".git", Dir [(lit "HEAD", File (lit "ref"))]);
                   (lit "old.js", File (lit "old"));
                   (lit "www", Dir [(lit "stale.css", File (lit "x"))])])])].

(** A client build that creates its output directory first. *)
Definition host_creating : BuildHost :=
  {| path_resolve := join_paths; path_basename := last_component;
     normalizePath := fun p => p;
     build := fun _ outDir d =>
       match split_last (components outDir) with
       | Some (parent, name) =>
           match lookup d parent with
           | Some (Dir es) =>
               settled d
                 (client_build manifest_text outDir
                    (set_at d parent (Dir (es ++ [(name, Dir [])]))))
           | _ => (Throw BuildError, d)
           end
       | None => (Throw BuildError, d)
       end |}.

Definition ssr_build_state (pref : option bool) : BuildState :=
  {| generateSSRBuild := true; emptyOutDir := pref;
     resolvedConfig := sample_rc VUndefined |}.

Lemma buildStart_cleans_before_the_client_build_witness :
  exists out,
    buildStart 3 (build_options None) host_creating (ssr_build_state None)
      (initial used_tree) = Some out /\
    result_of out = Ok tt /\
    readdirSync (disk (state_of out)) (lit "/proj/dist")
    = Ok [lit ".git"; lit "www"; lit "ssr-manifest.json"; lit "index.html"] /\
    readdirSync (disk (state_of out)) (lit "/proj/dist/www") = Ok [].
Proof.
  assert (H3 : (2 <= 3)%nat) by lia.
  pose proof (proj1 (@buildStart_cleans_before_the_client_build 3 (build_options None)
              host_creating (ssr_build_state None) (initial used_tree)
              [(lit ".git", Dir [(lit "HEAD", File (lit "ref"))]);
               (lit "old.js", File (lit "old"));
               (lit "www", Dir [(lit "stale.css", File (lit "x"))])]
              eq_refl eq_refl eq_refl eq_refl H3)
              (or_intror (conj eq_refl eq_refl))) as Hrun.
  eexists. split.
  - rewrite Hrun. vm_compute. reflexivity.
  - vm_compute. repeat split.
Defined.

End CleanBuild.

(* ----------------------------------------------------------------- *)
(** ** The manifest survives [JSON.stringify] and [JSON.parse] *)

Module ManifestRoundTrip.
Import Js JsFacts Json EsFacts.

(** A manifest as its type says: [Record<string, string[]>]. *)
Definition Manifest : Type := list (jsstring * list jsstring).

Definition manifest_value (m : Manifest) : value :=
  VObject (map (fun ka => (fst ka, VArray (map VString (snd ka)))) m).

(** Keys are pairwise distinct, and none of them is an array index (those
    are enumerated first, whatever the order of insertion). *)
Fixpoint plain_keys (m : Manifest) : bool :=
  match m with
  | [] => true
  | (k, _) :: r =>
      match array_index k with
      | Some _ => false
      | None => negb (existsb (fun ka => str_eqb (fst ka) k) r) && plain_keys r
      end
  end.

(** *** Strings *)

Lemma parse_raw (c : char16) (t : jsstring) :
  c <> 34%N -> c <> 92%N -> (32 <= c)%N ->
  parse_string_body (c :: t) = push c (parse_string_body t).
Proof.
  intros H1 H2 H3. simpl.
  apply N.eqb_neq in H1, H2. rewrite H1, H2.
  replace (N.ltb c 32) with false by (symmetry; apply N.ltb_ge; exact H3).
  reflexivity.
Qed.

Lemma parse_u4 (a b c d : char16) (t : jsstring) :
  parse_string_body (92 :: 117 :: a :: b :: c :: d :: t)%N
  = match hex4 a b c d with
    | Some u => push u (parse_string_body t)
    | None => None
    end.
Proof. reflexivity. Qed.

Lemma parse_quote_unit (c : char16) (t : jsstring) :
  parse_string_body (quote_unit c ++ t) = push c (parse_string_body t).
Proof.
  unfold quote_unit.
  destruct (N.eqb c 8) eqn:E8; [apply N.eqb_eq in E8; subst; reflexivity|].
  destruct (N.eqb c 9) eqn:E9; [apply N.eqb_eq in E9; subst; reflexivity|].
  destruct (N.eqb c 10) eqn:E10; [apply N.eqb_eq in E10; subst; reflexivity|].
  destruct (N.eqb c 12) eqn:E12; [apply N.eqb_eq in E12; subst; reflexivity|].
  destruct (N.eqb c 13) eqn:E13; [apply N.eqb_eq in E13; subst; reflexivity|].
  destruct (N.eqb c 34) eqn:E34; [apply N.eqb_eq in E34; subst; reflexivity|].
  destruct (N.eqb c 92) eqn:E92; [apply N.eqb_eq in E92; subst; reflexivity|].
  destruct (N.ltb c 32 || is_high_surrogate c || is_low_surrogate c) eqn:Eu.
  - unfold unicode_escape. cbn [app]. rewrite parse_u4.
    rewrite hex4_unicode_digits; [reflexivity|].
    unfold is_high_surrogate, is_low_surrogate in Eu. n_cases; lia.
  - cbn [app]. apply parse_raw; n_cases; first [assumption | lia].
Qed.

(** [JSON.parse] reads a string written by [JSON.stringify] back. *)
Lemma parse_quote_body (n : nat) :
  forall (s rest : jsstring),
    (length s <= n)%nat ->
    parse_string_body (quote_body s ++ 34%N :: rest) = Some (s, rest).
Proof.
  induction n as [|n IH]; intros s rest Hn.
  - destruct s; [reflexivity|simpl in Hn; lia].
  - destruct s as [|c r]; [reflexivity|]. simpl in Hn.
    assert (Hone : parse_string_body ((quote_unit c ++ quote_body r) ++ 34%N :: rest)
                   = Some (c :: r, rest)).
    { rewrite <- app_assoc, parse_quote_unit, IH by lia. reflexivity. }
    cbn [quote_body].
    destruct (is_high_surrogate c) eqn:Hh; [|exact Hone].
    destruct r as [|d r'];
      [simpl in Hone; rewrite app_nil_r in Hone; exact Hone|].
    destruct (is_low_surrogate d) eqn:Hl; [|exact Hone].
    cbn [app].
    unfold is_high_surrogate in Hh. unfold is_low_surrogate in Hl.
    rewrite parse_raw, parse_raw by (n_cases; lia).
    rewrite IH by (simpl in *; lia). reflexivity.
Qed.

Lemma quote_app (s t : jsstring) :
  quote s ++ t = 34%N :: quote_body s ++ 34%N :: t.
Proof. unfold quote. simpl. now rewrite <- app_assoc. Qed.

(** *** White space and the unfolding of the parser *)

Definition nl : jsstring := [10%N].

Lemma skip_ws_indent (n : nat) (t : jsstring) :
  skip_ws (nl ++ spaces n ++ t) = skip_ws t.
Proof.
  unfold nl. cbn [app skip_ws]. change (is_ws 10%N) with true. cbv iota.
  induction n as [|n IH]; [reflexivity|exact IH].
Qed.

Lemma skip_ws_stop (c : char16) (t : jsstring) :
  is_ws c = false -> skip_ws (c :: t) = c :: t.
Proof. intros H. simpl. now rewrite H. Qed.

Lemma parse_value_skips (f : nat) (s s' : jsstring) :
  skip_ws s = skip_ws s' -> parse_value f s = parse_value f s'.
Proof. intros H. destruct f; simpl; [reflexivity|]. now rewrite H. Qed.

Lemma parse_members_skips (f : nat) (s s' : jsstring) acc :
  skip_ws s = skip_ws s' -> parse_members f s acc = parse_members f s' acc.
Proof. intros H. destruct f; simpl; [reflexivity|]. now rewrite H. Qed.

Lemma parse_value_string (f : nat) (s t : jsstring) :
  (1 <= f)%nat ->
  parse_value f (quote s ++ t) = Some (VString s, t).
Proof.
  intros Hf. destruct f as [|f]; [lia|].
  rewrite quote_app. cbn [parse_value].
  rewrite skip_ws_stop by reflexivity.
  change (N.eqb 34 123) with false. change (N.eqb 34 91) with false.
  change (N.eqb 34 34) with true. cbv iota.
  now rewrite parse_quote_body with (n := length s).
Qed.

Lemma parse_elements_eq (f : nat) (s : jsstring) (acc : list value) :
  parse_elements (S f) s acc
  = match parse_value f s with
    | Some (v, r) =>
        match skip_ws r with
        | d :: r' =>
            if N.eqb d 44 then parse_elements f r' (acc ++ [v])
            else if N.eqb d 93 then Some (VArray (acc ++ [v]), r')
            else None
        | [] => None
        end
    | None => None
    end.
Proof. reflexivity. Qed.

(** *** Arrays of strings *)

Definition sep (ind : nat) : jsstring := lit "," ++ nl ++ spaces ind.

(** The elements from the first one on, up to the closing bracket. *)
Fixpoint elems_text (ind stepback : nat) (s : jsstring) (more : list jsstring)
         (rest : jsstring) : jsstring :=
  quote s ++
  match more with
  | [] => nl ++ spaces stepback ++ lit "]" ++ rest
  | s' :: more' => sep ind ++ elems_text ind stepback s' more' rest
  end.

Definition array_text (ind : nat) (assets : list jsstring) : jsstring :=
  match assets with
  | [] => lit "[]"
  | s :: more =>
      lit "[" ++ nl ++ spaces (ind + 2) ++ elems_text (ind + 2) ind s more []
  end.

Lemma elems_text_rest (ind stepback : nat) (more : list jsstring) :
  forall s rest,
    elems_text ind stepback s more [] ++ rest = elems_text ind stepback s more rest.
Proof.
  induction more as [|s' more IH]; intros s rest; cbn [elems_text].
  - rewrite <- !app_assoc. reflexivity.
  - unfold sep. rewrite <- !app_assoc. now rewrite IH.
Qed.

Lemma join_elems (ind stepback : nat) (more : list jsstring) :
  forall s,
    join (sep ind) (map quote (s :: more)) ++ nl ++ spaces stepback ++ lit "]"
    = elems_text ind stepback s more [].
Proof.
  induction more as [|s' more IH]; intros s.
  - cbn [map join elems_text]. now rewrite app_nil_r.
  - change (map quote (s :: s' :: more)) with (quote s :: map quote (s' :: more)).
    cbn [join]. cbn [map] in *. cbn [elems_text].
    rewrite <- !app_assoc. now rewrite IH.
Qed.

Lemma parse_elements_strings (more : list jsstring) :
  forall (f : nat) (s : jsstring) (acc : list value) (ind stepback n : nat)
         (rest : jsstring),
    (length more + 2 <= f)%nat ->
    parse_elements f (nl ++ spaces n ++ elems_text ind stepback s more rest) acc
    = Some (VArray (acc ++ map VString (s :: more)), rest).
Proof.
  induction more as [|s' more IH]; intros f s acc ind stepback n rest Hf.
  - destruct f as [|f]; [simpl in Hf; lia|]. simpl in Hf.
    rewrite parse_elements_eq. cbn [elems_text].
    rewrite (parse_value_skips f _ (quote s ++ nl ++ spaces stepback ++ lit "]" ++ rest))
      by (rewrite skip_ws_indent; reflexivity).
    rewrite parse_value_string by lia. rewrite skip_ws_indent.
    reflexivity.
  - destruct f as [|f]; [simpl in Hf; lia|]. simpl in Hf.
    rewrite parse_elements_eq. cbn [elems_text].
    rewrite (parse_value_skips f _
               (quote s ++ sep ind ++ elems_text ind stepback s' more rest))
      by (rewrite skip_ws_indent; reflexivity).
    rewrite parse_value_string by lia. unfold sep.
    change ((lit "," ++ nl ++ spaces ind) ++ elems_text ind stepback s' more rest)
      with (44%N :: nl ++ spaces ind ++ elems_text ind stepback s' more rest).
    rewrite skip_ws_stop by reflexivity.
    change (N.eqb 44 44) with true. cbv iota.
    rewrite IH by lia.
    cbn [map]. now rewrite <- app_assoc.
Qed.

Lemma parse_value_array_eq (f : nat) (r : jsstring) :
  parse_value (S f) (91%N :: r)
  = match skip_ws r with
    | d :: r' =>
        if N.eqb d 93 then Some (VArray [], r') else parse_elements f r []
    | [] => None
    end.
Proof. reflexivity. Qed.

Lemma elems_text_head (ind stepback : nat) (s : jsstring) (more : list jsstring)
      (rest : jsstring) :
  exists tail, elems_text ind stepback s more rest = 34%N :: tail.
Proof. destruct more; cbn [elems_text]; rewrite quote_app; eauto. Qed.

Lemma parse_array_text (assets : list jsstring) (ind : nat) (f : nat) (rest : jsstring) :
  (length assets + 3 <= f)%nat ->
  parse_value f (array_text ind assets ++ rest)
  = Some (VArray (map VString assets), rest).
Proof.
  intros Hf. destruct f as [|f]; [lia|].
  destruct assets as [|s more].
  - reflexivity.
  - unfold array_text. rewrite <- !app_assoc, elems_text_rest.
    change (lit "[" ++ nl ++ spaces (ind + 2) ++ elems_text (ind + 2) ind s more rest)
      with (91%N :: nl ++ spaces (ind + 2) ++ elems_text (ind + 2) ind s more rest).
    rewrite parse_value_array_eq, skip_ws_indent.
    destruct (elems_text_head (ind + 2) ind s more rest) as (tail & Ht).
    rewrite Ht at 1. rewrite skip_ws_stop by reflexivity.
    change (N.eqb 34 93) with false. cbv iota.
    rewrite parse_elements_strings by (simpl in *; lia).
    reflexivity.
Qed.

(** *** The members of the manifest *)

Definition member_text (ka : jsstring * list jsstring) : jsstring :=
  quote (fst ka) ++ lit ":" ++ [32%N] ++ array_text 2 (snd ka).

Fixpoint members_text (e : jsstring * list jsstring) (more : Manifest)
         (rest : jsstring) : jsstring :=
  member_text e ++
  match more with
  | [] => nl ++ spaces 0 ++ lit "}" ++ rest
  | e' :: more' => sep 2 ++ members_text e' more' rest
  end.

(** The text that [JSON.stringify(manifest, null, 2)] writes. *)
Definition object_text (m : Manifest) : jsstring :=
  match m with
  | [] => lit "{}"
  | e :: more => lit "{" ++ nl ++ spaces 2 ++ members_text e more []
  end.

Definition props_of (m : Manifest) : list (jsstring * value) :=
  map (fun ka => (fst ka, VArray (map VString (snd ka)))) m.

Fixpoint weight (m : Manifest) : nat :=
  match m with
  | [] => 0
  | (_, a) :: r => S (length a) + weight r
  end.

Lemma parse_members_eq (f : nat) (s : jsstring) (acc : list (jsstring * value)) :
  parse_members (S f) s acc
  = match skip_ws s with
    | q :: r =>
        if N.eqb q 34 then
          match parse_string_body r with
          | Some (k, r1) =>
              match skip_ws r1 with
              | colon :: r2 =>
                  if N.eqb colon 58 then
                    match parse_value f r2 with
                    | Some (v, r3) =>
                        match skip_ws r3 with
                        | d :: r4 =>
                            if N.eqb d 44 then parse_members f r4 (obj_set acc k v)
                            else if N.eqb d 125
                                 then Some (VObject (obj_set acc k v), r4)
                                 else None
                        | [] => None
                        end
                    | None => None
                    end
                  else None
              | [] => None
              end
          | None => None
          end
        else None
    | [] => None
    end.
Proof. reflexivity. Qed.

Lemma parse_value_object_eq (f : nat) (r : jsstring) :
  parse_value (S f) (123%N :: r)
  = match skip_ws r with
    | d :: r' =>
        if N.eqb d 125 then Some (VObject [], r') else parse_members f r []
    | [] => None
    end.
Proof. reflexivity. Qed.

Lemma obj_set_fresh (acc : list (jsstring * value)) (k : jsstring) (v : value) :
  has_key acc k = false -> array_index k = None ->
  obj_set acc k v = acc ++ [(k, v)].
Proof. intros H1 H2. unfold obj_set. now rewrite H1, H2. Qed.

Lemma has_key_snoc (acc : list (jsstring * value)) (k k' : jsstring) (v : value) :
  has_key (acc ++ [(k, v)]) k' = has_key acc k' || str_eqb k k'.
Proof.
  unfold has_key. rewrite existsb_app. simpl. now rewrite orb_false_r.
Qed.

Lemma parse_member_value (f : nat) (a : list jsstring) (t : jsstring) :
  (length a + 3 <= f)%nat ->
  parse_value f ([32%N] ++ array_text 2 a ++ t)
  = Some (VArray (map VString a), t).
Proof.
  intros Hf.
  rewrite (parse_value_skips f _ (array_text 2 a ++ t)).
  - now apply parse_array_text.
  - reflexivity.
Qed.

Lemma parse_members_manifest (more : Manifest) :
  forall (f : nat) (e : jsstring * list jsstring)
         (acc : list (jsstring * value)) (n : nat) (rest : jsstring),
    (weight (e :: more) + 3 <= f)%nat ->
    plain_keys (e :: more) = true ->
    (forall ka, In ka (e :: more) -> has_key acc (fst ka) = false) ->
    parse_members f (nl ++ spaces n ++ members_text e more rest) acc
    = Some (VObject (acc ++ props_of (e :: more)), rest).
Proof.
  induction more as [|e' more IH]; intros f [k a] acc n rest Hf Hk Hacc.
  - destruct f as [|f]; [simpl in Hf; lia|]. simpl in Hf.
    rewrite parse_members_eq, skip_ws_indent.
    cbn [members_text]. unfold member_text. cbn [fst snd].
    rewrite <- !app_assoc, quote_app.
    rewrite skip_ws_stop by reflexivity.
    change (N.eqb 34 34) with true. cbv iota.
    rewrite parse_quote_body with (n := length k) by lia.
    change (lit ":" ++ [32%N] ++ array_text 2 a ++ nl ++ spaces 0 ++ lit "}" ++ rest)
      with (58%N :: [32%N] ++ array_text 2 a ++ nl ++ spaces 0 ++ lit "}" ++ rest).
    rewrite skip_ws_stop by reflexivity.
    change (N.eqb 58 58) with true. cbv iota.
    rewrite parse_member_value by lia.
    rewrite skip_ws_indent.
    change (skip_ws (lit "}" ++ rest)) with (125%N :: rest).
    change (N.eqb 125 44) with false. change (N.eqb 125 125) with true. cbv iota.
    simpl in Hk. destruct (array_index k) eqn:Ek; [discriminate|].
    rewrite obj_set_fresh; [reflexivity| |exact Ek].
    apply (Hacc (k, a)). now left.
  - destruct f as [|f]; [simpl in Hf; lia|].
    assert (Hf' : (weight (e' :: more) + 3 <= f)%nat /\ (length a + 3 <= f)%nat).
    { cbn [weight] in Hf |- *. destruct e' as [k' a']. cbn [weight] in *. lia. }
    destruct Hf' as [Hf1 Hf2].
    rewrite parse_members_eq, skip_ws_indent.
    cbn [members_text]. unfold member_text. cbn [fst snd].
    rewrite <- !app_assoc, quote_app.
    rewrite skip_ws_stop by reflexivity.
    change (N.eqb 34 34) with true. cbv iota.
    rewrite parse_quote_body with (n := length k) by lia.
    change (lit ":" ++ [32%N] ++ array_text 2 a ++ sep 2 ++ members_text e' more rest)
      with (58%N :: [32%N] ++ array_text 2 a ++ sep 2 ++ members_text e' more rest).
    rewrite skip_ws_stop by reflexivity.
    change (N.eqb 58 58) with true. cbv iota.
    rewrite parse_member_value by lia.
    unfold sep.
    change ((lit "," ++ nl ++ spaces 2) ++ members_text e' more rest)
      with (44%N :: nl ++ spaces 2 ++ members_text e' more rest).
    rewrite skip_ws_stop by reflexivity.
    change (N.eqb 44 44) with true. cbv iota.
    cbn [plain_keys] in Hk. destruct (array_index k) eqn:Ek; [discriminate|].
    apply andb_true_iff in Hk as [Hfresh Hk]. apply negb_true_iff in Hfresh.
    rewrite obj_set_fresh; [| apply (Hacc (k, a)); now left | exact Ek].
    rewrite IH; [| exact Hf1 | exact Hk |].
    + cbn [props_of map fst snd]. now rewrite <- app_assoc.
    + intros ka Hin. rewrite has_key_snoc.
      rewrite (Hacc ka) by (now right). cbn [orb].
      destruct (str_eqb k (fst ka)) eqn:E; [|reflexivity].
      apply str_eqb_eq in E.
      assert (existsb (fun kb => str_eqb (fst kb) k) (e' :: more) = true); [|congruence].
      apply existsb_exists. exists ka. split; [exact Hin|].
      rewrite E. apply str_eqb_refl.
Qed.

Lemma members_text_head (e : jsstring * list jsstring) (more : Manifest) (rest : jsstring) :
  exists tail, members_text e more rest = 34%N :: tail.
Proof.
  destruct more; cbn [members_text]; unfold member_text; rewrite <- !app_assoc, quote_app; eauto.
Qed.

Lemma parse_object_text (m : Manifest) (f : nat) :
  plain_keys m = true ->
  (weight m + 4 <= f)%nat ->
  parse_value f (object_text m) = Some (manifest_value m, []).
Proof.
  intros Hk Hf. destruct f as [|f]; [lia|].
  destruct m as [|e more]; [reflexivity|].
  unfold object_text.
  change (lit "{" ++ nl ++ spaces 2 ++ members_text e more [])
    with (123%N :: nl ++ spaces 2 ++ members_text e more []).
  rewrite parse_value_object_eq, skip_ws_indent.
  destruct (members_text_head e more []) as (tail & Ht).
  rewrite Ht at 1. rewrite skip_ws_stop by reflexivity.
  change (N.eqb 34 125) with false. cbv iota.
  rewrite parse_members_manifest; [reflexivity | lia | exact Hk |].
  intros ka _. reflexivity.
Qed.

(** *** What [JSON.stringify(manifest, null, 2)] writes *)

(** The elements that [SerializeJSONArray] joins. *)
Definition elem_parts (gap ind : nat) : list value -> list jsstring :=
  fix elems (l : list value) : list jsstring :=
    match l with
    | [] => []
    | x :: l' =>
        match serialize gap ind x with
        | Some t => t
        | None => lit "null"
        end :: elems l'
    end.

Lemma serialize_array_eq (gap ind : nat) (items : list value) :
  serialize gap ind (VArray items)
  = match elem_parts gap (ind + gap) items with
    | [] => Some (lit "[]")
    | _ :: _ =>
        let parts := elem_parts gap (ind + gap) items in
        match gap with
        | O => Some (lit "[" ++ join (lit ",") parts ++ lit "]")
        | _ => Some (lit "[" ++ [10%N] ++ spaces (ind + gap) ++
                     join (lit "," ++ [10%N] ++ spaces (ind + gap)) parts ++
                     [10%N] ++ spaces ind ++ lit "]")
        end
    end.
Proof. reflexivity. Qed.

Lemma elem_parts_strings (ind : nat) (a : list jsstring) :
  elem_parts 2 ind (map VString a) = map quote a.
Proof.
  induction a as [|s a IH]; [reflexivity|].
  cbn [map elem_parts serialize]. now rewrite IH.
Qed.

Lemma serialize_assets (ind : nat) (a : list jsstring) :
  serialize 2 ind (VArray (map VString a)) = Some (array_text ind a).
Proof.
  rewrite serialize_array_eq, elem_parts_strings.
  destruct a as [|s more]; [reflexivity|].
  cbn [map]. cbv zeta. unfold array_text. do 4 f_equal.
  change (lit "," ++ [10%N] ++ spaces (ind + 2)) with (sep (ind + 2)).
  exact (join_elems (ind + 2) ind more s).
Qed.

(** The members that [SerializeJSONObject] joins. *)
Definition member_parts (gap ind : nat) : list (jsstring * value) -> list jsstring :=
  fix members (l : list (jsstring * value)) : list jsstring :=
    match l with
    | [] => []
    | (k, x) :: l' =>
        match serialize gap ind x with
        | Some t =>
            (quote k ++ lit ":" ++ match gap with O => [] | _ => [32%N] end ++ t)
            :: members l'
        | None => members l'
        end
    end.

Lemma serialize_object_eq (gap ind : nat) (props : list (jsstring * value)) :
  serialize gap ind (VObject props)
  = match member_parts gap (ind + gap) props with
    | [] => Some (lit "{}")
    | _ :: _ =>
        let parts := member_parts gap (ind + gap) props in
        match gap with
        | O => Some (lit "{" ++ join (lit ",") parts ++ lit "}")
        | _ => Some (lit "{" ++ [10%N] ++ spaces (ind + gap) ++
                     join (lit "," ++ [10%N] ++ spaces (ind + gap)) parts ++
                     [10%N] ++ spaces ind ++ lit "}")
        end
    end.
Proof. reflexivity. Qed.

Lemma member_parts_manifest (m : Manifest) :
  member_parts 2 2 (props_of m) = map member_text m.
Proof.
  induction m as [|[k a] m IH]; [reflexivity|].
  cbn [props_of map member_parts fst snd].
  rewrite serialize_assets. unfold member_text. cbn [fst snd].
  f_equal. exact IH.
Qed.

Lemma join_members (more : Manifest) :
  forall e,
    join (sep 2) (map member_text (e :: more)) ++ nl ++ spaces 0 ++ lit "}"
    = members_text e more [].
Proof.
  induction more as [|e' more IH]; intros e.
  - cbn [map join members_text]. now rewrite app_nil_r.
  - change (map member_text (e :: e' :: more))
      with (member_text e :: map member_text (e' :: more)).
    cbn [join]. cbn [map] in *. cbn [members_text].
    rewrite <- !app_assoc. now rewrite IH.
Qed.

Lemma stringify_pretty_manifest_text (m : Manifest) :
  stringify_pretty (manifest_value m) = Some (object_text m).
Proof.
  unfold stringify_pretty, manifest_value.
  change (map (fun ka => (fst ka, VArray (map VString (snd ka)))) m) with (props_of m).
  rewrite serialize_object_eq. change (0 + 2)%nat with 2%nat.
  rewrite member_parts_manifest.
  destruct m as [|e more]; [reflexivity|].
  cbn [map]. cbv zeta. unfold object_text. do 4 f_equal.
  change (lit "," ++ [10%N] ++ spaces 2) with (sep 2).
  exact (join_members more e).
Qed.

(** *** The text is long enough for the parser's fuel *)

Lemma elems_text_length (ind stepback : nat) (more : list jsstring) :
  forall s rest, (length more < length (elems_text ind stepback s more rest))%nat.
Proof.
  induction more as [|s' more IH]; intros s rest; cbn [elems_text].
  - rewrite quote_app. simpl. lia.
  - rewrite quote_app. cbn [length]. rewrite !length_app. cbn [length].
    rewrite length_app. specialize (IH s' rest). lia.
Qed.

Lemma array_text_length (ind : nat) (a : list jsstring) :
  (length a < length (array_text ind a))%nat.
Proof.
  destruct a as [|s more]; [simpl; lia|].
  unfold array_text. rewrite !length_app.
  pose proof (elems_text_length (ind + 2) ind more s []). simpl. lia.
Qed.

Lemma members_text_length (more : Manifest) :
  forall e rest, (weight (e :: more) <= length (members_text e more rest))%nat.
Proof.
  induction more as [|e' more IH]; intros [k a] rest;
    cbn [members_text]; unfold member_text; cbn [fst snd];
    rewrite <- !app_assoc, quote_app;
    pose proof (array_text_length 2 a) as Ha.
  - cbn [weight]. repeat first [rewrite length_app | progress cbn [length]].
    unfold char16 in *. lia.
  - specialize (IH e' rest).
    change (weight ((k, a) :: e' :: more)) with (S (length a) + weight (e' :: more))%nat.
    repeat first [rewrite length_app | progress cbn [length]].
    unfold char16 in *. lia.
Qed.

Lemma parse_stringify_pretty_manifest (m : Manifest) :
  plain_keys m = true ->
  parse (interpolate (stringify_pretty (manifest_value m))) = Ok (manifest_value m).
Proof.
  intros Hk. rewrite stringify_pretty_manifest_text. cbn [interpolate].
  destruct m as [|e more]; [reflexivity|].
  unfold parse. rewrite parse_object_text; [reflexivity | exact Hk |].
  unfold object_text.
  pose proof (members_text_length more e []) as Hl.
  repeat first [rewrite length_app | progress cbn [length]].
  change (length (lit "{")) with 1%nat. change (length nl) with 1%nat.
  change (length (spaces 2)) with 2%nat.
  unfold char16 in *. lia.
Qed.

End ManifestRoundTrip.

(* ----------------------------------------------------------------- *)
(** ** The manifest that is served and written parses back *)

Module ManifestFile.
Import Js JsFacts Json Plugin TransformFacts MiddlewareFacts HarvestFacts
  ManifestRoundTrip.

#[local] Opaque stringify_pretty parse Fs.existsSync Fs.readFileSync
  Fs.unlinkSync Fs.writeFileSync endsWith.

(** The source that [load] returns for the manifest module is
    [export default ] followed by a JSON text that parses to the stored
    manifest, when this is a record of string arrays whose keys are
    distinct and are not array indices. *)
Theorem manifest_module_exports_the_manifest
        (options : option PluginOptions) (st : State) (m : Manifest) :
  manifestSource st = manifest_value m ->
  plain_keys m = true ->
  exists text,
    load options st (SSR_MANIFEST_NAME options)
    = Some (lit "export default " ++ text) /\
    parse text = Ok (manifestSource st).
Proof.
  intros Hm Hk. unfold load. rewrite str_eqb_refl.
  eexists. split; [reflexivity|].
  rewrite Hm. now apply parse_stringify_pretty_manifest.
Qed.

(** Whatever the manifest block of [buildStart] writes to a file parses
    back to the manifest it leaves in the store, when this is a record of
    string arrays whose keys are distinct and are not array indices. *)
Theorem written_manifest_parses_back
        (options : option PluginOptions) (host : BuildHost) (rc : ResolvedConfig)
        (file : jsstring) (st : State) (m : Manifest) (f d : jsstring) :
  In (EWriteFileSync f d) (trace_of (harvest_manifest options host rc file st)) ->
  manifestSource (state_of (harvest_manifest options host rc file st))
  = manifest_value m ->
  plain_keys m = true ->
  parse d = Ok (manifest_value m).
Proof.
  intros Hin Hst Hk. apply parse_stringify_pretty_manifest in Hk.
  run_build.
  repeat (branch; cbn in * );
    in_trace;
    subst;
    try match goal with
    | E : _ = manifest_value m |- _ => rewrite E in *
    end;
    match goal with
    | H : stringify_pretty (manifest_value m) = Some _ |- _ =>
        rewrite H in Hk; exact Hk
    end.
Qed.

End ManifestFile.

(* ----------------------------------------------------------------- *)
(** ** Instances of the manifest round trip *)

Module ManifestSamples.
Import Js JsFacts Json Plugin TransformFacts MiddlewareFacts HarvestFacts
  HarvestSamples ManifestRoundTrip ManifestFile.

Definition sample_manifest : Manifest :=
  [(lit "src/main.ts", [lit "/assets/main.css"; lit "/assets/main.js"]);
   (lit "src/App.vue", [])].

(** The disk as the client build of the sample host leaves it. *)
Definition built_disk : Fs.node :=
  match client_build manifest_text (lit "/proj/dist/www") build_disk with
  | Ok d => d
  | Throw _ => build_disk
  end.

Lemma manifest_module_exports_the_manifest_witness :
  plain_keys sample_manifest = true /\
  exists text,
    load None {| manifestSource := manifest_value sample_manifest;
                 templateSource := []; disk := build_disk |} (lit "ssr:manifest")
    = Some (lit "export default " ++ text) /\
    parse text = Ok (manifest_value sample_manifest).
Proof.
  split; [reflexivity|].
  exact (@manifest_module_exports_the_manifest None
           {| manifestSource := manifest_value sample_manifest;
              templateSource := []; disk := build_disk |}
           sample_manifest eq_refl eq_refl).
Defined.

Lemma written_manifest_parses_back_witness :
  let m := [(lit "src/main.ts", [lit "/assets/main.css"])] in
  let out := harvest_manifest (build_options None) (host_writing manifest_text)
               (sample_rc VUndefined) (lit "/proj/dist/www/ssr-manifest.json")
               (initial built_disk) in
  let text := interpolate (stringify_pretty (manifest_value m)) in
  In (EWriteFileSync (lit "/proj/dist/ssr-manifest.json") text) (trace_of out) /\
  manifestSource (state_of out) = manifest_value m /\
  plain_keys m = true /\
  parse text = Ok (manifest_value m).
Proof.
  intros m out text.
  assert (Hin : In (EWriteFileSync (lit "/proj/dist/ssr-manifest.json") text)
                   (trace_of out)).
  { vm_compute. repeat (first [left; reflexivity | right]). }
  split; [exact Hin|]. split; [reflexivity|]. split; [reflexivity|].
  exact (@written_manifest_parses_back (build_options None)
           (host_writing manifest_text) (sample_rc VUndefined)
           (lit "/proj/dist/www/ssr-manifest.json") (initial built_disk)
           m (lit "/proj/dist/ssr-manifest.json") text Hin eq_refl eq_refl).
Defined.

End ManifestSamples.
